(** * Self-hosted authentication core of the B2B starter kit

    A shallow embedding of the Go packages
    [internal/modules/auth/adapters/local] (password hasher, JWT manager,
    auth adapter), [internal/modules/users/domain] (entities, sentinel
    errors), [internal/modules/users/infra/repositories] and the SQL
    queries behind them, followed by the properties of the login, refresh,
    logout and password-change protocols.

    Conventions.
    - A Go [string] and a Go [[]byte] are both a Rocq [string]: a sequence
      of 8-bit [ascii] values, so [[]byte(s)] is the identity.
    - Go integers are [Z]; where Go wraps ([int32] arithmetic) the
      wrap-around is written out.
    - [time.Time] is a [Z] counting nanoseconds, [time.Duration] a [Z] of
      nanoseconds.  One adapter call observes one instant ([now]).
    - A Go result [(v, err)] where exactly one side is meaningful is a sum
      [T + error]; a lone [error] result is an [option error] ([None] is
      [nil]).
    - The store is the [World]: the rows of [users.users] and
      [users.refresh_tokens], changed as the SQL statements change them.
      What a call cannot know beforehand (the clock, a store call failing
      below the SQL level, random bytes) is its [Env].
    - Third-party functions whose code is not part of the repository
      (Argon2id, SHA-256, RSA signatures over JWTs, the Unicode tables)
      are variables of a section; what is assumed of them is stated where
      it is used.  The Go standard library functions on which the
      decoding of a password hash rests ([strings.Split], [fmt.Sscanf],
      [base64], [subtle.ConstantTimeCompare]) are written out.
    - Covered: [PasswordHasher], [JWTManager], and of [Adapter] the
      methods [VerifyToken], [Register], [Login], [RefreshTokens],
      [Logout], [LogoutAll], [ChangePassword] and [getRolePermissions];
      of the repositories, besides what those methods call,
      [UpdateEmailVerified], [Delete] and [DeleteExpired]. *)

From Stdlib Require Import ZArith NArith List String Ascii Bool Lia.
From Stdlib Require Import DecimalString DecimalN DecimalFacts FinFun.
Import ListNotations.

Local Open Scope string_scope.
Local Open Scope Z_scope.

(** ** Bytes *)

Definition code (c : ascii) : Z := Z.of_N (N_of_ascii c).
Definition chr (n : Z) : ascii := ascii_of_N (Z.to_N n).

(** ** Go error values

    Sentinel errors are compared by identity in Go, so each sentinel is a
    constructor of its own: [domain.ErrInvalidToken] and
    [local.ErrInvalidToken] carry the same text and are different values. *)

Inductive StoreOp : Type :=
| OpGetUserByID | OpGetUserByEmail | OpUpdateUserPassword | OpUpdateUserLastLogin
| OpIncrementFailedLoginAttempts | OpResetFailedLoginAttempts | OpLockUserAccount
| OpCreateRefreshToken | OpGetRefreshTokenByHash | OpRevokeRefreshToken
| OpRevokeAllUserRefreshTokens.

Inductive error : Type :=
(* users/domain/errors *)
| domain_ErrUserNotFound
| domain_ErrUserAlreadyExists
| domain_ErrInvalidCredentials
| domain_ErrAccountLocked
| domain_ErrAccountInactive
| domain_ErrInvalidToken
| domain_ErrTokenExpired
| domain_ErrEmailNotVerified
(* auth/adapters/local/jwt.go *)
| local_ErrInvalidToken
| local_ErrTokenExpired
(* database/sql and the driver *)
| sql_ErrNoRows
| pq_UniqueViolation (constraint : string)
| pq_ForeignKeyViolation (constraint : string)
| pq_NumericValueOutOfRange
| driver_Err (op : StoreOp)
(* io, fmt, strconv, encoding/base64 *)
| io_EOF
| io_ErrUnexpectedEOF
| strconv_ErrRange
| base64_CorruptInputError
(* github.com/golang-jwt/jwt *)
| jwt_ErrTokenSignatureInvalid
| jwt_ErrTokenInvalidClaims
| jwt_ErrTokenExpired
| jwt_ErrTokenNotValidYet
(* errors.New, fmt.Errorf("...: %w", err) and joined errors *)
| errors_New (msg : string)
| fmt_Errorf (msg : string) (wrapped : error)
| errors_Join (e1 e2 : error).

(** A call either returns or panics. *)
Inductive Outcome (A : Type) : Type :=
| Returns (a : A)
| Panics (msg : string).
Arguments Returns {A} a.
Arguments Panics {A} msg.

(** ** package strings *)

Module strings.

(** [strings.Split(s, sep)] for a one-byte separator. *)
Fixpoint Split (s : string) (sep : ascii) : list string :=
  match s with
  | EmptyString => [EmptyString]
  | String c rest =>
      if Ascii.eqb c sep then EmptyString :: Split rest sep
      else match Split rest sep with
           | h :: t => String c h :: t
           | [] => [String c EmptyString]
           end
  end.

End strings.

(** ** package encoding/base64: [RawStdEncoding]

    The 24-bit quantum [val] is assembled and cut with multiplications,
    quotients and remainders by powers of two, which is what the shifts
    and masks of the library compute on these ranges. *)

Module base64.

Definition encodeStd : string :=
  "ABCDEFGHIJKLMNOPQRSTUVWXYZabcdefghijklmnopqrstuvwxyz0123456789+/".

Definition enc (n : Z) : ascii :=
  match String.get (Z.to_nat n) encodeStd with
  | Some c => c
  | None => "A"%char
  end.

Fixpoint index_from (c : ascii) (alphabet : string) (i : Z) : option Z :=
  match alphabet with
  | EmptyString => None
  | String a rest => if Ascii.eqb a c then Some i else index_from c rest (i + 1)
  end.

(** [enc.decodeMap[c]]; [None] stands for the entry 0xff. *)
Definition decodeMap (c : ascii) : option Z := index_from c encodeStd 0.

(** [RawStdEncoding.EncodeToString]: no padding. *)
Fixpoint EncodeToString (src : string) : string :=
  match src with
  | String a (String b (String c rest)) =>
      let val := code a * 65536 + code b * 256 + code c in
      String (enc ((val / 262144) mod 64))
        (String (enc ((val / 4096) mod 64))
           (String (enc ((val / 64) mod 64))
              (String (enc (val mod 64)) (EncodeToString rest))))
  | String a (String b EmptyString) =>
      let val := code a * 65536 + code b * 256 in
      String (enc ((val / 262144) mod 64))
        (String (enc ((val / 4096) mod 64))
           (String (enc ((val / 64) mod 64)) EmptyString))
  | String a EmptyString =>
      let val := code a * 65536 in
      String (enc ((val / 262144) mod 64))
        (String (enc ((val / 4096) mod 64)) EmptyString)
  | EmptyString => EmptyString
  end.

(** The decoder reads the input byte by byte: a byte of the alphabet gives
    six bits, a carriage return or line feed is skipped, any other byte
    (the padding character included, the encoding has none) is corrupt. *)
Fixpoint sextets (src : string) : option (list Z) :=
  match src with
  | EmptyString => Some []
  | String c rest =>
      match decodeMap c with
      | Some v => option_map (cons v) (sextets rest)
      | None =>
          if (code c =? 10) || (code c =? 13) then sextets rest else None
      end
  end.

(** [decodeQuantum], not strict: four sextets give three bytes; a final
    group of two gives one byte, of three gives two, of one is corrupt. *)
Fixpoint quanta (l : list Z) : option string :=
  match l with
  | [] => Some EmptyString
  | [_] => None
  | [s0; s1] =>
      let val := s0 * 262144 + s1 * 4096 in
      Some (String (chr ((val / 65536) mod 256)) EmptyString)
  | [s0; s1; s2] =>
      let val := s0 * 262144 + s1 * 4096 + s2 * 64 in
      Some (String (chr ((val / 65536) mod 256))
              (String (chr ((val / 256) mod 256)) EmptyString))
  | s0 :: s1 :: s2 :: s3 :: rest =>
      let val := s0 * 262144 + s1 * 4096 + s2 * 64 + s3 in
      match quanta rest with
      | Some out =>
          Some (String (chr ((val / 65536) mod 256))
                  (String (chr ((val / 256) mod 256))
                     (String (chr (val mod 256)) out)))
      | None => None
      end
  end.

(** [RawStdEncoding.DecodeString]. *)
Definition DecodeString (s : string) : string + error :=
  match sextets s with
  | None => inr base64_CorruptInputError
  | Some l =>
      match quanta l with
      | Some out => inl out
      | None => inr base64_CorruptInputError
      end
  end.

End base64.

(** ** package encoding/hex *)

Module hex.

Definition hextable : string := "0123456789abcdef".

Definition digit (n : Z) : ascii :=
  match String.get (Z.to_nat n) hextable with
  | Some c => c
  | None => "0"%char
  end.

Fixpoint EncodeToString (src : string) : string :=
  match src with
  | EmptyString => EmptyString
  | String b rest =>
      String (digit (code b / 16)) (String (digit (code b mod 16)) (EncodeToString rest))
  end.

End hex.

(** ** package crypto/subtle *)

Module subtle.

Fixpoint xor_fold (x y : string) (v : Z) : Z :=
  match x, y with
  | String a x', String b y' => xor_fold x' y' (Z.lor v (Z.lxor (code a) (code b)))
  | _, _ => v
  end.

(** [ConstantTimeCompare]: 1 when the slices have equal length and
    contents, 0 otherwise. *)
Definition ConstantTimeCompare (x y : string) : Z :=
  if negb (Nat.eqb (String.length x) (String.length y)) then 0
  else if xor_fold x y 0 =? 0 then 1 else 0.

End subtle.

(** ** package fmt: [Sprintf] of [%d] and [Sscanf]

    [Sscanf] stops when the format is exhausted: input left over after the
    last verb is not looked at. *)

Module fmt.

(** [%d] of an integer. *)
Definition itoa (n : Z) : string :=
  if n <? 0 then String "-"%char (NilZero.string_of_uint (N.to_uint (Z.to_N (- n))))
  else NilZero.string_of_uint (N.to_uint (Z.to_N n)).

(** [strconv]: the value of a string of decimal digits. *)
Definition atoi (tok : string) : Z :=
  match NilEmpty.uint_of_string tok with
  | Some d => Z.of_N (N.of_uint d)
  | None => 0
  end.

Definition isDigit (c : ascii) : bool := (48 <=? code c) && (code c <=? 57).

(** The white space of [fmt] beyond ASCII, as UTF-8 byte sequences:
    U+0085 and U+00A0 take two bytes; U+1680, U+2000..U+200A, U+2028,
    U+2029, U+202F, U+205F and U+3000 take three. *)
Definition isSpace1 (c : ascii) : bool :=
  ((9 <=? code c) && (code c <=? 13)) || (code c =? 32).

Definition isSpace2 (c1 c2 : ascii) : bool :=
  (code c1 =? 194) && ((code c2 =? 133) || (code c2 =? 160)).

Definition isSpace3 (c1 c2 c3 : ascii) : bool :=
  ((code c1 =? 225) && (code c2 =? 154) && (code c3 =? 128))
  || ((code c1 =? 226) && (code c2 =? 128)
      && (((128 <=? code c3) && (code c3 <=? 138))
          || (code c3 =? 168) || (code c3 =? 169) || (code c3 =? 175)))
  || ((code c1 =? 226) && (code c2 =? 129) && (code c3 =? 159))
  || ((code c1 =? 227) && (code c2 =? 128) && (code c3 =? 128)).

(** [ss.SkipSpace] with [nlIsSpace] false: a line feed is an error. *)
Fixpoint SkipSpace (s : string) : string + error :=
  match s with
  | EmptyString => inl EmptyString
  | String c1 r1 =>
      if code c1 =? 10 then inr (errors_New "unexpected newline")
      else if isSpace1 c1 then SkipSpace r1
      else
        match r1 with
        | String c2 r2 =>
            if isSpace2 c1 c2 then SkipSpace r2
            else
              match r2 with
              | String c3 r3 => if isSpace3 c1 c2 c3 then SkipSpace r3 else inl s
              | EmptyString => inl s
              end
        | EmptyString => inl s
        end
  end.

(** [for s.accept(digits) {}]: the longest prefix of decimal digits. *)
Fixpoint acceptDigits (s : string) : string * string :=
  match s with
  | EmptyString => (EmptyString, EmptyString)
  | String c rest =>
      if isDigit c then
        let (tok, r) := acceptDigits rest in (String c tok, r)
      else (EmptyString, s)
  end.

(** [ss.scanNumber] on decimal digits: at least one digit. *)
Definition scanNumber (s : string) : (string * string) + error :=
  match s with
  | EmptyString => inr io_EOF
  | String c _ =>
      if isDigit c then inl (acceptDigits s)
      else inr (errors_New "expected integer")
  end.

(** [ss.scanUint(verb 'd', bitSize)]. *)
Definition scanUint (bitSize : Z) (s : string) : (Z * string) + error :=
  match SkipSpace s with
  | inr e => inr e
  | inl EmptyString => inr io_EOF
  | inl s1 =>
      match scanNumber s1 with
      | inr e => inr e
      | inl (tok, rest) =>
          let i := atoi tok in
          if 2 ^ 64 <=? i then inr strconv_ErrRange
          else if 2 ^ bitSize <=? i then
            inr (errors_New "unsigned integer overflow on token")
          else inl (i, rest)
      end
  end.

(** [ss.scanInt(verb 'd', bitSize)]: an optional sign, then digits. *)
Definition scanInt (bitSize : Z) (s : string) : (Z * string) + error :=
  match SkipSpace s with
  | inr e => inr e
  | inl EmptyString => inr io_EOF
  | inl (String c r as s1) =>
      let '(neg, s2) :=
        if code c =? 43 then (false, r)
        else if code c =? 45 then (true, r)
        else (false, s1) in
      match scanNumber s2 with
      | inr e => inr e
      | inl (tok, rest) =>
          let i := if neg then - atoi tok else atoi tok in
          if (i <? - 2 ^ 63) || (2 ^ 63 <=? i) then inr strconv_ErrRange
          else if (i <? - 2 ^ (bitSize - 1)) || (2 ^ (bitSize - 1) <=? i) then
            inr (errors_New "integer overflow on token")
          else inl (i, rest)
      end
  end.

(** One item of a format string: a literal byte, or [%d] into a signed
    or an unsigned integer of the given size. *)
Inductive Item : Type :=
| Lit (c : ascii)
| VerbInt (bitSize : Z)
| VerbUint (bitSize : Z).

(** [ss.doScanf]: the values scanned, in order. *)
Fixpoint doScanf (format : list Item) (s : string) : list Z + error :=
  match format with
  | [] => inl []
  | Lit c :: format' =>
      match s with
      | EmptyString => inr io_ErrUnexpectedEOF
      | String c' rest =>
          if Ascii.eqb c c' then doScanf format' rest
          else inr (errors_New "input does not match format")
      end
  | VerbInt bits :: format' =>
      match SkipSpace s with
      | inr e => inr e
      | inl s1 =>
          match scanInt bits s1 with
          | inr e => inr e
          | inl (v, rest) =>
              match doScanf format' rest with
              | inr e => inr e
              | inl vs => inl (v :: vs)
              end
          end
      end
  | VerbUint bits :: format' =>
      match SkipSpace s with
      | inr e => inr e
      | inl s1 =>
          match scanUint bits s1 with
          | inr e => inr e
          | inl (v, rest) =>
              match doScanf format' rest with
              | inr e => inr e
              | inl vs => inl (v :: vs)
              end
          end
      end
  end.

End fmt.

(** ** package errors *)

(** A code for each sentinel; [None] for an error built at run time. *)
Definition sentinel (e : error) : option Z :=
  match e with
  | domain_ErrUserNotFound => Some 1
  | domain_ErrUserAlreadyExists => Some 2
  | domain_ErrInvalidCredentials => Some 3
  | domain_ErrAccountLocked => Some 4
  | domain_ErrAccountInactive => Some 5
  | domain_ErrInvalidToken => Some 6
  | domain_ErrTokenExpired => Some 7
  | domain_ErrEmailNotVerified => Some 8
  | local_ErrInvalidToken => Some 9
  | local_ErrTokenExpired => Some 10
  | sql_ErrNoRows => Some 11
  | io_EOF => Some 12
  | io_ErrUnexpectedEOF => Some 13
  | strconv_ErrRange => Some 14
  | jwt_ErrTokenSignatureInvalid => Some 15
  | jwt_ErrTokenInvalidClaims => Some 16
  | jwt_ErrTokenExpired => Some 17
  | jwt_ErrTokenNotValidYet => Some 18
  | _ => None
  end.

Fixpoint unwraps_to (code : Z) (err : error) : bool :=
  match sentinel err with
  | Some c => c =? code
  | None =>
      match err with
      | fmt_Errorf _ wrapped => unwraps_to code wrapped
      | errors_Join e1 e2 => unwraps_to code e1 || unwraps_to code e2
      | _ => false
      end
  end.

(** [errors.Is(err, target)] for a sentinel [target]. *)
Definition errors_Is (err target : error) : bool :=
  match sentinel target with
  | Some c => unwraps_to c err
  | None => false
  end.

(** ** package users/domain: entities *)

Module domain.

Inductive UserStatus : Type :=
| UserStatusPendingVerification
| UserStatusActive
| UserStatusSuspended
| UserStatusDeleted.

Definition UserStatus_eqb (a b : UserStatus) : bool :=
  match a, b with
  | UserStatusPendingVerification, UserStatusPendingVerification
  | UserStatusActive, UserStatusActive
  | UserStatusSuspended, UserStatusSuspended
  | UserStatusDeleted, UserStatusDeleted => true
  | _, _ => false
  end.

Inductive UserRole : Type :=
| RoleUser
| RoleAdmin.

(** [string(user.Role)]. *)
Definition UserRole_string (r : UserRole) : string :=
  match r with
  | RoleUser => "user"
  | RoleAdmin => "admin"
  end.

Record User : Type := {
  ID : Z;
  Email : string;
  PasswordHash : string;
  EmailVerified : bool;
  FullName : option string;
  AvatarURL : option string;
  Status : UserStatus;
  Role : UserRole;
  FailedLoginAttempts : Z;
  LockedUntil : option Z;
  PasswordChangedAt : option Z;
  LastLoginAt : option Z;
  LastLoginIP : option string;
  CreatedAt : Z;
  UpdatedAt : Z
}.

(** [User.IsLocked], with [time.Now()] passed in. *)
Definition IsLocked (now : Z) (u : User) : bool :=
  match LockedUntil u with
  | None => false
  | Some until => now <? until
  end.

Record RefreshToken : Type := {
  TokenID : Z;
  UserID : Z;
  TokenHash : string;
  ExpiresAt : Z;
  Revoked : bool;
  RevokedAt : option Z;
  DeviceInfo : option string;
  IPAddress : option string;
  UserAgent : option string;
  TokenCreatedAt : Z
}.

(** [CreateUserInput] of the repository interface. *)
Record CreateUserInput : Type := {
  InputEmail : string;
  InputPasswordHash : string;
  InputFullName : option string;
  InputRole : UserRole
}.

Definition ErrUserNotFound := domain_ErrUserNotFound.
Definition ErrInvalidCredentials := domain_ErrInvalidCredentials.
Definition ErrAccountLocked := domain_ErrAccountLocked.
Definition ErrAccountInactive := domain_ErrAccountInactive.
Definition ErrInvalidToken := domain_ErrInvalidToken.
Definition ErrTokenExpired := domain_ErrTokenExpired.
Definition ErrEmailNotVerified := domain_ErrEmailNotVerified.

End domain.

(** ** The world outside the adapter

    The two tables of schema [users] that the adapter reaches, the sequence
    behind [refresh_tokens.id], and the log.  The rows are kept as the
    domain records: the generated [sqlc] structs carry the same fields,
    with a [sql.Null*] where the domain record has a pointer. *)

Inductive LogLevel : Type := LevelInfo | LevelError.

Record LogEntry : Type := {
  level : LogLevel;
  message : string;
  log_error : option error;
  log_user_id : Z
}.

Record World : Type := {
  users : list domain.User;
  refresh_tokens : list domain.RefreshToken;
  refresh_tokens_id_seq : Z;
  logs : list LogEntry
}.

(** What one call observes of its environment: the clock, which store
    calls fail below the SQL level (connection, timeout, cancelled
    context), the random bytes and the two UUIDs it draws. *)
Record Env : Type := {
  now : Z;
  down : StoreOp -> bool;
  rand_Read : Z -> option string;
  uuid_New : Z -> string
}.

(** What an [INSERT INTO users.users] meets at the server besides the
    clock: the error with which the statement fails below the SQL level,
    if it does; the value drawn from the sequence behind [users.id]; and
    the assignment of a text to a column of type [character varying(n)],
    which yields the text as stored or the server's refusal. *)
Record InsertUser : Type := {
  insert_fault : option error;
  users_id_nextval : Z;
  character_varying : Z -> string -> string + error
}.

(** State passing with panics. *)
Definition M (A : Type) : Type := World -> Outcome A * World.

Definition ret {A : Type} (a : A) : M A := fun w => (Returns a, w).

Definition bind {A B : Type} (m : M A) (k : A -> M B) : M B :=
  fun w =>
    match m w with
    | (Returns a, w') => k a w'
    | (Panics msg, w') => (Panics msg, w')
    end.

Definition lift {A : Type} (o : Outcome A) : M A := fun w => (o, w).

Declare Scope go_scope.
Delimit Scope go_scope with go.
Notation "x <- m ;; k" := (bind m (fun x => k))
  (at level 61, m at next level, right associativity) : go_scope.
Notation "m ;;; k" := (bind m (fun _ => k))
  (at level 61, right associativity) : go_scope.

(** [a.log.Error(msg, {"error": err, "user_id": id})] and [a.log.Info]. *)
Definition log_Error (msg : string) (err : error) (user_id : Z) : M unit :=
  fun w =>
    (Returns tt,
     {| users := users w; refresh_tokens := refresh_tokens w;
        refresh_tokens_id_seq := refresh_tokens_id_seq w;
        logs := logs w ++ [{| level := LevelError; message := msg;
                              log_error := Some err; log_user_id := user_id |}] |}).

Definition log_Info (msg : string) (user_id : Z) : M unit :=
  fun w =>
    (Returns tt,
     {| users := users w; refresh_tokens := refresh_tokens w;
        refresh_tokens_id_seq := refresh_tokens_id_seq w;
        logs := logs w ++ [{| level := LevelInfo; message := msg;
                              log_error := None; log_user_id := user_id |}] |}).

(** [if err != nil { a.log.Error(...) }]. *)
Definition log_if_err (msg : string) (err : option error) (user_id : Z) : M unit :=
  match err with
  | Some e => log_Error msg e user_id
  | None => ret tt
  end.

(** ** The SQL queries (sqlc), over the schema of migration 000010

    [users.id] is the primary key; [refresh_tokens.token_hash] is UNIQUE
    and [refresh_tokens.user_id] references [users.id]; the trigger
    [update_users_updated_at] stamps every updated [users] row.
    A query on which the store is [down] returns the driver's error and
    changes nothing. *)

Module sqlc.

Section Queries.

Variable env : Env.

Definition set_users (us : list domain.User) (w : World) : World :=
  {| users := us; refresh_tokens := refresh_tokens w;
     refresh_tokens_id_seq := refresh_tokens_id_seq w; logs := logs w |}.

Definition set_refresh_tokens (ts : list domain.RefreshToken) (w : World) : World :=
  {| users := users w; refresh_tokens := ts;
     refresh_tokens_id_seq := refresh_tokens_id_seq w; logs := logs w |}.

(** [BEFORE UPDATE ... NEW.updated_at = NOW()]. *)
Definition touch (u : domain.User) : domain.User :=
  {| domain.ID := domain.ID u; domain.Email := domain.Email u;
     domain.PasswordHash := domain.PasswordHash u;
     domain.EmailVerified := domain.EmailVerified u;
     domain.FullName := domain.FullName u; domain.AvatarURL := domain.AvatarURL u;
     domain.Status := domain.Status u; domain.Role := domain.Role u;
     domain.FailedLoginAttempts := domain.FailedLoginAttempts u;
     domain.LockedUntil := domain.LockedUntil u;
     domain.PasswordChangedAt := domain.PasswordChangedAt u;
     domain.LastLoginAt := domain.LastLoginAt u;
     domain.LastLoginIP := domain.LastLoginIP u;
     domain.CreatedAt := domain.CreatedAt u; domain.UpdatedAt := now env |}.

(** [UPDATE users.users SET ... WHERE id = $1]. *)
Definition update_users_where_id (id : Z) (set : domain.User -> domain.User)
    (us : list domain.User) : list domain.User :=
  map (fun u => if domain.ID u =? id then touch (set u) else u) us.

(** [SELECT * FROM users.users WHERE id = $1]. *)
Definition GetUserByID (id : Z) : M (domain.User + error) :=
  fun w =>
    if down env OpGetUserByID then (Returns (inr (driver_Err OpGetUserByID)), w)
    else
      match find (fun u => domain.ID u =? id) (users w) with
      | Some u => (Returns (inl u), w)
      | None => (Returns (inr sql_ErrNoRows), w)
      end.

(** [SELECT * FROM users.users WHERE email = $1]. *)
Definition GetUserByEmail (email : string) : M (domain.User + error) :=
  fun w =>
    if down env OpGetUserByEmail then (Returns (inr (driver_Err OpGetUserByEmail)), w)
    else
      match find (fun u => String.eqb (domain.Email u) email) (users w) with
      | Some u => (Returns (inl u), w)
      | None => (Returns (inr sql_ErrNoRows), w)
      end.

(** [SET password_hash = $2, password_changed_at = NOW() WHERE id = $1]. *)
Definition set_password (passwordHash : string) (u : domain.User) : domain.User :=
  {| domain.ID := domain.ID u; domain.Email := domain.Email u;
     domain.PasswordHash := passwordHash;
     domain.EmailVerified := domain.EmailVerified u;
     domain.FullName := domain.FullName u; domain.AvatarURL := domain.AvatarURL u;
     domain.Status := domain.Status u; domain.Role := domain.Role u;
     domain.FailedLoginAttempts := domain.FailedLoginAttempts u;
     domain.LockedUntil := domain.LockedUntil u;
     domain.PasswordChangedAt := Some (now env);
     domain.LastLoginAt := domain.LastLoginAt u;
     domain.LastLoginIP := domain.LastLoginIP u;
     domain.CreatedAt := domain.CreatedAt u; domain.UpdatedAt := domain.UpdatedAt u |}.

Definition UpdateUserPassword (id : Z) (passwordHash : string) : M (option error) :=
  fun w =>
    if down env OpUpdateUserPassword then
      (Returns (Some (driver_Err OpUpdateUserPassword)), w)
    else
      (Returns None,
       set_users (update_users_where_id id (set_password passwordHash) (users w)) w).

(** [SET last_login_at = NOW(), last_login_ip = $2 WHERE id = $1]. *)
Definition set_last_login (ip : option string) (u : domain.User) : domain.User :=
  {| domain.ID := domain.ID u; domain.Email := domain.Email u;
     domain.PasswordHash := domain.PasswordHash u;
     domain.EmailVerified := domain.EmailVerified u;
     domain.FullName := domain.FullName u; domain.AvatarURL := domain.AvatarURL u;
     domain.Status := domain.Status u; domain.Role := domain.Role u;
     domain.FailedLoginAttempts := domain.FailedLoginAttempts u;
     domain.LockedUntil := domain.LockedUntil u;
     domain.PasswordChangedAt := domain.PasswordChangedAt u;
     domain.LastLoginAt := Some (now env);
     domain.LastLoginIP := ip;
     domain.CreatedAt := domain.CreatedAt u; domain.UpdatedAt := domain.UpdatedAt u |}.

Definition UpdateUserLastLogin (id : Z) (ip : option string) : M (option error) :=
  fun w =>
    if down env OpUpdateUserLastLogin then
      (Returns (Some (driver_Err OpUpdateUserLastLogin)), w)
    else
      (Returns None,
       set_users (update_users_where_id id (set_last_login ip) (users w)) w).

(** [SET failed_login_attempts = failed_login_attempts + 1 WHERE id = $1];
    the column is a 32-bit INTEGER and the sum must fit. *)
Definition set_failed_attempts (n : Z) (locked : option Z) (u : domain.User) : domain.User :=
  {| domain.ID := domain.ID u; domain.Email := domain.Email u;
     domain.PasswordHash := domain.PasswordHash u;
     domain.EmailVerified := domain.EmailVerified u;
     domain.FullName := domain.FullName u; domain.AvatarURL := domain.AvatarURL u;
     domain.Status := domain.Status u; domain.Role := domain.Role u;
     domain.FailedLoginAttempts := n;
     domain.LockedUntil := locked;
     domain.PasswordChangedAt := domain.PasswordChangedAt u;
     domain.LastLoginAt := domain.LastLoginAt u;
     domain.LastLoginIP := domain.LastLoginIP u;
     domain.CreatedAt := domain.CreatedAt u; domain.UpdatedAt := domain.UpdatedAt u |}.

Definition IncrementFailedLoginAttempts (id : Z) : M (option error) :=
  fun w =>
    if down env OpIncrementFailedLoginAttempts then
      (Returns (Some (driver_Err OpIncrementFailedLoginAttempts)), w)
    else if existsb (fun u => (domain.ID u =? id)
                              && (2147483647 <=? domain.FailedLoginAttempts u)) (users w)
    then (Returns (Some pq_NumericValueOutOfRange), w)
    else
      (Returns None,
       set_users
         (update_users_where_id id
            (fun u => set_failed_attempts (domain.FailedLoginAttempts u + 1)
                        (domain.LockedUntil u) u) (users w)) w).

(** [SET failed_login_attempts = 0, locked_until = NULL WHERE id = $1]. *)
Definition ResetFailedLoginAttempts (id : Z) : M (option error) :=
  fun w =>
    if down env OpResetFailedLoginAttempts then
      (Returns (Some (driver_Err OpResetFailedLoginAttempts)), w)
    else
      (Returns None,
       set_users (update_users_where_id id (set_failed_attempts 0 None) (users w)) w).

(** [SET locked_until = $2 WHERE id = $1]. *)
Definition LockUserAccount (id : Z) (lockedUntil : Z) : M (option error) :=
  fun w =>
    if down env OpLockUserAccount then
      (Returns (Some (driver_Err OpLockUserAccount)), w)
    else
      (Returns None,
       set_users
         (update_users_where_id id
            (fun u => set_failed_attempts (domain.FailedLoginAttempts u)
                        (Some lockedUntil) u) (users w)) w).

(** [INSERT INTO users.refresh_tokens (...) VALUES (...) RETURNING *].
    The id is drawn from the sequence before the constraints are checked,
    so a rejected insert still advances the sequence. *)
Definition CreateRefreshToken (userID : Z) (tokenHash : string) (expiresAt : Z)
    (deviceInfo ipAddress userAgent : option string) : M (domain.RefreshToken + error) :=
  fun w =>
    if down env OpCreateRefreshToken then
      (Returns (inr (driver_Err OpCreateRefreshToken)), w)
    else
      let id := refresh_tokens_id_seq w + 1 in
      let drawn :=
        {| users := users w; refresh_tokens := refresh_tokens w;
           refresh_tokens_id_seq := id; logs := logs w |} in
      if existsb (fun t => String.eqb (domain.TokenHash t) tokenHash) (refresh_tokens w)
      then (Returns (inr (pq_UniqueViolation "refresh_tokens_token_hash_key")), drawn)
      else if negb (existsb (fun u => domain.ID u =? userID) (users w))
      then (Returns (inr (pq_ForeignKeyViolation "refresh_tokens_user_id_fkey")), drawn)
      else
        let row :=
          {| domain.TokenID := id; domain.UserID := userID;
             domain.TokenHash := tokenHash; domain.ExpiresAt := expiresAt;
             domain.Revoked := false; domain.RevokedAt := None;
             domain.DeviceInfo := deviceInfo; domain.IPAddress := ipAddress;
             domain.UserAgent := userAgent; domain.TokenCreatedAt := now env |} in
        (Returns (inl row), set_refresh_tokens (refresh_tokens w ++ [row]) drawn).

(** [WHERE token_hash = $1 AND expires_at > NOW()]. *)
Definition GetRefreshTokenByHash (tokenHash : string) : M (domain.RefreshToken + error) :=
  fun w =>
    if down env OpGetRefreshTokenByHash then
      (Returns (inr (driver_Err OpGetRefreshTokenByHash)), w)
    else
      match find (fun t => String.eqb (domain.TokenHash t) tokenHash
                           && (now env <? domain.ExpiresAt t)) (refresh_tokens w) with
      | Some t => (Returns (inl t), w)
      | None => (Returns (inr sql_ErrNoRows), w)
      end.

(** [SET revoked = TRUE, revoked_at = NOW()]. *)
Definition revoke (t : domain.RefreshToken) : domain.RefreshToken :=
  {| domain.TokenID := domain.TokenID t; domain.UserID := domain.UserID t;
     domain.TokenHash := domain.TokenHash t; domain.ExpiresAt := domain.ExpiresAt t;
     domain.Revoked := true; domain.RevokedAt := Some (now env);
     domain.DeviceInfo := domain.DeviceInfo t; domain.IPAddress := domain.IPAddress t;
     domain.UserAgent := domain.UserAgent t;
     domain.TokenCreatedAt := domain.TokenCreatedAt t |}.

(** [... WHERE token_hash = $1]. *)
Definition RevokeRefreshToken (tokenHash : string) : M (option error) :=
  fun w =>
    if down env OpRevokeRefreshToken then
      (Returns (Some (driver_Err OpRevokeRefreshToken)), w)
    else
      (Returns None,
       set_refresh_tokens
         (map (fun t => if String.eqb (domain.TokenHash t) tokenHash then revoke t else t)
            (refresh_tokens w)) w).

(** [... WHERE user_id = $1 AND revoked = FALSE]. *)
Definition RevokeAllUserRefreshTokens (userID : Z) : M (option error) :=
  fun w =>
    if down env OpRevokeAllUserRefreshTokens then
      (Returns (Some (driver_Err OpRevokeAllUserRefreshTokens)), w)
    else
      (Returns None,
       set_refresh_tokens
         (map (fun t => if (domain.UserID t =? userID) && negb (domain.Revoked t)
                        then revoke t else t)
            (refresh_tokens w)) w).

(** [INSERT INTO users.users (email, password_hash, full_name, status,
    role) VALUES ($1, $2, $3, $4, $5) RETURNING *].  The three texts are
    assigned to columns of type [character varying(255)]; the columns left
    out take their defaults; the primary key and the UNIQUE constraint on
    [email] are checked in that order. *)
Definition CreateUser (ins : InsertUser) (email passwordHash : string)
    (fullName : option string) (status : domain.UserStatus) (role : domain.UserRole)
  : M (domain.User + error) :=
  fun w =>
    match insert_fault ins with
    | Some err => (Returns (inr err), w)
    | None =>
        match character_varying ins 255 email with
        | inr err => (Returns (inr err), w)
        | inl storedEmail =>
            match character_varying ins 255 passwordHash with
            | inr err => (Returns (inr err), w)
            | inl storedHash =>
                let storedName :=
                  match fullName with
                  | None => inl None
                  | Some name =>
                      match character_varying ins 255 name with
                      | inr err => inr err
                      | inl stored => inl (Some stored)
                      end
                  end in
                match storedName with
                | inr err => (Returns (inr err), w)
                | inl storedFullName =>
                    let id := users_id_nextval ins in
                    if existsb (fun u => domain.ID u =? id) (users w) then
                      (Returns (inr (pq_UniqueViolation "users_pkey")), w)
                    else if existsb (fun u => String.eqb (domain.Email u) storedEmail)
                              (users w) then
                      (Returns (inr (pq_UniqueViolation "users_email_key")), w)
                    else
                      let row :=
                        {| domain.ID := id; domain.Email := storedEmail;
                           domain.PasswordHash := storedHash;
                           domain.EmailVerified := false;
                           domain.FullName := storedFullName;
                           domain.AvatarURL := None;
                           domain.Status := status; domain.Role := role;
                           domain.FailedLoginAttempts := 0;
                           domain.LockedUntil := None;
                           domain.PasswordChangedAt := None;
                           domain.LastLoginAt := None;
                           domain.LastLoginIP := None;
                           domain.CreatedAt := now env;
                           domain.UpdatedAt := now env |} in
                      (Returns (inl row), set_users (users w ++ [row]) w)
                end
            end
        end
    end.

(** [SET email_verified = TRUE, status = 'active' WHERE id = $1]. *)
Definition set_email_verified (u : domain.User) : domain.User :=
  {| domain.ID := domain.ID u; domain.Email := domain.Email u;
     domain.PasswordHash := domain.PasswordHash u;
     domain.EmailVerified := true;
     domain.FullName := domain.FullName u; domain.AvatarURL := domain.AvatarURL u;
     domain.Status := domain.UserStatusActive; domain.Role := domain.Role u;
     domain.FailedLoginAttempts := domain.FailedLoginAttempts u;
     domain.LockedUntil := domain.LockedUntil u;
     domain.PasswordChangedAt := domain.PasswordChangedAt u;
     domain.LastLoginAt := domain.LastLoginAt u;
     domain.LastLoginIP := domain.LastLoginIP u;
     domain.CreatedAt := domain.CreatedAt u; domain.UpdatedAt := domain.UpdatedAt u |}.

(** The statements below are not reached from the adapter; the error
    with which one fails below the SQL level, if it does, is [fault]. *)
Definition UpdateUserEmailVerified (fault : option error) (id : Z) : M (option error) :=
  fun w =>
    match fault with
    | Some err => (Returns (Some err), w)
    | None =>
        (Returns None, set_users (update_users_where_id id set_email_verified (users w)) w)
    end.

(** [DELETE FROM users.users WHERE id = $1]; the rows of
    [users.refresh_tokens] that reference the user go with it
    ([ON DELETE CASCADE]). *)
Definition DeleteUser (fault : option error) (id : Z) : M (option error) :=
  fun w =>
    match fault with
    | Some err => (Returns (Some err), w)
    | None =>
        (Returns None,
         {| users := filter (fun u => negb (domain.ID u =? id)) (users w);
            refresh_tokens :=
              filter (fun t => negb (domain.UserID t =? id)) (refresh_tokens w);
            refresh_tokens_id_seq := refresh_tokens_id_seq w; logs := logs w |})
    end.

(** [WHERE expires_at < NOW() OR (revoked = TRUE AND revoked_at < NOW() -
    INTERVAL '7 days')]: the rows the DELETE selects.  [sevenDaysAgo] is
    the instant the server computes for [NOW() - INTERVAL '7 days'] (it
    depends on the time zone of the session); a NULL [revoked_at] makes the
    comparison unknown and the row is not selected by it. *)
Definition expired_or_long_revoked (sevenDaysAgo : Z) (t : domain.RefreshToken) : bool :=
  (domain.ExpiresAt t <? now env)
  || (domain.Revoked t
      && match domain.RevokedAt t with
         | Some revokedAt => revokedAt <? sevenDaysAgo
         | None => false
         end).

(** [DELETE FROM users.refresh_tokens WHERE ...]. *)
Definition DeleteExpiredRefreshTokens (fault : option error) (sevenDaysAgo : Z)
  : M (option error) :=
  fun w =>
    match fault with
    | Some err => (Returns (Some err), w)
    | None =>
        (Returns None,
         set_refresh_tokens
           (filter (fun t => negb (expired_or_long_revoked sevenDaysAgo t))
              (refresh_tokens w)) w)
    end.

End Queries.

End sqlc.

(** ** package users/infra/repositories *)

Module repositories.

Section Repositories.

Variable env : Env.

Local Open Scope go_scope.

(** [UserRepository.GetByID]. *)
Definition UserGetByID (id : Z) : M (domain.User + error) :=
  r <- sqlc.GetUserByID env id ;;
  match r with
  | inr err =>
      if errors_Is err sql_ErrNoRows then ret (inr domain.ErrUserNotFound)
      else ret (inr err)
  | inl user => ret (inl user)
  end.

(** [UserRepository.GetByEmail]. *)
Definition UserGetByEmail (email : string) : M (domain.User + error) :=
  r <- sqlc.GetUserByEmail env email ;;
  match r with
  | inr err =>
      if errors_Is err sql_ErrNoRows then ret (inr domain.ErrUserNotFound)
      else ret (inr err)
  | inl user => ret (inl user)
  end.

Definition UpdatePassword (id : Z) (passwordHash : string) : M (option error) :=
  sqlc.UpdateUserPassword env id passwordHash.

(** [UpdateLastLogin]: the IP is NULL when the string is empty. *)
Definition UpdateLastLogin (id : Z) (ip : string) : M (option error) :=
  sqlc.UpdateUserLastLogin env id (if String.eqb ip "" then None else Some ip).

Definition IncrementFailedLoginAttempts (id : Z) : M (option error) :=
  sqlc.IncrementFailedLoginAttempts env id.

Definition ResetFailedLoginAttempts (id : Z) : M (option error) :=
  sqlc.ResetFailedLoginAttempts env id.

Definition LockAccount (id : Z) (until : Z) : M (option error) :=
  sqlc.LockUserAccount env id until.

(** [RefreshTokenRepository.Create]. *)
Definition Create (userID : Z) (tokenHash : string) (expiresAt : Z)
    (deviceInfo ipAddress userAgent : option string) : M (domain.RefreshToken + error) :=
  sqlc.CreateRefreshToken env userID tokenHash expiresAt deviceInfo ipAddress userAgent.

(** [RefreshTokenRepository.GetByHash]. *)
Definition GetByHash (tokenHash : string) : M (domain.RefreshToken + error) :=
  r <- sqlc.GetRefreshTokenByHash env tokenHash ;;
  match r with
  | inr err =>
      if errors_Is err sql_ErrNoRows then ret (inr domain.ErrInvalidToken)
      else ret (inr err)
  | inl token => ret (inl token)
  end.

Definition Revoke (tokenHash : string) : M (option error) :=
  sqlc.RevokeRefreshToken env tokenHash.

Definition RevokeAllForUser (userID : Z) : M (option error) :=
  sqlc.RevokeAllUserRefreshTokens env userID.

(** [UserRepository.Create]: the status is [pending_verification]. *)
Definition UserCreate (ins : InsertUser) (input : domain.CreateUserInput)
  : M (domain.User + error) :=
  sqlc.CreateUser env ins (domain.InputEmail input) (domain.InputPasswordHash input)
    (domain.InputFullName input) domain.UserStatusPendingVerification
    (domain.InputRole input).

(** [UserRepository.UpdateEmailVerified]. *)
Definition UpdateEmailVerified (fault : option error) (id : Z) : M (option error) :=
  sqlc.UpdateUserEmailVerified env fault id.

(** [UserRepository.Delete]. *)
Definition Delete (fault : option error) (id : Z) : M (option error) :=
  sqlc.DeleteUser fault id.

(** [RefreshTokenRepository.DeleteExpired]. *)
Definition DeleteExpired (fault : option error) (sevenDaysAgo : Z) : M (option error) :=
  sqlc.DeleteExpiredRefreshTokens env fault sevenDaysAgo.

End Repositories.

End repositories.

(** ** package auth: the identity of a request

    [Identity] with the fields the adapter fills; [Role] is a string
    type, and the values of the map [Raw] are an [int32], a string and a
    [time.Time].  The type [Permission], its constructor [NewPermission]
    and the constants [RoleAdmin] and [RoleUser] are parameters of the
    adapter below. *)

Module auth.

Inductive RawValue : Type :=
| RawInt32 (n : Z)
| RawString (s : string)
| RawTime (t : Z).

Record Identity (Permission : Type) : Type := {
  UserID : string;
  Email : string;
  EmailVerified : bool;
  Roles : list string;
  Permissions : list Permission;
  ExpiresAt : Z;
  Raw : list (string * RawValue)
}.
Arguments UserID {Permission} _.
Arguments Email {Permission} _.
Arguments EmailVerified {Permission} _.
Arguments Roles {Permission} _.
Arguments Permissions {Permission} _.
Arguments ExpiresAt {Permission} _.
Arguments Raw {Permission} _.

End auth.

(** ** package auth/adapters/local *)

Module local.

Definition ErrInvalidToken := local_ErrInvalidToken.
Definition ErrTokenExpired := local_ErrTokenExpired.

(** [Config].  The RSA keys are their encodings. *)
Record Config : Type := {
  Issuer : string;
  Audience : string;
  AccessTokenDuration : Z;
  RefreshTokenDuration : Z;
  PrivateKey : string;
  PublicKey : string;
  PasswordMinLength : Z;
  PasswordRequireUpper : bool;
  PasswordRequireLower : bool;
  PasswordRequireDigit : bool;
  PasswordRequireSpecial : bool;
  MaxFailedAttempts : Z;
  LockoutDuration : Z
}.

(** *** password.go *)

Record PasswordHasher : Type := {
  hasher_config : Config;
  memory : Z;
  iterations : Z;
  parallelism : Z;
  saltLength : Z;
  keyLength : Z
}.

Definition NewPasswordHasher (config : Config) : PasswordHasher :=
  {| hasher_config := config;
     memory := 64 * 1024;
     iterations := 3;
     parallelism := 2;
     saltLength := 16;
     keyLength := 32 |}.

Record argon2Params : Type := {
  params_memory : Z;
  params_iterations : Z;
  params_parallelism : Z;
  params_keyLength : Z
}.

Definition format_version : list fmt.Item :=
  [fmt.Lit "v"; fmt.Lit "="; fmt.VerbInt 64]%char.

Definition format_params : list fmt.Item :=
  [fmt.Lit "m"; fmt.Lit "="; fmt.VerbUint 32; fmt.Lit ",";
   fmt.Lit "t"; fmt.Lit "="; fmt.VerbUint 32; fmt.Lit ",";
   fmt.Lit "p"; fmt.Lit "="; fmt.VerbUint 8]%char.

(** [argon2.Version]. *)
Definition argon2_Version : Z := 19.

(** [PasswordHasher.decodeHash]. *)
Definition decodeHash (encodedHash : string)
  : (argon2Params * string * string) + error :=
  let parts := strings.Split encodedHash "$"%char in
  if negb (Nat.eqb (List.length parts) 6) then inr (errors_New "invalid hash format")
  else if negb (String.eqb (nth 1 parts "") "argon2id") then
    inr (errors_New "unsupported hash algorithm")
  else
    match fmt.doScanf format_version (nth 2 parts "") with
    | inr err => inr (fmt_Errorf "invalid version" err)
    | inl vs =>
        let version := nth 0 vs 0 in
        if negb (version =? argon2_Version) then
          inr (errors_New "incompatible argon2 version")
        else
          match fmt.doScanf format_params (nth 3 parts "") with
          | inr err => inr (fmt_Errorf "invalid parameters" err)
          | inl ps =>
              match base64.DecodeString (nth 4 parts "") with
              | inr err => inr (fmt_Errorf "invalid salt" err)
              | inl salt =>
                  match base64.DecodeString (nth 5 parts "") with
                  | inr err => inr (fmt_Errorf "invalid hash" err)
                  | inl hash =>
                      inl ({| params_memory := nth 0 ps 0;
                              params_iterations := nth 1 ps 0;
                              params_parallelism := nth 2 ps 0;
                              params_keyLength :=
                                Z.of_nat (String.length hash) mod 2 ^ 32 |},
                           salt, hash)
                  end
              end
          end
    end.

(** [fmt.Sprintf("$argon2id$v=%d$m=%d,t=%d,p=%d$%s$%s", ...)]. *)
Definition encode (version memory iterations parallelism : Z) (b64Salt b64Hash : string)
  : string :=
  ("$argon2id$v=" ++ fmt.itoa version ++ "$m=" ++ fmt.itoa memory
     ++ ",t=" ++ fmt.itoa iterations ++ ",p=" ++ fmt.itoa parallelism
     ++ "$" ++ b64Salt ++ "$" ++ b64Hash)%string.

(** *** jwt.go: types and the claims validator *)

Definition TokenTypeAccess : string := "access".
Definition TokenTypeRefresh : string := "refresh".

(** [jwt.RegisteredClaims]; a nil [*NumericDate] is [None]. *)
Record RegisteredClaims : Type := {
  claims_Issuer : string;
  claims_Subject : string;
  claims_Audience : list string;
  claims_ExpiresAt : option Z;
  claims_NotBefore : option Z;
  claims_IssuedAt : option Z;
  claims_ID : string
}.

Record Claims : Type := {
  Registered : RegisteredClaims;
  UserID : Z;
  Email : string;
  EmailVerified : bool;
  Role : string;
  TokenType : string
}.

Record TokenPair : Type := {
  AccessToken : string;
  RefreshToken : string;
  PairExpiresAt : Z;
  PairTokenType : string
}.

Record JWTManager : Type := { manager_config : Config }.

Definition NewJWTManager (config : Config) : JWTManager :=
  {| manager_config := config |}.

(** [jwt.NewNumericDate]: the time truncated to the second. *)
Definition jwt_NewNumericDate (t : Z) : Z := t / 1000000000 * 1000000000.

(** The validator of [ParseWithClaims]: [exp] and [nbf] are checked when
    present, and the failures are joined. *)
Definition jwt_expired (now : Z) (c : RegisteredClaims) : bool :=
  match claims_ExpiresAt c with
  | Some exp => negb (now <? exp)
  | None => false
  end.

Definition jwt_not_valid_yet (now : Z) (c : RegisteredClaims) : bool :=
  match claims_NotBefore c with
  | Some nbf => now <? nbf
  | None => false
  end.

Definition jwt_Validate (now : Z) (c : RegisteredClaims) : option error :=
  match jwt_expired now c, jwt_not_valid_yet now c with
  | false, false => None
  | true, false => Some jwt_ErrTokenExpired
  | false, true => Some jwt_ErrTokenNotValidYet
  | true, true => Some (errors_Join jwt_ErrTokenExpired jwt_ErrTokenNotValidYet)
  end.

(** [RegisteredClaims.VerifyAudience(cmp, required)]. *)
Definition VerifyAudience (c : RegisteredClaims) (cmp : string) (required : bool) : bool :=
  match claims_Audience c with
  | [] => negb required
  | aud =>
      if Nat.eqb (String.length (String.concat "" aud)) 0 then negb required
      else existsb (fun a => negb (subtle.ConstantTimeCompare a cmp =? 0)) aud
  end.

Section Libraries.

(** The Argon2id function of [golang.org/x/crypto/argon2]:
    password, salt, time, memory, threads, key length. *)
Variable argon2id : string -> string -> Z -> Z -> Z -> Z -> string.

(** [for _, char := range password] and the tables of package [unicode]. *)
Variable utf8_runes : string -> list Z.
Variables unicode_IsUpper unicode_IsLower unicode_IsDigit
          unicode_IsPunct unicode_IsSymbol : Z -> bool.

(** [jwt.NewWithClaims(jwt.SigningMethodRS256, claims).SignedString(key)]. *)
Variable SignedString : string -> Claims -> string + error.

(** What [ParseWithClaims] does before validating the claims: split and
    decode the token, accept a method of the RSA family only, check the
    signature with the public key.  [None] is any failure there. *)
Variable jwt_decode : string -> string -> option Claims.

(** [sha256.Sum256]. *)
Variable sha256_Sum256 : string -> string.

(** *** password.go: hashing *)

(** [argon2.IDKey] refuses fewer than one pass or one lane by panicking.
    Requests the library cannot serve for lack of resources (a memory
    cost beyond what can be allocated) are outside the model. *)
Definition argon2_IDKey (password salt : string) (time memory threads keyLen : Z)
  : Outcome string :=
  if time <? 1 then Panics "argon2: number of rounds too small"
  else if threads <? 1 then Panics "argon2: parallelism degree too low"
  else Returns (argon2id password salt time memory threads keyLen).

(** [PasswordHasher.Hash]. *)
Definition Hash (h : PasswordHasher) (env : Env) (password : string)
  : Outcome (string + error) :=
  match rand_Read env (saltLength h) with
  | None => Returns (inr (fmt_Errorf "failed to generate salt" (errors_New "crypto/rand")))
  | Some salt =>
      match argon2_IDKey password salt (iterations h) (memory h) (parallelism h)
              (keyLength h) with
      | Panics msg => Panics msg
      | Returns hash =>
          let b64Salt := base64.EncodeToString salt in
          let b64Hash := base64.EncodeToString hash in
          Returns (inl (encode argon2_Version (memory h) (iterations h) (parallelism h)
                          b64Salt b64Hash))
      end
  end.

(** [PasswordHasher.Verify]: the pair [(matches, err)]. *)
Definition Verify (h : PasswordHasher) (password encodedHash : string)
  : Outcome (bool * option error) :=
  match decodeHash encodedHash with
  | inr err => Returns (false, Some err)
  | inl (params, salt, hash) =>
      match argon2_IDKey password salt (params_iterations params) (params_memory params)
              (params_parallelism params) (params_keyLength params) with
      | Panics msg => Panics msg
      | Returns otherHash =>
          if subtle.ConstantTimeCompare hash otherHash =? 1 then Returns (true, None)
          else Returns (false, None)
      end
  end.

(** The four flags after the loop: upper, lower, digit, special. *)
Definition classify (password : string) : bool * bool * bool * bool :=
  fold_left
    (fun '(hasUpper, hasLower, hasDigit, hasSpecial) char =>
       if unicode_IsUpper char then (true, hasLower, hasDigit, hasSpecial)
       else if unicode_IsLower char then (hasUpper, true, hasDigit, hasSpecial)
       else if unicode_IsDigit char then (hasUpper, hasLower, true, hasSpecial)
       else if unicode_IsPunct char || unicode_IsSymbol char then
         (hasUpper, hasLower, hasDigit, true)
       else (hasUpper, hasLower, hasDigit, hasSpecial))
    (utf8_runes password) (false, false, false, false).

(** [PasswordHasher.ValidatePassword]. *)
Definition ValidatePassword (h : PasswordHasher) (password : string) : option error :=
  let config := hasher_config h in
  if Z.of_nat (String.length password) <? PasswordMinLength config then
    Some (errors_New ("password must be at least "
                        ++ fmt.itoa (PasswordMinLength config) ++ " characters")%string)
  else
    let '(hasUpper, hasLower, hasDigit, hasSpecial) := classify password in
    if PasswordRequireUpper config && negb hasUpper then
      Some (errors_New "password must contain at least one uppercase letter")
    else if PasswordRequireLower config && negb hasLower then
      Some (errors_New "password must contain at least one lowercase letter")
    else if PasswordRequireDigit config && negb hasDigit then
      Some (errors_New "password must contain at least one digit")
    else if PasswordRequireSpecial config && negb hasSpecial then
      Some (errors_New "password must contain at least one special character")
    else None.

(** *** jwt.go: the manager *)

Definition jwt_ParseWithClaims (publicKey : string) (now : Z) (tokenString : string)
  : Claims + error :=
  match jwt_decode publicKey tokenString with
  | None => inr jwt_ErrTokenSignatureInvalid
  | Some claims =>
      match jwt_Validate now (Registered claims) with
      | Some err => inr (errors_Join jwt_ErrTokenInvalidClaims err)
      | None => inl claims
      end
  end.

(** [JWTManager.GenerateTokenPair]. *)
Definition GenerateTokenPair (m : JWTManager) (env : Env)
    (userID : Z) (email : string) (emailVerified : bool) (role : string)
  : TokenPair + error :=
  let config := manager_config m in
  let accessExpiry := now env + AccessTokenDuration config in
  let refreshExpiry := now env + RefreshTokenDuration config in
  let accessClaims :=
    {| Registered :=
         {| claims_Issuer := Issuer config;
            claims_Subject := fmt.itoa userID;
            claims_Audience := [Audience config];
            claims_ExpiresAt := Some (jwt_NewNumericDate accessExpiry);
            claims_NotBefore := None;
            claims_IssuedAt := Some (jwt_NewNumericDate (now env));
            claims_ID := uuid_New env 0 |};
       UserID := userID; Email := email; EmailVerified := emailVerified;
       Role := role; TokenType := TokenTypeAccess |} in
  match SignedString (PrivateKey config) accessClaims with
  | inr err => inr (fmt_Errorf "failed to sign access token" err)
  | inl accessTokenString =>
      let refreshClaims :=
        {| Registered :=
             {| claims_Issuer := Issuer config;
                claims_Subject := fmt.itoa userID;
                claims_Audience := [Audience config];
                claims_ExpiresAt := Some (jwt_NewNumericDate refreshExpiry);
                claims_NotBefore := None;
                claims_IssuedAt := Some (jwt_NewNumericDate (now env));
                claims_ID := uuid_New env 1 |};
           UserID := userID; Email := email; EmailVerified := emailVerified;
           Role := role; TokenType := TokenTypeRefresh |} in
      match SignedString (PrivateKey config) refreshClaims with
      | inr err => inr (fmt_Errorf "failed to sign refresh token" err)
      | inl refreshTokenString =>
          inl {| AccessToken := accessTokenString;
                 RefreshToken := refreshTokenString;
                 PairExpiresAt := accessExpiry;
                 PairTokenType := "Bearer" |}
      end
  end.

(** [JWTManager.verifyToken]. *)
Definition verifyToken (m : JWTManager) (env : Env) (tokenString expectedType : string)
  : Claims + error :=
  let config := manager_config m in
  match jwt_ParseWithClaims (PublicKey config) (now env) tokenString with
  | inr err =>
      if errors_Is err jwt_ErrTokenExpired then inr ErrTokenExpired
      else inr ErrInvalidToken
  | inl claims =>
      if negb (String.eqb (TokenType claims) expectedType) then inr ErrInvalidToken
      else if negb (String.eqb (claims_Issuer (Registered claims)) (Issuer config)) then
        inr ErrInvalidToken
      else if negb (VerifyAudience (Registered claims) (Audience config) true) then
        inr ErrInvalidToken
      else inl claims
  end.

Definition VerifyAccessToken (m : JWTManager) (env : Env) (tokenString : string)
  : Claims + error :=
  verifyToken m env tokenString TokenTypeAccess.

Definition VerifyRefreshToken (m : JWTManager) (env : Env) (tokenString : string)
  : Claims + error :=
  verifyToken m env tokenString TokenTypeRefresh.

(** [HashToken]. *)
Definition HashToken (token : string) : string :=
  hex.EncodeToString (sha256_Sum256 token).

(** *** adapter.go *)

Record Adapter : Type := {
  config : Config;
  jwtManager : JWTManager;
  passwordHasher : PasswordHasher
}.

(** [NewAdapter]; the repositories and the logger are the [World]. *)
Definition NewAdapter (config : Config) : Adapter :=
  {| config := config;
     jwtManager := NewJWTManager config;
     passwordHasher := NewPasswordHasher config |}.

(** Conversion to [int32]. *)
Definition int32 (z : Z) : Z := (z + 2 ^ 31) mod 2 ^ 32 - 2 ^ 31.

Definition is_err (err : option error) : bool :=
  match err with
  | Some _ => true
  | None => false
  end.

(** [&s] when [s != ""], else nil. *)
Definition ptr_if_nonempty (s : string) : option string :=
  if String.eqb s "" then None else Some s.

Local Open Scope go_scope.

(** [Adapter.Login]. *)
Definition Login (a : Adapter) (env : Env) (email password ipAddress userAgent : string)
  : M ((TokenPair * domain.User) + error) :=
  r <- repositories.UserGetByEmail env email ;;
  match r with
  | inr _ => ret (inr domain.ErrInvalidCredentials)
  | inl user =>
      if domain.IsLocked (now env) user then ret (inr domain.ErrAccountLocked)
      else if negb (domain.UserStatus_eqb (domain.Status user) domain.UserStatusActive)
              && negb (domain.UserStatus_eqb (domain.Status user)
                         domain.UserStatusPendingVerification)
      then ret (inr domain.ErrAccountInactive)
      else
        v <- lift (Verify (passwordHasher a) password (domain.PasswordHash user)) ;;
        let '(valid, err) := v in
        if is_err err || negb valid then
          incrErr <- repositories.IncrementFailedLoginAttempts env (domain.ID user) ;;
          log_if_err "failed to increment failed login attempts" incrErr (domain.ID user) ;;;
          (* user.FailedLoginAttempts++ on the copy in memory *)
          let failedLoginAttempts := int32 (domain.FailedLoginAttempts user + 1) in
          (if int32 (MaxFailedAttempts (config a)) <=? failedLoginAttempts then
             let lockUntil := now env + LockoutDuration (config a) in
             lockErr <- repositories.LockAccount env (domain.ID user) lockUntil ;;
             log_if_err "failed to lock account" lockErr (domain.ID user)
           else ret tt) ;;;
          ret (inr domain.ErrInvalidCredentials)
        else
          (if 0 <? domain.FailedLoginAttempts user then
             resetErr <- repositories.ResetFailedLoginAttempts env (domain.ID user) ;;
             log_if_err "failed to reset failed login attempts" resetErr (domain.ID user)
           else ret tt) ;;;
          match GenerateTokenPair (jwtManager a) env (domain.ID user) (domain.Email user)
                  (domain.EmailVerified user) (domain.UserRole_string (domain.Role user)) with
          | inr err => ret (inr (fmt_Errorf "failed to generate tokens" err))
          | inl tokenPair =>
              let refreshTokenHash := HashToken (RefreshToken tokenPair) in
              let expiresAt := now env + RefreshTokenDuration (config a) in
              let ipPtr := ptr_if_nonempty ipAddress in
              let uaPtr := ptr_if_nonempty userAgent in
              created <- repositories.Create env (domain.ID user) refreshTokenHash expiresAt
                           None ipPtr uaPtr ;;
              match created with
              | inr err => log_Error "failed to store refresh token" err (domain.ID user)
              | inl _ => ret tt
              end ;;;
              updateErr <- repositories.UpdateLastLogin env (domain.ID user) ipAddress ;;
              log_if_err "failed to update last login" updateErr (domain.ID user) ;;;
              log_Info "user logged in" (domain.ID user) ;;;
              ret (inl (tokenPair, user))
          end
  end.

(** [Adapter.RefreshTokens]. *)
Definition RefreshTokens (a : Adapter) (env : Env) (refreshToken : string)
  : M (TokenPair + error) :=
  match VerifyRefreshToken (jwtManager a) env refreshToken with
  | inr err => ret (inr err)
  | inl claims =>
      let tokenHash := HashToken refreshToken in
      r <- repositories.GetByHash env tokenHash ;;
      match r with
      | inr _ => ret (inr ErrInvalidToken)
      | inl storedToken =>
          if domain.Revoked storedToken then
            revokeErr <- repositories.RevokeAllForUser env (UserID claims) ;;
            log_if_err "failed to revoke all tokens after reuse detection" revokeErr
              (UserID claims) ;;;
            ret (inr ErrInvalidToken)
          else
            err <- repositories.Revoke env tokenHash ;;
            log_if_err "failed to revoke old refresh token" err (UserID claims) ;;;
            match GenerateTokenPair (jwtManager a) env (UserID claims) (Email claims)
                    (EmailVerified claims) (Role claims) with
            | inr err => ret (inr (fmt_Errorf "failed to generate new tokens" err))
            | inl tokenPair =>
                let newTokenHash := HashToken (RefreshToken tokenPair) in
                let expiresAt := now env + RefreshTokenDuration (config a) in
                created <- repositories.Create env (UserID claims) newTokenHash expiresAt
                             None None None ;;
                match created with
                | inr err =>
                    log_Error "failed to store new refresh token" err (UserID claims)
                | inl _ => ret tt
                end ;;;
                ret (inl tokenPair)
            end
      end
  end.

(** [Adapter.Logout]. *)
Definition Logout (a : Adapter) (env : Env) (refreshToken : string) : M (option error) :=
  let tokenHash := HashToken refreshToken in
  repositories.Revoke env tokenHash.

(** [Adapter.LogoutAll]. *)
Definition LogoutAll (a : Adapter) (env : Env) (userID : Z) : M (option error) :=
  repositories.RevokeAllForUser env userID.

(** [Adapter.ChangePassword]. *)
Definition ChangePassword (a : Adapter) (env : Env) (userID : Z)
    (currentPassword newPassword : string) : M (option error) :=
  r <- repositories.UserGetByID env userID ;;
  match r with
  | inr err => ret (Some err)
  | inl user =>
      v <- lift (Verify (passwordHasher a) currentPassword (domain.PasswordHash user)) ;;
      let '(valid, err) := v in
      if is_err err || negb valid then ret (Some domain.ErrInvalidCredentials)
      else
        match ValidatePassword (passwordHasher a) newPassword with
        | Some err => ret (Some err)
        | None =>
            hashed <- lift (Hash (passwordHasher a) env newPassword) ;;
            match hashed with
            | inr err => ret (Some (fmt_Errorf "failed to hash password" err))
            | inl newPasswordHash =>
                updateErr <- repositories.UpdatePassword env userID newPasswordHash ;;
                match updateErr with
                | Some err => ret (Some err)
                | None =>
                    revokeErr <- repositories.RevokeAllForUser env userID ;;
                    log_if_err "failed to revoke tokens after password change" revokeErr
                      userID ;;;
                    log_Info "user changed password" userID ;;;
                    ret None
                end
            end
        end
  end.

(** *** adapter.go: identities and registration *)

(** Package [auth]: permissions and the two roles. *)
Variable auth_Permission : Type.
Variable auth_NewPermission : string -> string -> auth_Permission.
Variables auth_RoleAdmin auth_RoleUser : string.

(** [Adapter.getRolePermissions]. *)
Definition getRolePermissions (role : string) : list auth_Permission :=
  if String.eqb role auth_RoleAdmin then
    [auth_NewPermission "users" "read";
     auth_NewPermission "users" "write";
     auth_NewPermission "users" "delete";
     auth_NewPermission "files" "read";
     auth_NewPermission "files" "write";
     auth_NewPermission "files" "delete";
     auth_NewPermission "documents" "read";
     auth_NewPermission "documents" "write";
     auth_NewPermission "documents" "delete";
     auth_NewPermission "admin" "read";
     auth_NewPermission "admin" "write"]
  else if String.eqb role auth_RoleUser then
    [auth_NewPermission "files" "read";
     auth_NewPermission "files" "write";
     auth_NewPermission "documents" "read";
     auth_NewPermission "documents" "write"]
  else [].

(** [Adapter.VerifyToken].  [claims.ExpiresAt.Time] and
    [claims.IssuedAt.Time] go through pointers that are nil when the
    token carries no such claim. *)
Definition VerifyToken (a : Adapter) (env : Env) (token : string)
  : Outcome (auth.Identity auth_Permission + error) :=
  match VerifyAccessToken (jwtManager a) env token with
  | inr err => Returns (inr err)
  | inl claims =>
      let role := Role claims in
      let permissions := getRolePermissions role in
      match claims_ExpiresAt (Registered claims), claims_IssuedAt (Registered claims) with
      | Some expiresAt, Some issuedAt =>
          Returns (inl {| auth.UserID := fmt.itoa (UserID claims);
                          auth.Email := Email claims;
                          auth.EmailVerified := EmailVerified claims;
                          auth.Roles := [role];
                          auth.Permissions := permissions;
                          auth.ExpiresAt := expiresAt;
                          auth.Raw :=
                            [("user_id", auth.RawInt32 (UserID claims));
                             ("token_id", auth.RawString (claims_ID (Registered claims)));
                             ("issued_at", auth.RawTime issuedAt)] |})
      | _, _ => Panics "runtime error: invalid memory address or nil pointer dereference"
      end
  end.

(** [Adapter.Register]. *)
Definition Register (a : Adapter) (env : Env) (ins : InsertUser)
    (email password fullName : string) : M (domain.User + error) :=
  match ValidatePassword (passwordHasher a) password with
  | Some err => ret (inr err)
  | None =>
      hashed <- lift (Hash (passwordHasher a) env password) ;;
      match hashed with
      | inr err => ret (inr (fmt_Errorf "failed to hash password" err))
      | inl passwordHash =>
          let fullNamePtr := ptr_if_nonempty fullName in
          r <- repositories.UserCreate env ins
                 {| domain.InputEmail := email;
                    domain.InputPasswordHash := passwordHash;
                    domain.InputFullName := fullNamePtr;
                    domain.InputRole := domain.RoleUser |} ;;
          match r with
          | inr err => ret (inr err)
          | inl user =>
              log_Info "user registered" (domain.ID user) ;;;
              ret (inl user)
          end
      end
  end.

End Libraries.

End local.

(** * Notions used in the statements *)

(** The string holds no occurrence of the separator. *)
Fixpoint strings_free_of (sep : ascii) (s : string) : bool :=
  match s with
  | EmptyString => true
  | String c rest => negb (Ascii.eqb c sep) && strings_free_of sep rest
  end.

(** The contract of Argon2id on the length of its result: the key has
    the length asked for. *)
Definition argon2_key_length
    (argon2id : string -> string -> Z -> Z -> Z -> Z -> string) : Prop :=
  forall password salt time memory threads keyLen,
    0 <= keyLen ->
    String.length (argon2id password salt time memory threads keyLen) = Z.to_nat keyLen.




(** ** Stand-ins for the libraries, for running the model

    A key derivation that pads or cuts password and salt to the key
    length; a digest that is a polynomial of the bytes; tokens that carry
    their claims in clear behind the key.  None is cryptography: they
    are the simplest functions with the shape of the real ones, used to
    evaluate the model on concrete inputs. *)

Fixpoint pad (n : nat) (s : string) : string :=
  match n with
  | O => EmptyString
  | S n' =>
      match s with
      | EmptyString => String zero (pad n' EmptyString)
      | String c rest => String c (pad n' rest)
      end
  end.

Definition pad_argon2id (password salt : string) (time memory threads keyLen : Z) : string :=
  pad (Z.to_nat keyLen) (password ++ salt).

(** A digest of 32 bytes: a polynomial in the bytes, written big-endian. *)
Fixpoint poly (data : string) (h : Z) : Z :=
  match data with
  | EmptyString => h
  | String c rest => poly rest ((h * 257 + code c + 1) mod 2 ^ 256)
  end.

Fixpoint big_endian (n : nat) (z : Z) : string :=
  match n with
  | O => EmptyString
  | S n' => String (chr ((z / 256 ^ Z.of_nat n') mod 256)) (big_endian n' z)
  end.

Definition poly_Sum256 (data : string) : string := big_endian 32 (poly data 0).

Fixpoint put_pos (p : positive) (rest : string) : string :=
  match p with
  | xI q => String "1"%char (put_pos q rest)
  | xO q => String "0"%char (put_pos q rest)
  | xH => String "."%char rest
  end.

Fixpoint get_pos (s : string) : option (positive * string) :=
  match s with
  | EmptyString => None
  | String c rest =>
      if Ascii.eqb c "1"%char then
        match get_pos rest with
        | Some (q, r) => Some (xI q, r)
        | None => None
        end
      else if Ascii.eqb c "0"%char then
        match get_pos rest with
        | Some (q, r) => Some (xO q, r)
        | None => None
        end
      else if Ascii.eqb c "."%char then Some (xH, rest)
      else None
  end.

Definition put_Z (z : Z) (rest : string) : string :=
  match z with
  | Z0 => String "z"%char rest
  | Zpos p => String "+"%char (put_pos p rest)
  | Zneg p => String "-"%char (put_pos p rest)
  end.

Definition get_Z (s : string) : option (Z * string) :=
  match s with
  | EmptyString => None
  | String c rest =>
      if Ascii.eqb c "z"%char then Some (0, rest)
      else if Ascii.eqb c "+"%char then
        match get_pos rest with
        | Some (p, r) => Some (Zpos p, r)
        | None => None
        end
      else if Ascii.eqb c "-"%char then
        match get_pos rest with
        | Some (p, r) => Some (Zneg p, r)
        | None => None
        end
      else None
  end.

Fixpoint take (n : nat) (s : string) : option (string * string) :=
  match n with
  | O => Some (EmptyString, s)
  | S n' =>
      match s with
      | EmptyString => None
      | String c rest =>
          match take n' rest with
          | Some (a, r) => Some (String c a, r)
          | None => None
          end
      end
  end.

Definition put_string (s rest : string) : string :=
  put_Z (Z.of_nat (String.length s)) (s ++ rest).

Definition get_string (s : string) : option (string * string) :=
  match get_Z s with
  | Some (n, r) => take (Z.to_nat n) r
  | None => None
  end.

Definition put_bool (b : bool) (rest : string) : string :=
  String (if b then "T"%char else "F"%char) rest.

Definition get_bool (s : string) : option (bool * string) :=
  match s with
  | EmptyString => None
  | String c rest =>
      if Ascii.eqb c "T"%char then Some (true, rest)
      else if Ascii.eqb c "F"%char then Some (false, rest)
      else None
  end.

Definition put_date (d : option Z) (rest : string) : string :=
  match d with
  | None => String "N"%char rest
  | Some z => String "S"%char (put_Z z rest)
  end.

Definition get_date (s : string) : option (option Z * string) :=
  match s with
  | EmptyString => None
  | String c rest =>
      if Ascii.eqb c "N"%char then Some (None, rest)
      else if Ascii.eqb c "S"%char then
        match get_Z rest with
        | Some (z, r) => Some (Some z, r)
        | None => None
        end
      else None
  end.

Fixpoint put_strings (l : list string) (rest : string) : string :=
  match l with
  | [] => String ";"%char rest
  | s :: l' => String ","%char (put_string s (put_strings l' rest))
  end.

(** The fuel bounds the number of strings read. *)
Fixpoint get_strings (fuel : nat) (s : string) : option (list string * string) :=
  match fuel with
  | O => None
  | S fuel' =>
      match s with
      | EmptyString => None
      | String c rest =>
          if Ascii.eqb c ";"%char then Some ([], rest)
          else if Ascii.eqb c ","%char then
            match get_string rest with
            | Some (x, r) =>
                match get_strings fuel' r with
                | Some (l, r') => Some (x :: l, r')
                | None => None
                end
            | None => None
            end
          else None
      end
  end.

Definition plain_serialize (c : local.Claims) : string :=
  let r := local.Registered c in
  put_string (local.claims_Issuer r)
    (put_string (local.claims_Subject r)
       (put_strings (local.claims_Audience r)
          (put_date (local.claims_ExpiresAt r)
             (put_date (local.claims_NotBefore r)
                (put_date (local.claims_IssuedAt r)
                   (put_string (local.claims_ID r)
                      (put_Z (local.UserID c)
                         (put_string (local.Email c)
                            (put_bool (local.EmailVerified c)
                               (put_string (local.Role c)
                                  (put_string (local.TokenType c) ""))))))))))).

Definition plain_parse (s : string) : option local.Claims :=
  match get_string s with None => None | Some (iss, s1) =>
  match get_string s1 with None => None | Some (sub, s2) =>
  match get_strings (S (String.length s2)) s2 with None => None | Some (aud, s3) =>
  match get_date s3 with None => None | Some (exp, s4) =>
  match get_date s4 with None => None | Some (nbf, s5) =>
  match get_date s5 with None => None | Some (iat, s6) =>
  match get_string s6 with None => None | Some (jti, s7) =>
  match get_Z s7 with None => None | Some (uid, s8) =>
  match get_string s8 with None => None | Some (email, s9) =>
  match get_bool s9 with None => None | Some (verified, s10) =>
  match get_string s10 with None => None | Some (role, s11) =>
  match get_string s11 with None => None | Some (typ, s12) =>
    if String.eqb s12 "" then
      Some {| local.Registered :=
                {| local.claims_Issuer := iss; local.claims_Subject := sub;
                   local.claims_Audience := aud; local.claims_ExpiresAt := exp;
                   local.claims_NotBefore := nbf; local.claims_IssuedAt := iat;
                   local.claims_ID := jti |};
              local.UserID := uid; local.Email := email;
              local.EmailVerified := verified; local.Role := role;
              local.TokenType := typ |}
    else None
  end end end end end end end end end end end end.

Fixpoint strip_prefix (p s : string) : option string :=
  match p with
  | EmptyString => Some s
  | String a p' =>
      match s with
      | EmptyString => None
      | String b s' => if Ascii.eqb a b then strip_prefix p' s' else None
      end
  end.

(** A token is the key, a dot, the claims. *)
Definition plain_SignedString (key : string) (c : local.Claims) : string + error :=
  inl (key ++ String "."%char (plain_serialize c))%string.

Definition plain_decode (key token : string) : option local.Claims :=
  match strip_prefix key token with
  | Some (String c body) => if Ascii.eqb c "."%char then plain_parse body else None
  | _ => None
  end.

(** ** Sample configuration and environments *)

Definition second : Z := 1000000000.

(** The defaults of [LoadConfig]. *)
Definition sample_config : local.Config :=
  {| local.Issuer := "go-b2b-starter";
     local.Audience := "go-b2b-api";
     local.AccessTokenDuration := 15 * 60 * second;
     local.RefreshTokenDuration := 7 * 24 * 3600 * second;
     local.PrivateKey := "k";
     local.PublicKey := "k";
     local.PasswordMinLength := 8;
     local.PasswordRequireUpper := true;
     local.PasswordRequireLower := true;
     local.PasswordRequireDigit := true;
     local.PasswordRequireSpecial := false;
     local.MaxFailedAttempts := 5;
     local.LockoutDuration := 15 * 60 * second |}.

Definition sample_salt : string := pad 16 "salt".

(** A call at time [t] with the store up. *)
Definition env_at (t : Z) : Env :=
  {| now := t;
     down := fun _ => false;
     rand_Read := fun n => if n =? 16 then Some sample_salt else None;
     uuid_New := fun i => if i =? 0 then "uuid-access" else "uuid-refresh" |}.

(** ** Encoded hashes that [decodeHash] rejects

    The fields are those of [strings.Split(encodedHash, "$")]; the
    version and parameter fields are judged by what [Sscanf] reads of
    them. *)
Definition malformed (encodedHash : string) : Prop :=
  let parts := strings.Split encodedHash "$"%char in
  List.length parts <> 6%nat
  \/ nth 1 parts "" <> "argon2id"%string
  \/ (exists err, fmt.doScanf local.format_version (nth 2 parts "") = inr err)
  \/ (exists vs, fmt.doScanf local.format_version (nth 2 parts "") = inl vs
                 /\ nth 0 vs 0 <> local.argon2_Version)
  \/ (exists err, fmt.doScanf local.format_params (nth 3 parts "") = inr err)
  \/ (exists err, base64.DecodeString (nth 4 parts "") = inr err)
  \/ (exists err, base64.DecodeString (nth 5 parts "") = inr err).

(** An encoded hash with the given parameter field. *)
Definition encoded_with_params (params b64Salt b64Hash : string) : string :=
  ("$argon2id$v=19$" ++ params ++ "$" ++ b64Salt ++ "$" ++ b64Hash)%string.

(** ** Accounts and attempts *)

(** The account's status lets [Login] through to the password check. *)
Definition loginable (u : domain.User) : Prop :=
  domain.Status u = domain.UserStatusActive
  \/ domain.Status u = domain.UserStatusPendingVerification.

(** [(valid, err)] of [Verify] is a mismatch: [err != nil || !valid]. *)
Definition mismatch (v : bool * option error) : Prop :=
  local.is_err (snd v) || negb (fst v) = true.

(** The row [GetUserByEmail] selects. *)
Definition user_by_email (email : string) (w : World) : option domain.User :=
  find (fun u => String.eqb (domain.Email u) email) (users w).

(** The row [GetUserByID] selects. *)
Definition user_by_id (id : Z) (w : World) : option domain.User :=
  find (fun u => domain.ID u =? id) (users w).

(** The primary key of [users.users]. *)
Definition users_pkey (w : World) : Prop := NoDup (map domain.ID (users w)).

(** The UNIQUE constraint on [refresh_tokens.token_hash]. *)
Definition token_hash_key (w : World) : Prop :=
  NoDup (map domain.TokenHash (refresh_tokens w)).

(** One [Login] call of a series: its environment and its arguments. *)
Record Attempt : Type := {
  attempt_env : Env;
  attempt_password : string;
  attempt_ip : string;
  attempt_user_agent : string
}.

Section Series.

Variable argon2id : string -> string -> Z -> Z -> Z -> Z -> string.
Variable SignedString : string -> local.Claims -> string + error.
Variable sha256_Sum256 : string -> string.

(** Consecutive [Login] calls on one email: the results in order and
    the world they leave. *)
Fixpoint login_series (a : local.Adapter) (email : string) (attempts : list Attempt)
    (w : World)
  : list (Outcome ((local.TokenPair * domain.User) + error)) * World :=
  match attempts with
  | [] => ([], w)
  | x :: rest =>
      let (r, w1) :=
        local.Login argon2id SignedString sha256_Sum256 a (attempt_env x) email
          (attempt_password x) (attempt_ip x) (attempt_user_agent x) w in
      let (rs, w2) := login_series a email rest w1 in
      (r :: rs, w2)
  end.

End Series.

(** The rows after a failed password check: the counter goes up by one
    and, at the threshold, the lock is written. *)
Definition after_mismatch (a : local.Adapter) (env : Env) (user : domain.User)
    (us : list domain.User) : list domain.User :=
  let counted :=
    sqlc.update_users_where_id env (domain.ID user)
      (fun u => sqlc.set_failed_attempts (domain.FailedLoginAttempts u + 1)
                  (domain.LockedUntil u) u) us in
  if local.MaxFailedAttempts (local.config a) <=? domain.FailedLoginAttempts user + 1 then
    sqlc.update_users_where_id env (domain.ID user)
      (fun u => sqlc.set_failed_attempts (domain.FailedLoginAttempts u)
                  (Some (now env + local.LockoutDuration (local.config a))) u) counted
  else counted.

(** ** Sample accounts *)

(** The hash [Hash] writes for ["Passw0rd!"] with the stand-in key derivation. *)
Definition sample_hash : string :=
  Eval vm_compute in
    match local.Hash pad_argon2id (local.NewPasswordHasher sample_config) (env_at 0)
            "Passw0rd!" with
    | Returns (inl e) => e
    | _ => EmptyString
    end.

(** Ann, as [Register] leaves her, with the given counter and lock. *)
Definition ann (failed : Z) (lockedUntil : option Z) : domain.User :=
  {| domain.ID := 1; domain.Email := "a@x.com"; domain.PasswordHash := sample_hash;
     domain.EmailVerified := false; domain.FullName := Some "Ann"%string;
     domain.AvatarURL := None; domain.Status := domain.UserStatusPendingVerification;
     domain.Role := domain.RoleUser; domain.FailedLoginAttempts := failed;
     domain.LockedUntil := lockedUntil; domain.PasswordChangedAt := None;
     domain.LastLoginAt := None; domain.LastLoginIP := None;
     domain.CreatedAt := 0; domain.UpdatedAt := 0 |}.

Definition world_of (us : list domain.User) (ts : list domain.RefreshToken) : World :=
  {| users := us; refresh_tokens := ts;
     refresh_tokens_id_seq := Z.of_nat (List.length ts); logs := [] |}.

Definition sample_adapter : local.Adapter := local.NewAdapter sample_config.

(** ** Sample sessions *)

(** A stored refresh token of user [uid] for the raw token [raw]. *)
Definition session (id uid : Z) (raw : string) (expiresAt : Z) (revoked : bool)
  : domain.RefreshToken :=
  {| domain.TokenID := id; domain.UserID := uid;
     domain.TokenHash := local.HashToken poly_Sum256 raw;
     domain.ExpiresAt := expiresAt; domain.Revoked := revoked;
     domain.RevokedAt := if revoked then Some 0 else None;
     domain.DeviceInfo := None; domain.IPAddress := None; domain.UserAgent := None;
     domain.TokenCreatedAt := 0 |}.

(** The pair issued to Ann at t = 0 with the stand-in signer. *)
Definition sample_pair : local.TokenPair :=
  Eval vm_compute in
    match local.GenerateTokenPair plain_SignedString (local.NewJWTManager sample_config)
            (env_at 0) 1 "a@x.com" false "user" with
    | inl tokenPair => tokenPair
    | inr _ => {| local.AccessToken := ""; local.RefreshToken := "";
                  local.PairExpiresAt := 0; local.PairTokenType := "" |}
    end.

Definition minute : Z := 60 * second.
Definition day : Z := 24 * 3600 * second.

(** Ann with two sessions: the one of [sample_pair], revoked or not, and
    one on another device; both run to day 7. *)
Definition two_sessions (revoked : bool) : World :=
  world_of [ann 0 None]
    [session 1 1 (local.RefreshToken sample_pair) (7 * day) revoked;
     session 2 1 "laptop" (7 * day) false].

(** A call at time [t] during which [CreateRefreshToken] fails at the driver. *)
Definition env_create_down (t : Z) : Env :=
  {| now := t;
     down := fun op => match op with OpCreateRefreshToken => true | _ => false end;
     rand_Read := fun n => if n =? 16 then Some sample_salt else None;
     uuid_New := fun i => if i =? 0 then "uuid-access" else "uuid-refresh" |}.


(** A wrong guess at minute [k]. *)
Definition guess_at (k : Z) : Attempt :=
  {| attempt_env := env_at (k * minute); attempt_password := "guess";
     attempt_ip := "10.0.0.1"; attempt_user_agent := "curl" |}.

(** ** Constraints of the schema and what a computation keeps *)

Definition constraints (w : World) : Prop := users_pkey w /\ token_hash_key w.

(** The computation leads from a world with the property to a world
    with the property, however it ends. *)
Definition preserves {A : Type} (I : World -> Prop) (m : M A) : Prop :=
  forall w, I w -> I (snd (m w)).

(** Stand-ins for the decoding of runes and the tables of [unicode],
    right on ASCII text. *)
Definition ascii_runes (s : string) : list Z := map code (list_ascii_of_string s).
Definition ascii_IsUpper (r : Z) : bool := (65 <=? r) && (r <=? 90).
Definition ascii_IsLower (r : Z) : bool := (97 <=? r) && (r <=? 122).
Definition ascii_IsDigit (r : Z) : bool := (48 <=? r) && (r <=? 57).
Definition ascii_IsPunct (r : Z) : bool :=
  existsb (Z.eqb r)
    [33; 34; 35; 37; 38; 39; 40; 41; 42; 44; 45; 46; 47; 58; 59; 63; 64;
     91; 92; 93; 95; 123; 125].
Definition ascii_IsSymbol (r : Z) : bool :=
  existsb (Z.eqb r) [36; 43; 60; 61; 62; 94; 96; 124; 126].

(** [ValidatePassword] with these tables. *)
Definition ascii_ValidatePassword : local.PasswordHasher -> string -> option error :=
  local.ValidatePassword ascii_runes ascii_IsUpper ascii_IsLower ascii_IsDigit
    ascii_IsPunct ascii_IsSymbol.


(** ** The cases of the switch in [ValidatePassword]

    A character takes the first case whose test it passes, so it counts
    for one class at most. *)
Section Classes.

Variables unicode_IsUpper unicode_IsLower unicode_IsDigit
          unicode_IsPunct unicode_IsSymbol : Z -> bool.

Definition counts_as_upper (char : Z) : bool := unicode_IsUpper char.

Definition counts_as_lower (char : Z) : bool :=
  negb (unicode_IsUpper char) && unicode_IsLower char.

Definition counts_as_digit (char : Z) : bool :=
  negb (unicode_IsUpper char) && negb (unicode_IsLower char) && unicode_IsDigit char.

Definition counts_as_special (char : Z) : bool :=
  negb (unicode_IsUpper char) && negb (unicode_IsLower char)
  && negb (unicode_IsDigit char)
  && (unicode_IsPunct char || unicode_IsSymbol char).

End Classes.

(** A digit of lower-case hexadecimal. *)
Definition is_hex_digit (c : ascii) : bool :=
  ((48 <=? code c) && (code c <=? 57)) || ((97 <=? code c) && (code c <=? 102)).

(** Every byte of the string passes the test. *)
Fixpoint string_forallb (p : ascii -> bool) (s : string) : bool :=
  match s with
  | EmptyString => true
  | String c rest => p c && string_forallb p rest
  end.

(** The [exp] claims that [GenerateTokenPair] writes at the instant of
    [env]: the durations after it, rounded down to the whole second. *)
Definition access_expiry (m : local.JWTManager) (env : Env) : Z :=
  local.jwt_NewNumericDate (now env + local.AccessTokenDuration (local.manager_config m)).

Definition refresh_expiry (m : local.JWTManager) (env : Env) : Z :=
  local.jwt_NewNumericDate (now env + local.RefreshTokenDuration (local.manager_config m)).

(** Stand-ins for the permissions of package [auth]: a permission is its
    resource and its action, and the roles are spelled as in the users
    module. *)
Definition pair_NewPermission (resource action : string) : string * string :=
  (resource, action).
Definition sample_RoleAdmin : string := "admin".
Definition sample_RoleUser : string := "user".

(** ** Further constraints of the schema *)

(** The UNIQUE constraint on [users.email]. *)
Definition users_email_key (w : World) : Prop := NoDup (map domain.Email (users w)).

(** [refresh_tokens.user_id REFERENCES users.users(id)]. *)
Definition refresh_tokens_user_id_fkey (w : World) : Prop :=
  forall t, In t (refresh_tokens w) ->
            exists u, In u (users w) /\ domain.ID u = domain.UserID t.

(** The primary key of [users.refresh_tokens], with the sequence behind
    it at or past every id handed out. *)
Definition refresh_tokens_pkey (w : World) : Prop :=
  NoDup (map domain.TokenID (refresh_tokens w))
  /\ forall t, In t (refresh_tokens w) -> domain.TokenID t <= refresh_tokens_id_seq w.

(** All constraints on the two tables. *)
Definition schema (w : World) : Prop :=
  users_pkey w /\ users_email_key w /\ token_hash_key w
  /\ refresh_tokens_user_id_fkey w /\ refresh_tokens_pkey w.

(** ** Stand-in for the server's assignment to [character varying(n)],
    right on ASCII text that does not end in blanks. *)
Definition ascii_varying (n : Z) (text : string) : string + error :=
  if Z.of_nat (String.length text) <=? n then inl text
  else inr (errors_New "pq: value too long for type character varying").

(** An insert that the driver carries out and that draws the id [id]. *)
Definition insert_with_id (id : Z) : InsertUser :=
  {| insert_fault := None; users_id_nextval := id; character_varying := ascii_varying |}.

(** The log entry of an [Info] call. *)
Definition info_entry (msg : string) (user_id : Z) : LogEntry :=
  {| level := LevelInfo; message := msg; log_error := None; log_user_id := user_id |}.

(** ** The writes of a successful [Login] with the store up *)



(** The row with another status. *)
Definition with_status (status : domain.UserStatus) (u : domain.User) : domain.User :=
  {| domain.ID := domain.ID u; domain.Email := domain.Email u;
     domain.PasswordHash := domain.PasswordHash u;
     domain.EmailVerified := domain.EmailVerified u;
     domain.FullName := domain.FullName u; domain.AvatarURL := domain.AvatarURL u;
     domain.Status := status; domain.Role := domain.Role u;
     domain.FailedLoginAttempts := domain.FailedLoginAttempts u;
     domain.LockedUntil := domain.LockedUntil u;
     domain.PasswordChangedAt := domain.PasswordChangedAt u;
     domain.LastLoginAt := domain.LastLoginAt u;
     domain.LastLoginIP := domain.LastLoginIP u;
     domain.CreatedAt := domain.CreatedAt u; domain.UpdatedAt := domain.UpdatedAt u |}.

(** ** The writes of a successful [RefreshTokens] with the store up *)

(** The row of the new refresh token: the exchange records no device,
    address or user agent. *)
Definition rotated_session (a : local.Adapter) (env : Env) (id userID : Z)
    (tokenHash : string) : domain.RefreshToken :=
  {| domain.TokenID := id; domain.UserID := userID;
     domain.TokenHash := tokenHash;
     domain.ExpiresAt := now env + local.RefreshTokenDuration (local.config a);
     domain.Revoked := false; domain.RevokedAt := None;
     domain.DeviceInfo := None; domain.IPAddress := None; domain.UserAgent := None;
     domain.TokenCreatedAt := now env |}.

(** The rows after [RevokeRefreshToken]. *)
Definition revoke_hash (env : Env) (tokenHash : string)
    (ts : list domain.RefreshToken) : list domain.RefreshToken :=
  map (fun t => if String.eqb (domain.TokenHash t) tokenHash then sqlc.revoke env t else t)
    ts.

(** The rows after [RevokeAllUserRefreshTokens]. *)
Definition revoke_user (env : Env) (userID : Z)
    (ts : list domain.RefreshToken) : list domain.RefreshToken :=
  map (fun t => if (domain.UserID t =? userID) && negb (domain.Revoked t)
                then sqlc.revoke env t else t) ts.

(** * Properties *)

(** ** Bytes and the string libraries *)

Lemma code_range (c : ascii) : 0 <= code c < 256.
Proof.
  unfold code. pose proof (N_ascii_bounded c). lia.
Qed.

Lemma chr_code (c : ascii) : chr (code c) = c.
Proof.
  unfold chr, code. rewrite N2Z.id. apply ascii_N_embedding.
Qed.

Lemma code_chr (n : Z) : 0 <= n < 256 -> code (chr n) = n.
Proof.
  intros H. unfold chr, code. rewrite N_ascii_embedding by lia. lia.
Qed.

Lemma chr_is (n : Z) (c : ascii) : n = code c -> chr n = c.
Proof.
  intros ->. apply chr_code.
Qed.

Lemma code_inj (a b : ascii) : code a = code b -> a = b.
Proof.
  intros H. rewrite <- (chr_code a), <- (chr_code b). now rewrite H.
Qed.

(** A property of the stepwise kind: checked on [0 .. n-1] by evaluation. *)
Lemma below_forallb (P : Z -> bool) (n : nat) :
  forallb P (map Z.of_nat (seq 0 n)) = true ->
  forall z, 0 <= z < Z.of_nat n -> P z = true.
Proof.
  intros H z Hz. rewrite forallb_forall in H. apply H.
  apply in_map_iff. exists (Z.to_nat z). split; [lia |].
  apply in_seq. lia.
Qed.

Lemma string_ind3 (P : string -> Prop) :
  P EmptyString ->
  (forall a, P (String a EmptyString)) ->
  (forall a b, P (String a (String b EmptyString))) ->
  (forall a b c rest, P rest -> P (String a (String b (String c rest)))) ->
  forall s, P s.
Proof.
  intros H0 H1 H2 H3.
  fix IH 1. intros [| a [| b [| c rest]]].
  - exact H0.
  - apply H1.
  - apply H2.
  - apply H3, IH.
Qed.

Module base64_facts.

Lemma decodeMap_enc (n : Z) :
  0 <= n < 64 -> base64.decodeMap (base64.enc n) = Some n.
Proof.
  intros H.
  pose proof (below_forallb
    (fun z => match base64.decodeMap (base64.enc z) with
              | Some m => m =? z
              | None => false
              end) 64 eq_refl n H) as E.
  cbv beta in E. destruct (base64.decodeMap (base64.enc n)); [| discriminate].
  apply Z.eqb_eq in E. now subst.
Qed.

Lemma enc_not_dollar (n : Z) :
  0 <= n < 64 -> Ascii.eqb (base64.enc n) "$"%char = false.
Proof.
  intros H.
  pose proof (below_forallb
    (fun z => negb (Ascii.eqb (base64.enc z) "$"%char)) 64 eq_refl n H) as E.
  cbv beta in E. now apply negb_true_iff in E.
Qed.

(** The sextets of an encoded string, and the bytes they give back. *)
Lemma sextets_quanta (s : string) :
  exists l, base64.sextets (base64.EncodeToString s) = Some l
            /\ base64.quanta l = Some s.
Proof.
  induction s as [| a | a b | a b c rest [l [Hs Hq]]] using string_ind3.
  - exists []. split; reflexivity.
  - pose proof (code_range a) as Ha.
    eexists. cbn [base64.EncodeToString base64.sextets].
    repeat (rewrite decodeMap_enc by (Z.to_euclidean_division_equations; lia)).
    cbn [option_map]. split; [reflexivity |].
    cbn [base64.quanta]. do 2 f_equal.
    apply chr_is. Z.to_euclidean_division_equations; lia.
  - pose proof (code_range a) as Ha. pose proof (code_range b) as Hb.
    eexists. cbn [base64.EncodeToString base64.sextets].
    repeat (rewrite decodeMap_enc by (Z.to_euclidean_division_equations; lia)).
    cbn [option_map]. split; [reflexivity |].
    cbn [base64.quanta]. f_equal.
    f_equal; [| f_equal]; apply chr_is; Z.to_euclidean_division_equations; lia.
  - pose proof (code_range a) as Ha. pose proof (code_range b) as Hb.
    pose proof (code_range c) as Hc.
    eexists. cbn [base64.EncodeToString base64.sextets].
    repeat (rewrite decodeMap_enc by (Z.to_euclidean_division_equations; lia)).
    rewrite Hs. cbn [option_map]. split; [reflexivity |].
    cbn [base64.quanta]. rewrite Hq. f_equal.
    f_equal; [| f_equal; [| f_equal]]; apply chr_is;
      Z.to_euclidean_division_equations; lia.
Qed.

(** Decoding what was encoded gives the bytes back. *)
Lemma Decode_Encode (s : string) :
  base64.DecodeString (base64.EncodeToString s) = inl s.
Proof.
  destruct (sextets_quanta s) as [l [Hs Hq]].
  unfold base64.DecodeString. now rewrite Hs, Hq.
Qed.

End base64_facts.

Module strings_facts.

Lemma Split_free (sep : ascii) (s : string) :
  strings_free_of sep s = true -> strings.Split s sep = [s].
Proof.
  induction s as [| c rest IH]; cbn; [reflexivity |].
  intros H. apply andb_true_iff in H as [Hc Hrest].
  apply negb_true_iff in Hc. rewrite Hc, (IH Hrest). reflexivity.
Qed.

Lemma Split_app (sep : ascii) (a rest : string) :
  strings_free_of sep a = true ->
  strings.Split (a ++ String sep rest) sep = a :: strings.Split rest sep.
Proof.
  induction a as [| c a IH]; cbn.
  - intros _. now rewrite Ascii.eqb_refl.
  - intros H. apply andb_true_iff in H as [Hc Ha].
    apply negb_true_iff in Hc. rewrite Hc, (IH Ha). reflexivity.
Qed.

Lemma Encode_free (s : string) :
  strings_free_of "$"%char (base64.EncodeToString s) = true.
Proof.
  induction s as [| a | a b | a b c rest IH] using string_ind3;
    cbn [base64.EncodeToString strings_free_of];
    repeat (rewrite base64_facts.enc_not_dollar
              by (Z.to_euclidean_division_equations; lia));
    cbn [negb andb]; [reflexivity .. | exact IH].
Qed.

End strings_facts.

Module subtle_facts.

Lemma xor_fold_zero (x y : string) (v : Z) :
  String.length x = String.length y ->
  subtle.xor_fold x y v = 0 <-> v = 0 /\ x = y.
Proof.
  revert y v. induction x as [| a x IH]; intros [| b y] v Hlen;
    cbn in Hlen; try discriminate; cbn [subtle.xor_fold].
  - intuition congruence.
  - injection Hlen as Hlen. rewrite (IH y _ Hlen).
    rewrite Z.lor_eq_0_iff, Z.lxor_eq_0_iff. split.
    + intros [[Hv Hab] ->]. apply code_inj in Hab. now subst.
    + intros [Hv E]. injection E as -> ->. auto.
Qed.

Lemma ConstantTimeCompare_refl (x : string) : subtle.ConstantTimeCompare x x = 1.
Proof.
  unfold subtle.ConstantTimeCompare. rewrite Nat.eqb_refl. cbn [negb].
  destruct (subtle.xor_fold x x 0 =? 0) eqn:E; [reflexivity |].
  apply Z.eqb_neq in E. exfalso. apply E. apply xor_fold_zero; auto.
Qed.

Lemma ConstantTimeCompare_neq (x y : string) :
  x <> y -> subtle.ConstantTimeCompare x y = 0.
Proof.
  intros Hne. unfold subtle.ConstantTimeCompare.
  destruct (Nat.eqb (String.length x) (String.length y)) eqn:Hlen;
    cbn [negb]; [| reflexivity].
  apply Nat.eqb_eq in Hlen.
  destruct (subtle.xor_fold x y 0 =? 0) eqn:E; [| reflexivity].
  apply Z.eqb_eq in E. apply xor_fold_zero in E; [| assumption].
  destruct E as [_ E]. contradiction.
Qed.

End subtle_facts.

(** ** The password hasher *)

Module hasher_facts.

(** The encoded hash written by [Hash] for a hasher of [NewPasswordHasher]. *)
Lemma encode_shape (b64Salt b64Hash : string) :
  local.encode local.argon2_Version (64 * 1024) 3 2 b64Salt b64Hash
  = ("$argon2id$v=19$m=65536,t=3,p=2$" ++ b64Salt ++ "$" ++ b64Hash)%string.
Proof. reflexivity. Qed.

Lemma Split_encoded (params b64Salt b64Hash : string) :
  strings_free_of "$"%char params = true ->
  strings_free_of "$"%char b64Salt = true ->
  strings_free_of "$"%char b64Hash = true ->
  strings.Split
    ("$argon2id$v=19$" ++ params ++ "$" ++ b64Salt ++ "$" ++ b64Hash)%string "$"%char
  = [""; "argon2id"; "v=19"; params; b64Salt; b64Hash]%string.
Proof.
  intros Hp Hs Hh.
  change ("$argon2id$v=19$" ++ params ++ "$" ++ b64Salt ++ "$" ++ b64Hash)%string
    with ("" ++ String "$" ("argon2id" ++ String "$" ("v=19" ++ String "$"
           (params ++ String "$" (b64Salt ++ String "$" b64Hash)))))%string.
  rewrite !strings_facts.Split_app by (assumption || reflexivity).
  now rewrite strings_facts.Split_free.
Qed.

(** [decodeHash] reads back what was encoded, whatever follows is the
    job of the key derivation. *)
Lemma decodeHash_encoded (salt hash : string) :
  local.decodeHash
    (local.encode local.argon2_Version (64 * 1024) 3 2
       (base64.EncodeToString salt) (base64.EncodeToString hash))
  = inl ({| local.params_memory := 65536;
            local.params_iterations := 3;
            local.params_parallelism := 2;
            local.params_keyLength := Z.of_nat (String.length hash) mod 2 ^ 32 |},
         salt, hash).
Proof.
  rewrite encode_shape. unfold local.decodeHash.
  change ("$argon2id$v=19$m=65536,t=3,p=2$" ++ base64.EncodeToString salt ++ "$"
            ++ base64.EncodeToString hash)%string
    with ("$argon2id$v=19$" ++ "m=65536,t=3,p=2" ++ "$" ++ base64.EncodeToString salt
            ++ "$" ++ base64.EncodeToString hash)%string.
  rewrite Split_encoded
    by (reflexivity || apply strings_facts.Encode_free).
  cbn [List.length Nat.eqb negb nth].
  change (String.eqb "argon2id" "argon2id") with true. cbn [negb].
  change (fmt.doScanf local.format_version "v=19") with (@inl (list Z) error [19]).
  cbn [nth]. change (19 =? local.argon2_Version) with true. cbn [negb].
  change (fmt.doScanf local.format_params "m=65536,t=3,p=2")
    with (@inl (list Z) error [65536; 3; 2]).
  rewrite !base64_facts.Decode_Encode. cbn [nth]. reflexivity.
Qed.

End hasher_facts.

Module password_facts.

Section Hasher.

Variable argon2id : string -> string -> Z -> Z -> Z -> Z -> string.
Variable config : local.Config.

Let h := local.NewPasswordHasher config.

Lemma argon2_IDKey_returns (password salt : string) (time memory threads keyLen : Z) :
  1 <= time -> 1 <= threads ->
  local.argon2_IDKey argon2id password salt time memory threads keyLen
  = Returns (argon2id password salt time memory threads keyLen).
Proof.
  intros Ht Hp. unfold local.argon2_IDKey.
  destruct (time <? 1) eqn:E1; [apply Z.ltb_lt in E1; lia |].
  destruct (threads <? 1) eqn:E2; [apply Z.ltb_lt in E2; lia |].
  reflexivity.
Qed.

(** [Hash] succeeds as soon as the random source delivers a salt. *)
Lemma Hash_salt (env : Env) (password salt : string) :
  rand_Read env 16 = Some salt ->
  local.Hash argon2id h env password
  = Returns (inl (local.encode local.argon2_Version (64 * 1024) 3 2
                    (base64.EncodeToString salt)
                    (base64.EncodeToString (argon2id password salt 3 65536 2 32)))).
Proof.
  intros Hsalt. unfold local.Hash. subst h. cbn [local.NewPasswordHasher local.saltLength].
  rewrite Hsalt. reflexivity.
Qed.

(** [Verify] against a hash written by [Hash] compares the two keys. *)
Lemma Verify_encoded (salt hash password : string) :
  String.length hash = 32%nat ->
  local.Verify argon2id h password
    (local.encode local.argon2_Version (64 * 1024) 3 2
       (base64.EncodeToString salt) (base64.EncodeToString hash))
  = if subtle.ConstantTimeCompare hash (argon2id password salt 3 65536 2 32) =? 1
    then Returns (true, None) else Returns (false, None).
Proof.
  intros Hlen. unfold local.Verify.
  rewrite hasher_facts.decodeHash_encoded, Hlen.
  reflexivity.
Qed.

End Hasher.








End password_facts.

(** ** The stand-ins keep the contracts of the libraries *)

Module stand_in_facts.

Lemma pad_length (n : nat) (s : string) : String.length (pad n s) = n.
Proof.
  revert s. induction n as [| n IH]; intros s; cbn [pad String.length].
  - reflexivity.
  - destruct s; cbn [String.length]; now rewrite IH.
Qed.

Lemma pad_argon2id_length : argon2_key_length pad_argon2id.
Proof.
  intros password salt time memory threads keyLen _.
  apply pad_length.
Qed.

Lemma get_put_pos (p : positive) (rest : string) :
  get_pos (put_pos p rest) = Some (p, rest).
Proof.
  induction p as [q IH | q IH |]; cbn; now rewrite ?IH.
Qed.

Lemma get_put_Z (z : Z) (rest : string) : get_Z (put_Z z rest) = Some (z, rest).
Proof.
  destruct z; cbn; now rewrite ?get_put_pos.
Qed.

Lemma take_append (s rest : string) :
  take (String.length s) (s ++ rest) = Some (s, rest).
Proof.
  induction s as [| c s IH]; cbn; now rewrite ?IH.
Qed.

Lemma get_put_string (s rest : string) :
  get_string (put_string s rest) = Some (s, rest).
Proof.
  unfold get_string, put_string. rewrite get_put_Z, Nat2Z.id.
  apply take_append.
Qed.

Lemma get_put_bool (b : bool) (rest : string) :
  get_bool (put_bool b rest) = Some (b, rest).
Proof. now destruct b. Qed.

Lemma get_put_date (d : option Z) (rest : string) :
  get_date (put_date d rest) = Some (d, rest).
Proof.
  destruct d; cbn; now rewrite ?get_put_Z.
Qed.

Lemma get_put_strings (l : list string) (rest : string) (fuel : nat) :
  (List.length l < fuel)%nat ->
  get_strings fuel (put_strings l rest) = Some (l, rest).
Proof.
  revert fuel. induction l as [| s l IH]; intros [| fuel] H; cbn in H; try lia.
  - reflexivity.
  - cbn [put_strings get_strings]. cbn [Ascii.eqb Bool.eqb].
    rewrite get_put_string, IH by lia. reflexivity.
Qed.

Lemma put_pos_length (p : positive) (rest : string) :
  (String.length rest <= String.length (put_pos p rest))%nat.
Proof.
  induction p; cbn [put_pos String.length]; lia.
Qed.

Lemma put_string_length (s rest : string) :
  (String.length rest <= String.length (put_string s rest))%nat.
Proof.
  unfold put_string.
  assert (String.length rest <= String.length (s ++ rest))%nat as H.
  { induction s; cbn [append String.length]; lia. }
  destruct (Z.of_nat (String.length s)); cbn [put_Z String.length];
    try pose proof (put_pos_length p (s ++ rest)); lia.
Qed.

Lemma put_strings_length (l : list string) (rest : string) :
  (List.length l < String.length (put_strings l rest))%nat.
Proof.
  induction l as [| s l IH]; cbn [put_strings String.length List.length].
  - lia.
  - pose proof (put_string_length s (put_strings l rest)). lia.
Qed.

Lemma parse_serialize (c : local.Claims) : plain_parse (plain_serialize c) = Some c.
Proof.
  destruct c as [[iss sub aud exp nbf iat jti] uid email verified role typ].
  unfold plain_parse, plain_serialize.
  cbn [local.Registered local.claims_Issuer local.claims_Subject local.claims_Audience
       local.claims_ExpiresAt local.claims_NotBefore local.claims_IssuedAt
       local.claims_ID local.UserID local.Email local.EmailVerified local.Role
       local.TokenType].
  rewrite !get_put_string.
  rewrite get_put_strings by (apply Nat.lt_lt_succ_r, put_strings_length).
  rewrite !get_put_date, get_put_string, get_put_Z, get_put_string, get_put_bool,
    !get_put_string.
  reflexivity.
Qed.

Lemma strip_prefix_append (p s : string) : strip_prefix p (p ++ s) = Some s.
Proof.
  induction p as [| a p IH]; cbn; [reflexivity |].
  now rewrite Ascii.eqb_refl.
Qed.

(** A token signed with a key decodes, under the same key, to its claims. *)
Lemma plain_decode_SignedString (key : string) (c : local.Claims) (s : string) :
  plain_SignedString key c = inl s -> plain_decode key s = Some c.
Proof.
  unfold plain_SignedString, plain_decode. intros [= <-].
  rewrite strip_prefix_append. cbn [Ascii.eqb Bool.eqb].
  apply parse_serialize.
Qed.

End stand_in_facts.

(** ** The model on concrete inputs *)

Module examples.

Example Split_encoded_hash :
  strings.Split "$argon2id$v=19$m=65536,t=3,p=2$c2FsdA$aGFzaA" "$"%char
  = [""; "argon2id"; "v=19"; "m=65536,t=3,p=2"; "c2FsdA"; "aGFzaA"]%string.
Proof. reflexivity. Qed.

Example base64_hello : base64.EncodeToString "hello" = "aGVsbG8"%string.
Proof. reflexivity. Qed.

Example base64_padding_refused : base64.DecodeString "aGVsbG8=" = inr base64_CorruptInputError.
Proof. reflexivity. Qed.

Example base64_line_feed_skipped : base64.DecodeString (String (chr 10) "aGVsbG8") = inl "hello"%string.
Proof. reflexivity. Qed.

Example Sscanf_version_trailing_text :
  fmt.doScanf local.format_version "v=19abc" = inl [19].
Proof. reflexivity. Qed.

Example Sscanf_parallelism_out_of_range :
  fmt.doScanf local.format_params "m=65536,t=3,p=256"
  = inr (errors_New "unsigned integer overflow on token").
Proof. reflexivity. Qed.

Example decodeHash_five_fields :
  local.decodeHash "$argon2id$v=19$m=65536,t=3,p=2$c2FsdA"
  = inr (errors_New "invalid hash format").
Proof. reflexivity. Qed.

Example decodeHash_other_algorithm :
  local.decodeHash "$argon2i$v=19$m=65536,t=3,p=2$c2FsdA$aGFzaA"
  = inr (errors_New "unsupported hash algorithm").
Proof. reflexivity. Qed.

Example decodeHash_other_version :
  local.decodeHash "$argon2id$v=16$m=65536,t=3,p=2$c2FsdA$aGFzaA"
  = inr (errors_New "incompatible argon2 version").
Proof. reflexivity. Qed.

Example decodeHash_parameters_not_numbers :
  local.decodeHash "$argon2id$v=19$m=lots,t=3,p=2$c2FsdA$aGFzaA"
  = inr (fmt_Errorf "invalid parameters" (errors_New "expected integer")).
Proof. reflexivity. Qed.

Example decodeHash_salt_not_base64 :
  local.decodeHash "$argon2id$v=19$m=65536,t=3,p=2$c2Fs*A$aGFzaA"
  = inr (fmt_Errorf "invalid salt" base64_CorruptInputError).
Proof. reflexivity. Qed.

(** A key derivation asked for no pass panics: no decode error, no answer. *)
Example Verify_zero_passes (password : string) :
  local.Verify pad_argon2id (local.NewPasswordHasher sample_config) password
    "$argon2id$v=19$m=65536,t=0,p=2$c2FsdA$aGFzaA"
  = Panics "argon2: number of rounds too small".
Proof. reflexivity. Qed.

(** The scenario of the specification: Ann is registered and pending;
    her login succeeds; the access token runs 15 minutes and the stored
    refresh token 7 days from the call. *)
Example Login_pending_account :
  exists tokenPair w',
    local.Login pad_argon2id plain_SignedString poly_Sum256 sample_adapter
      (env_at minute) "a@x.com" "Passw0rd!" "10.0.0.1" "curl" (world_of [ann 0 None] [])
    = (Returns (inl (tokenPair, ann 0 None)), w')
    /\ local.PairExpiresAt tokenPair = minute + 15 * minute
    /\ map domain.ExpiresAt (refresh_tokens w') = [minute + 7 * day]
    /\ map domain.TokenHash (refresh_tokens w')
       = [local.HashToken poly_Sum256 (local.RefreshToken tokenPair)].
Proof.
  eexists. eexists. split; [vm_compute; reflexivity |].
  repeat split; vm_compute; reflexivity.
Qed.

(** The other scenario: five wrong passwords, then the right one is
    answered [ErrAccountLocked]. *)
Example sixth_Login_locked :
  let (results, w') :=
    login_series pad_argon2id plain_SignedString poly_Sum256 sample_adapter "a@x.com"
      [guess_at 1; guess_at 2; guess_at 3; guess_at 4; guess_at 5]
      (world_of [ann 0 None] []) in
  results = repeat (Returns (inr domain.ErrInvalidCredentials)) 5
  /\ fst (local.Login pad_argon2id plain_SignedString poly_Sum256 sample_adapter
            (env_at (6 * minute)) "a@x.com" "Passw0rd!" "10.0.0.1" "curl" w')
     = Returns (inr domain.ErrAccountLocked).
Proof. vm_compute. split; reflexivity. Qed.

End examples.

(** ** Hash and Verify *)

Section HashVerify.

Variable argon2id : string -> string -> Z -> Z -> Z -> Z -> string.
Hypothesis argon2id_length : argon2_key_length argon2id.


End HashVerify.



(** ** Decode errors *)

Lemma decodeHash_rejects_iff (encodedHash : string) :
  (exists err, local.decodeHash encodedHash = inr err) <-> malformed encodedHash.
Proof.
  unfold malformed, local.decodeHash.
  set (parts := strings.Split encodedHash "$"%char).
  destruct (Nat.eqb (List.length parts) 6) eqn:Hlen; cbn [negb].
  2:{ apply Nat.eqb_neq in Hlen. split; eauto. }
  apply Nat.eqb_eq in Hlen.
  destruct (String.eqb (nth 1 parts "") "argon2id") eqn:Halg; cbn [negb].
  2:{ apply String.eqb_neq in Halg. split; eauto. }
  apply String.eqb_eq in Halg.
  destruct (fmt.doScanf local.format_version (nth 2 parts "")) as [vs | e2] eqn:Hv.
  2:{ split; eauto 6. }
  destruct (nth 0 vs 0 =? local.argon2_Version) eqn:Hver; cbn [negb].
  2:{ apply Z.eqb_neq in Hver. split; eauto 8. }
  apply Z.eqb_eq in Hver.
  destruct (fmt.doScanf local.format_params (nth 3 parts "")) as [ps | e3] eqn:Hp.
  2:{ split; eauto 10. }
  destruct (base64.DecodeString (nth 4 parts "")) as [salt | e4] eqn:Hs.
  2:{ split; eauto 12. }
  destruct (base64.DecodeString (nth 5 parts "")) as [hash | e5] eqn:Hh.
  2:{ split; eauto 14. }
  split.
  - intros [err H]. discriminate H.
  - intros [H | [H | [[err H] | [[vs' [H H']] | [[err H] | [[err H] | [err H]]]]]]];
      try contradiction; try discriminate H.
    injection H as <-. contradiction.
Qed.

(** C6, amended.  [Verify] returns a decode error, and then never a
    match, exactly for the encoded hashes that do not split into six
    fields at ["$"], or name another algorithm than [argon2id], or whose
    version field does not scan as ["v=%d"] or scans to another version
    than 19, or whose parameter field does not scan as
    ["m=%d,t=%d,p=%d"] into 32-, 32- and 8-bit unsigned integers, or
    whose salt or hash field is not unpadded base64; this for every
    password.  What follows the scanned prefix of the version or the
    parameter field is not examined. *)
Theorem Verify_decode_error_iff
    (argon2id : string -> string -> Z -> Z -> Z -> Z -> string)
    (config : local.Config) (password encodedHash : string) :
  malformed encodedHash <->
  exists err,
    local.Verify argon2id (local.NewPasswordHasher config) password encodedHash
    = Returns (false, Some err).
Proof.
  rewrite <- decodeHash_rejects_iff. unfold local.Verify.
  destruct (local.decodeHash encodedHash) as [[[params salt] hash] | err].
  - split; [intros [err H]; discriminate H |].
    intros [err H]. exfalso.
    destruct (local.argon2_IDKey _ _ _ _ _ _ _); [| discriminate H].
    destruct (_ =? 1); discriminate H.
  - split; eauto.
Qed.

(** C6 as stated fails on a parameter field with text after the
    parameters: the field is not the one [Hash] writes, [decodeHash]
    reads the parameters all the same, [Verify] returns no error, and the
    hash of a password still matches that password. *)
Lemma corrupted_parameters_accepted :
  let e := "$argon2id$v=19$m=65536,t=3,p=2junk$c2FsdA$aGFzaA"%string in
  nth 3 (strings.Split e "$"%char) "" = "m=65536,t=3,p=2junk"%string
  /\ local.decodeHash e
     = inl ({| local.params_memory := 65536; local.params_iterations := 3;
               local.params_parallelism := 2; local.params_keyLength := 4 |},
            "salt", "hash")%string
  /\ (forall argon2id config password,
        exists matches,
          local.Verify argon2id (local.NewPasswordHasher config) password e
          = Returns (matches, None))
  /\ (forall argon2id config password salt,
        argon2_key_length argon2id ->
        local.Verify argon2id (local.NewPasswordHasher config) password
          (encoded_with_params "m=65536,t=3,p=2junk" (base64.EncodeToString salt)
             (base64.EncodeToString (argon2id password salt 3 65536 2 32)))
        = Returns (true, None)).
Proof.
  cbv zeta. split; [reflexivity |]. split; [reflexivity |]. split.
  - intros argon2id config password. unfold local.Verify.
    change (local.decodeHash "$argon2id$v=19$m=65536,t=3,p=2junk$c2FsdA$aGFzaA")
      with (@inl _ error
              ({| local.params_memory := 65536; local.params_iterations := 3;
                  local.params_parallelism := 2; local.params_keyLength := 4 |},
               "salt"%string, "hash"%string)).
    cbn [local.params_iterations local.params_parallelism
         local.params_memory local.params_keyLength].
    rewrite password_facts.argon2_IDKey_returns by lia.
    match goal with
    | |- context [if ?c then _ else _] => destruct c
    end; eauto.
  - intros argon2id config password salt Hlen.
    unfold local.Verify, local.decodeHash, encoded_with_params.
    rewrite hasher_facts.Split_encoded
      by (reflexivity || apply strings_facts.Encode_free).
    cbn [List.length Nat.eqb negb nth].
    change (String.eqb "argon2id" "argon2id") with true. cbn [negb].
    change (fmt.doScanf local.format_version "v=19") with (@inl (list Z) error [19]).
    cbn [nth]. change (19 =? local.argon2_Version) with true. cbn [negb].
    change (fmt.doScanf local.format_params "m=65536,t=3,p=2junk")
      with (@inl (list Z) error [65536; 3; 2]).
    rewrite !base64_facts.Decode_Encode. cbn [nth].
    rewrite Hlen by lia.
    change (Z.of_nat (Z.to_nat 32) mod 2 ^ 32) with 32.
    cbn [local.params_iterations local.params_parallelism
         local.params_memory local.params_keyLength].
    rewrite password_facts.argon2_IDKey_returns by lia.
    now rewrite subtle_facts.ConstantTimeCompare_refl.
Qed.

(** ** The store *)

Module store_facts.

Lemma errors_Is_driver (op : StoreOp) (target : error) :
  errors_Is (driver_Err op) target = false.
Proof.
  unfold errors_Is. destruct (sentinel target); reflexivity.
Qed.

(** An update by id keeps the row selected by email in place. *)
Lemma find_email_update (env : Env) (email : string) (id : Z)
    (set : domain.User -> domain.User) (us : list domain.User) :
  (forall u, domain.Email (set u) = domain.Email u) ->
  find (fun u => String.eqb (domain.Email u) email)
    (sqlc.update_users_where_id env id set us)
  = option_map (fun u => if domain.ID u =? id then sqlc.touch env (set u) else u)
      (find (fun u => String.eqb (domain.Email u) email) us).
Proof.
  intros Hset. unfold sqlc.update_users_where_id.
  induction us as [| u us IH]; cbn [map find option_map]; [reflexivity |].
  assert (E : domain.Email (if domain.ID u =? id then sqlc.touch env (set u) else u)
              = domain.Email u).
  { destruct (domain.ID u =? id); [cbn; apply Hset | reflexivity]. }
  rewrite E. destruct (String.eqb (domain.Email u) email); [reflexivity | exact IH].
Qed.

Lemma ids_update (env : Env) (id : Z) (set : domain.User -> domain.User)
    (us : list domain.User) :
  (forall u, domain.ID (set u) = domain.ID u) ->
  map domain.ID (sqlc.update_users_where_id env id set us) = map domain.ID us.
Proof.
  intros Hset. unfold sqlc.update_users_where_id. rewrite map_map.
  apply map_ext. intros u. destruct (domain.ID u =? id); [cbn; apply Hset | reflexivity].
Qed.

(** Under the primary key, a row is the only one with its id. *)
Lemma pkey_unique (us : list domain.User) (u u' : domain.User) :
  NoDup (map domain.ID us) -> In u us -> In u' us ->
  domain.ID u = domain.ID u' -> u = u'.
Proof.
  induction us as [| x us IH]; cbn [map In]; [contradiction |].
  intros Hnd [-> | Hu] [-> | Hu'] Hid; inversion Hnd as [| ? ? Hx Hnd']; subst.
  - reflexivity.
  - exfalso. apply Hx. rewrite Hid. now apply in_map.
  - exfalso. apply Hx. rewrite <- Hid. now apply in_map.
  - now apply IH.
Qed.

Lemma no_overflow (us : list domain.User) (user : domain.User) :
  NoDup (map domain.ID us) -> In user us ->
  domain.FailedLoginAttempts user < 2147483647 ->
  existsb (fun u => (domain.ID u =? domain.ID user)
                    && (2147483647 <=? domain.FailedLoginAttempts u)) us = false.
Proof.
  intros Hnd Hin Hlt.
  destruct (existsb _ us) eqn:E; [| reflexivity].
  apply existsb_exists in E as [u [Hu H]].
  apply andb_true_iff in H as [Hid Hmax].
  apply Z.eqb_eq in Hid. apply Z.leb_le in Hmax.
  rewrite (pkey_unique us u user Hnd Hu Hin Hid) in Hmax. lia.
Qed.

End store_facts.

(** ** The constraints of the schema are kept *)

Module constraint_facts.

Lemma preserves_ret {A : Type} (I : World -> Prop) (a : A) : preserves I (ret a).
Proof. intros w H. exact H. Qed.

Lemma preserves_lift {A : Type} (I : World -> Prop) (o : Outcome A) :
  preserves I (lift o).
Proof. intros w H. exact H. Qed.

Lemma preserves_bind {A B : Type} (I : World -> Prop) (m : M A) (k : A -> M B) :
  preserves I m -> (forall a, preserves I (k a)) -> preserves I (bind m k).
Proof.
  intros Hm Hk w H. unfold bind. specialize (Hm w H).
  destruct (m w) as [[a | msg] w']; cbn [snd] in *.
  - now apply Hk.
  - exact Hm.
Qed.

Lemma preserves_log_Error (msg : string) (err : error) (user_id : Z) :
  preserves constraints (log_Error msg err user_id).
Proof. intros w H. exact H. Qed.

Lemma preserves_log_Info (msg : string) (user_id : Z) :
  preserves constraints (log_Info msg user_id).
Proof. intros w H. exact H. Qed.

Lemma preserves_log_if_err (msg : string) (err : option error) (user_id : Z) :
  preserves constraints (log_if_err msg err user_id).
Proof. destruct err; [apply preserves_log_Error | apply preserves_ret]. Qed.

(** A write to [users] that keeps the ids keeps the constraints. *)
Lemma constraints_update_users (env : Env) (id : Z) (set : domain.User -> domain.User)
    (w : World) :
  (forall u, domain.ID (set u) = domain.ID u) ->
  constraints w ->
  constraints (sqlc.set_users (sqlc.update_users_where_id env id set (users w)) w).
Proof.
  intros Hset [Hpk Hkey]. split; [| exact Hkey].
  unfold users_pkey. cbn [sqlc.set_users users].
  now rewrite store_facts.ids_update.
Qed.

(** A write to [refresh_tokens] that keeps the hashes keeps the constraints. *)
Lemma constraints_update_tokens (f : domain.RefreshToken -> domain.RefreshToken)
    (w : World) :
  (forall t, domain.TokenHash (f t) = domain.TokenHash t) ->
  constraints w ->
  constraints (sqlc.set_refresh_tokens (map f (refresh_tokens w)) w).
Proof.
  intros Hf [Hpk Hkey]. split; [exact Hpk |].
  unfold token_hash_key. cbn [sqlc.set_refresh_tokens refresh_tokens].
  rewrite map_map. rewrite (map_ext _ domain.TokenHash Hf). exact Hkey.
Qed.

Section Store.

Variable env : Env.

Lemma preserves_UserGetByEmail (email : string) :
  preserves constraints (repositories.UserGetByEmail env email).
Proof.
  intros w H. unfold repositories.UserGetByEmail, sqlc.GetUserByEmail, bind.
  destruct (down env OpGetUserByEmail); [exact H |].
  destruct (find _ (users w)); exact H.
Qed.

Lemma preserves_UserGetByID (id : Z) :
  preserves constraints (repositories.UserGetByID env id).
Proof.
  intros w H. unfold repositories.UserGetByID, sqlc.GetUserByID, bind.
  destruct (down env OpGetUserByID); [exact H |].
  destruct (find _ (users w)); exact H.
Qed.

Lemma preserves_UpdatePassword (id : Z) (passwordHash : string) :
  preserves constraints (repositories.UpdatePassword env id passwordHash).
Proof.
  intros w H. unfold repositories.UpdatePassword, sqlc.UpdateUserPassword.
  destruct (down env OpUpdateUserPassword); [exact H |].
  now apply constraints_update_users.
Qed.

Lemma preserves_UpdateLastLogin (id : Z) (ip : string) :
  preserves constraints (repositories.UpdateLastLogin env id ip).
Proof.
  intros w H. unfold repositories.UpdateLastLogin, sqlc.UpdateUserLastLogin.
  destruct (down env OpUpdateUserLastLogin); [exact H |].
  now apply constraints_update_users.
Qed.

Lemma preserves_IncrementFailedLoginAttempts (id : Z) :
  preserves constraints (repositories.IncrementFailedLoginAttempts env id).
Proof.
  intros w H.
  unfold repositories.IncrementFailedLoginAttempts, sqlc.IncrementFailedLoginAttempts.
  destruct (down env OpIncrementFailedLoginAttempts); [exact H |].
  destruct (existsb _ (users w)); [exact H |].
  now apply constraints_update_users.
Qed.

Lemma preserves_ResetFailedLoginAttempts (id : Z) :
  preserves constraints (repositories.ResetFailedLoginAttempts env id).
Proof.
  intros w H. unfold repositories.ResetFailedLoginAttempts, sqlc.ResetFailedLoginAttempts.
  destruct (down env OpResetFailedLoginAttempts); [exact H |].
  now apply constraints_update_users.
Qed.

Lemma preserves_LockAccount (id : Z) (until : Z) :
  preserves constraints (repositories.LockAccount env id until).
Proof.
  intros w H. unfold repositories.LockAccount, sqlc.LockUserAccount.
  destruct (down env OpLockUserAccount); [exact H |].
  now apply constraints_update_users.
Qed.

Lemma preserves_Create (userID : Z) (tokenHash : string) (expiresAt : Z)
    (deviceInfo ipAddress userAgent : option string) :
  preserves constraints
    (repositories.Create env userID tokenHash expiresAt deviceInfo ipAddress userAgent).
Proof.
  intros w [Hpk Hkey]. unfold repositories.Create, sqlc.CreateRefreshToken.
  destruct (down env OpCreateRefreshToken); [split; assumption |].
  destruct (existsb _ (refresh_tokens w)) eqn:Hdup; [split; assumption |].
  destruct (negb (existsb _ (users w))); [split; assumption |].
  split; [exact Hpk |].
  unfold token_hash_key in *.
  cbn [snd sqlc.set_refresh_tokens refresh_tokens].
  rewrite map_app. cbn [map domain.TokenHash].
  apply NoDup_app; [exact Hkey | repeat constructor; intros [] |].
  intros h Hin [<- | []].
  apply in_map_iff in Hin as [t [Hh Hin]].
  assert (existsb (fun t0 => String.eqb (domain.TokenHash t0) tokenHash)
            (refresh_tokens w) = true) as Hex.
  { apply existsb_exists. exists t. split; [exact Hin | now apply String.eqb_eq]. }
  congruence.
Qed.

Lemma preserves_GetByHash (tokenHash : string) :
  preserves constraints (repositories.GetByHash env tokenHash).
Proof.
  intros w H. unfold repositories.GetByHash, sqlc.GetRefreshTokenByHash, bind.
  destruct (down env OpGetRefreshTokenByHash); [exact H |].
  destruct (find _ (refresh_tokens w)); exact H.
Qed.

Lemma preserves_Revoke (tokenHash : string) :
  preserves constraints (repositories.Revoke env tokenHash).
Proof.
  intros w H. unfold repositories.Revoke, sqlc.RevokeRefreshToken.
  destruct (down env OpRevokeRefreshToken); [exact H |].
  apply constraints_update_tokens; [| exact H].
  intros t. destruct (String.eqb _ _); reflexivity.
Qed.

Lemma preserves_RevokeAllForUser (userID : Z) :
  preserves constraints (repositories.RevokeAllForUser env userID).
Proof.
  intros w H. unfold repositories.RevokeAllForUser, sqlc.RevokeAllUserRefreshTokens.
  destruct (down env OpRevokeAllUserRefreshTokens); [exact H |].
  apply constraints_update_tokens; [| exact H].
  intros t. destruct (_ && _); reflexivity.
Qed.

End Store.

Create HintDb keep.

#[local] Hint Resolve preserves_ret preserves_lift preserves_log_Error preserves_log_Info
  preserves_log_if_err preserves_UserGetByEmail preserves_UserGetByID
  preserves_UpdatePassword preserves_UpdateLastLogin
  preserves_IncrementFailedLoginAttempts preserves_ResetFailedLoginAttempts
  preserves_LockAccount preserves_Create preserves_GetByHash preserves_Revoke
  preserves_RevokeAllForUser : keep.

(** One step through a computation: a leaf of the store, a bind, or a
    branch on a value. *)
Ltac keep_step :=
  first
    [ solve [auto with keep]
    | apply preserves_bind; [| intros ?]
    | match goal with
      | |- preserves _ (match ?x with _ => _ end) => destruct x
      end ].

Section Adapter.

Variable argon2id : string -> string -> Z -> Z -> Z -> Z -> string.
Variable utf8_runes : string -> list Z.
Variables unicode_IsUpper unicode_IsLower unicode_IsDigit
          unicode_IsPunct unicode_IsSymbol : Z -> bool.
Variable SignedString : string -> local.Claims -> string + error.
Variable jwt_decode : string -> string -> option local.Claims.
Variable sha256_Sum256 : string -> string.

Lemma preserves_Login (a : local.Adapter) (env : Env)
    (email password ip ua : string) :
  preserves constraints
    (local.Login argon2id SignedString sha256_Sum256 a env email password ip ua).
Proof. unfold local.Login. repeat keep_step. Qed.

Lemma preserves_RefreshTokens (a : local.Adapter) (env : Env) (refreshToken : string) :
  preserves constraints
    (local.RefreshTokens SignedString jwt_decode sha256_Sum256 a env refreshToken).
Proof. unfold local.RefreshTokens. repeat keep_step. Qed.

Lemma preserves_Logout (a : local.Adapter) (env : Env) (refreshToken : string) :
  preserves constraints (local.Logout sha256_Sum256 a env refreshToken).
Proof. unfold local.Logout. repeat keep_step. Qed.

Lemma preserves_LogoutAll (a : local.Adapter) (env : Env) (userID : Z) :
  preserves constraints (local.LogoutAll a env userID).
Proof. unfold local.LogoutAll. repeat keep_step. Qed.

Lemma preserves_ChangePassword (a : local.Adapter) (env : Env) (userID : Z)
    (currentPassword newPassword : string) :
  preserves constraints
    (local.ChangePassword argon2id utf8_runes unicode_IsUpper unicode_IsLower
       unicode_IsDigit unicode_IsPunct unicode_IsSymbol a env userID
       currentPassword newPassword).
Proof. unfold local.ChangePassword. repeat keep_step. Qed.

End Adapter.

End constraint_facts.

(** ** Login *)

Module login_facts.

Lemma int32_small (z : Z) : - 2 ^ 31 <= z < 2 ^ 31 -> local.int32 z = z.
Proof.
  intros H. unfold local.int32.
  rewrite Z.mod_small by lia. lia.
Qed.

Lemma loginable_passes (u : domain.User) :
  loginable u ->
  negb (domain.UserStatus_eqb (domain.Status u) domain.UserStatusActive)
  && negb (domain.UserStatus_eqb (domain.Status u) domain.UserStatusPendingVerification)
  = false.
Proof.
  intros [H | H]; rewrite H; reflexivity.
Qed.

Section Login.

Variable argon2id : string -> string -> Z -> Z -> Z -> Z -> string.
Variable SignedString : string -> local.Claims -> string + error.
Variable sha256_Sum256 : string -> string.

Let Login := local.Login argon2id SignedString sha256_Sum256.

Lemma UserGetByEmail_fails (env : Env) (email : string) (w : World) :
  down env OpGetUserByEmail = true \/ user_by_email email w = None ->
  exists err, repositories.UserGetByEmail env email w = (Returns (inr err), w).
Proof.
  unfold repositories.UserGetByEmail, sqlc.GetUserByEmail, bind, user_by_email.
  intros [H | H].
  - rewrite H. eexists. reflexivity.
  - destruct (down env OpGetUserByEmail); [eexists; reflexivity |].
    rewrite H. eexists. reflexivity.
Qed.

(** No row for the email, or no answer from the store. *)
Lemma Login_no_user (a : local.Adapter) (env : Env)
    (email password ip ua : string) (w : World) :
  down env OpGetUserByEmail = true \/ user_by_email email w = None ->
  Login a env email password ip ua w = (Returns (inr domain.ErrInvalidCredentials), w).
Proof.
  intros H. destruct (UserGetByEmail_fails env email w H) as [err E].
  unfold Login, local.Login, bind. rewrite E. reflexivity.
Qed.

Lemma Login_found (a : local.Adapter) (env : Env)
    (email password ip ua : string) (w : World) (user : domain.User) :
  down env OpGetUserByEmail = false ->
  user_by_email email w = Some user ->
  repositories.UserGetByEmail env email w = (Returns (inl user), w).
Proof.
  unfold repositories.UserGetByEmail, sqlc.GetUserByEmail, bind, user_by_email.
  intros -> ->. reflexivity.
Qed.

(** A locked account: the password is not looked at. *)
Lemma Login_locked (a : local.Adapter) (env : Env)
    (email password ip ua : string) (w : World) (user : domain.User) :
  down env OpGetUserByEmail = false ->
  user_by_email email w = Some user ->
  domain.IsLocked (now env) user = true ->
  Login a env email password ip ua w = (Returns (inr domain.ErrAccountLocked), w).
Proof.
  intros Hup Huser Hlocked.
  unfold Login, local.Login, bind.
  rewrite (Login_found a env email password ip ua w user Hup Huser).
  rewrite Hlocked. reflexivity.
Qed.

Lemma Login_mismatch (a : local.Adapter) (env : Env)
    (email password ip ua : string) (w : World) (user : domain.User)
    (v : bool * option error) :
  down env OpGetUserByEmail = false ->
  down env OpIncrementFailedLoginAttempts = false ->
  down env OpLockUserAccount = false ->
  users_pkey w ->
  user_by_email email w = Some user ->
  domain.IsLocked (now env) user = false ->
  loginable user ->
  local.Verify argon2id (local.passwordHasher a) password (domain.PasswordHash user)
    = Returns v ->
  mismatch v ->
  0 <= domain.FailedLoginAttempts user < 2 ^ 31 - 1 ->
  - 2 ^ 31 <= local.MaxFailedAttempts (local.config a) < 2 ^ 31 ->
  Login a env email password ip ua w
  = (Returns (inr domain.ErrInvalidCredentials),
     sqlc.set_users (after_mismatch a env user (users w)) w).
Proof.
  intros Hup Hinc Hlock Hpk Huser Hunlocked Hstatus Hverify Hmis Hcount Hmax.
  unfold Login, local.Login, bind.
  rewrite (Login_found a env email password ip ua w user Hup Huser).
  rewrite Hunlocked, (loginable_passes user Hstatus).
  unfold lift. rewrite Hverify. destruct v as [valid err].
  unfold mismatch in Hmis. cbn [fst snd] in Hmis. rewrite Hmis.
  unfold repositories.IncrementFailedLoginAttempts, sqlc.IncrementFailedLoginAttempts.
  rewrite Hinc.
  rewrite store_facts.no_overflow;
    [| exact Hpk
     | unfold user_by_email in Huser; apply find_some in Huser; tauto
     | lia ].
  cbn [log_if_err ret].
  rewrite !int32_small by lia.
  unfold after_mismatch.
  destruct (local.MaxFailedAttempts (local.config a)
            <=? domain.FailedLoginAttempts user + 1).
  - unfold repositories.LockAccount, sqlc.LockUserAccount. rewrite Hlock.
    cbn [log_if_err ret sqlc.set_users users refresh_tokens refresh_tokens_id_seq logs].
    reflexivity.
  - cbn [ret]. reflexivity.
Qed.

End Login.

End login_facts.

(** ** Unknown email and wrong password *)

Section Enumeration.

Variable argon2id : string -> string -> Z -> Z -> Z -> Z -> string.
Variable SignedString : string -> local.Claims -> string + error.
Variable sha256_Sum256 : string -> string.

(** C9, amended.  [Login] with an email that has no user record and
    [Login] with the email of an account that is not locked, whose status
    is [active] or [pending_verification], and a password that does not
    verify, return the same error value, [domain.ErrInvalidCredentials].
    (For a locked or inactive account the lock and status checks answer
    before the password is looked at.) *)
Theorem Login_unknown_email_as_wrong_password
    (a : local.Adapter)
    (env1 : Env) (w1 : World) (email1 password1 ip1 ua1 : string)
    (env2 : Env) (w2 : World) (email2 password2 ip2 ua2 : string)
    (user : domain.User) (v : bool * option error) :
  user_by_email email1 w1 = None ->
  down env2 OpGetUserByEmail = false ->
  user_by_email email2 w2 = Some user ->
  domain.IsLocked (now env2) user = false ->
  loginable user ->
  local.Verify argon2id (local.passwordHasher a) password2 (domain.PasswordHash user)
    = Returns v ->
  mismatch v ->
  fst (local.Login argon2id SignedString sha256_Sum256 a env1 email1 password1 ip1 ua1 w1)
    = Returns (inr domain.ErrInvalidCredentials)
  /\ fst (local.Login argon2id SignedString sha256_Sum256 a env2 email2 password2 ip2 ua2 w2)
     = Returns (inr domain.ErrInvalidCredentials).
Proof.
  intros Habsent Hup Huser Hunlocked Hstatus Hverify Hmis. split.
  - rewrite login_facts.Login_no_user by (right; exact Habsent). reflexivity.
  - unfold local.Login, bind.
    rewrite (login_facts.Login_found a env2 email2 password2 ip2 ua2 w2 user Hup Huser).
    rewrite Hunlocked, (login_facts.loginable_passes user Hstatus).
    unfold lift. rewrite Hverify. destruct v as [valid err].
    unfold mismatch in Hmis. cbn [fst snd] in Hmis. rewrite Hmis.
    destruct (repositories.IncrementFailedLoginAttempts env2 (domain.ID user) w2)
      as [[incrErr | msg] w3] eqn:Hincr.
    2:{ unfold repositories.IncrementFailedLoginAttempts,
          sqlc.IncrementFailedLoginAttempts in Hincr.
        repeat match type of Hincr with
               | (if ?c then _ else _) = _ => destruct c
               end; discriminate Hincr. }
    destruct incrErr as [e |]; cbn [log_if_err log_Error ret];
      (destruct (local.int32 (local.MaxFailedAttempts (local.config a))
                 <=? local.int32 (domain.FailedLoginAttempts user + 1));
       [| reflexivity]);
      unfold repositories.LockAccount, sqlc.LockUserAccount;
      destruct (down env2 OpLockUserAccount); reflexivity.
Qed.

End Enumeration.

Lemma Login_unknown_email_as_wrong_password_witness :
  user_by_email "nobody@x.com" (world_of [ann 0 None] []) = None
  /\ down (env_at 0) OpGetUserByEmail = false
  /\ user_by_email "a@x.com" (world_of [ann 0 None] []) = Some (ann 0 None)
  /\ domain.IsLocked (now (env_at 0)) (ann 0 None) = false
  /\ loginable (ann 0 None)
  /\ local.Verify pad_argon2id (local.passwordHasher sample_adapter) "guess"
       (domain.PasswordHash (ann 0 None)) = Returns (false, None)
  /\ mismatch (false, None)
  /\ fst (local.Login pad_argon2id plain_SignedString poly_Sum256 sample_adapter
            (env_at 0) "nobody@x.com" "guess" "" "" (world_of [ann 0 None] []))
     = Returns (inr domain.ErrInvalidCredentials)
  /\ fst (local.Login pad_argon2id plain_SignedString poly_Sum256 sample_adapter
            (env_at 0) "a@x.com" "guess" "" "" (world_of [ann 0 None] []))
     = Returns (inr domain.ErrInvalidCredentials).
Proof.
  assert (Hverify : local.Verify pad_argon2id (local.passwordHasher sample_adapter)
                      "guess" (domain.PasswordHash (ann 0 None))
                    = Returns (false, None)) by (vm_compute; reflexivity).
  assert (Hstatus : loginable (ann 0 None)) by (right; reflexivity).
  do 7 (split; [first [reflexivity | assumption] |]).
  exact (Login_unknown_email_as_wrong_password pad_argon2id plain_SignedString
           poly_Sum256 sample_adapter
           (env_at 0) (world_of [ann 0 None] []) "nobody@x.com" "guess" "" ""
           (env_at 0) (world_of [ann 0 None] []) "a@x.com" "guess" "" ""
           (ann 0 None) (false, None)
           eq_refl eq_refl eq_refl eq_refl Hstatus Hverify eq_refl).
Defined.

(** C9 as stated fails on a locked account: with Ann locked until
    t = 1000 s, at t = 10 s a wrong password on her email is answered
    [ErrAccountLocked], an unknown email [ErrInvalidCredentials]. *)
Lemma Login_locked_account_distinguishable :
  let w := world_of [ann 5 (Some (1000 * second))] [] in
  let env := env_at (10 * second) in
  user_by_email "nobody@x.com" w = None
  /\ user_by_email "a@x.com" w = Some (ann 5 (Some (1000 * second)))
  /\ local.Verify pad_argon2id (local.passwordHasher sample_adapter) "guess"
       (domain.PasswordHash (ann 5 (Some (1000 * second)))) = Returns (false, None)
  /\ fst (local.Login pad_argon2id plain_SignedString poly_Sum256 sample_adapter
            env "nobody@x.com" "guess" "" "" w)
     = Returns (inr domain.ErrInvalidCredentials)
  /\ fst (local.Login pad_argon2id plain_SignedString poly_Sum256 sample_adapter
            env "a@x.com" "guess" "" "" w)
     = Returns (inr domain.ErrAccountLocked).
Proof.
  cbv zeta. repeat split; vm_compute; reflexivity.
Qed.

(** ** ChangePassword *)

Section ChangePassword.

Variable argon2id : string -> string -> Z -> Z -> Z -> Z -> string.
Variable utf8_runes : string -> list Z.
Variables unicode_IsUpper unicode_IsLower unicode_IsDigit
          unicode_IsPunct unicode_IsSymbol : Z -> bool.

(** C7.  For a user the store returns and a current password that does
    not verify against the stored hash, [ChangePassword] returns
    [domain.ErrInvalidCredentials] and leaves the world as it was: the
    stored hash is unchanged and no refresh token is revoked. *)
Theorem ChangePassword_wrong_current
    (a : local.Adapter) (env : Env) (userID : Z)
    (currentPassword newPassword : string) (w : World)
    (user : domain.User) (v : bool * option error) :
  down env OpGetUserByID = false ->
  user_by_id userID w = Some user ->
  local.Verify argon2id (local.passwordHasher a) currentPassword
    (domain.PasswordHash user) = Returns v ->
  mismatch v ->
  local.ChangePassword argon2id utf8_runes unicode_IsUpper unicode_IsLower
    unicode_IsDigit unicode_IsPunct unicode_IsSymbol
    a env userID currentPassword newPassword w
  = (Returns (Some domain.ErrInvalidCredentials), w).
Proof.
  intros Hup Huser Hverify Hmis.
  unfold local.ChangePassword, bind, repositories.UserGetByID, sqlc.GetUserByID.
  unfold bind. rewrite Hup. unfold user_by_id in Huser. rewrite Huser.
  cbn [ret]. unfold lift. rewrite Hverify. destruct v as [valid err].
  unfold mismatch in Hmis. cbn [fst snd] in Hmis. rewrite Hmis.
  reflexivity.
Qed.

End ChangePassword.

Lemma ChangePassword_wrong_current_witness :
  down (env_at 0) OpGetUserByID = false
  /\ user_by_id 1 (world_of [ann 0 None] []) = Some (ann 0 None)
  /\ local.Verify pad_argon2id (local.passwordHasher sample_adapter) "guess"
       (domain.PasswordHash (ann 0 None)) = Returns (false, None)
  /\ mismatch (false, None)
  /\ local.ChangePassword pad_argon2id ascii_runes ascii_IsUpper ascii_IsLower
       ascii_IsDigit ascii_IsPunct ascii_IsSymbol
       sample_adapter (env_at 0) 1 "guess" "N3wPassw0rd" (world_of [ann 0 None] [])
     = (Returns (Some domain.ErrInvalidCredentials), world_of [ann 0 None] []).
Proof.
  assert (Hverify : local.Verify pad_argon2id (local.passwordHasher sample_adapter)
                      "guess" (domain.PasswordHash (ann 0 None))
                    = Returns (false, None)) by (vm_compute; reflexivity).
  do 4 (split; [first [reflexivity | assumption] |]).
  exact (ChangePassword_wrong_current pad_argon2id ascii_runes ascii_IsUpper
           ascii_IsLower ascii_IsDigit ascii_IsPunct ascii_IsSymbol
           sample_adapter (env_at 0) 1 "guess" "N3wPassw0rd"
           (world_of [ann 0 None] []) (ann 0 None) (false, None)
           eq_refl eq_refl Hverify eq_refl).
Defined.

(** ** Tokens *)

Module token_facts.

(** Under a key constraint, a row is the only one with its key. *)
Lemma key_unique {A K : Type} (key : A -> K) (l : list A) (x y : A) :
  NoDup (map key l) -> In x l -> In y l -> key x = key y -> x = y.
Proof.
  induction l as [| z l IH]; cbn [map In]; [contradiction |].
  intros Hnd [-> | Hx] [-> | Hy] Hk; inversion Hnd as [| ? ? Hz Hnd']; subst.
  - reflexivity.
  - exfalso. apply Hz. rewrite Hk. now apply in_map.
  - exfalso. apply Hz. rewrite <- Hk. now apply in_map.
  - now apply IH.
Qed.

Section Tokens.

Variable SignedString : string -> local.Claims -> string + error.
Variable jwt_decode : string -> string -> option local.Claims.
Variable sha256_Sum256 : string -> string.

Let verifyToken := local.verifyToken jwt_decode.
Let HashToken := local.HashToken sha256_Sum256.
Let RefreshTokens := local.RefreshTokens SignedString jwt_decode sha256_Sum256.

(** The two errors of [verifyToken]. *)
Lemma verifyToken_errors (m : local.JWTManager) (env : Env)
    (tokenString expectedType : string) (err : error) :
  verifyToken m env tokenString expectedType = inr err ->
  err = local.ErrInvalidToken \/ err = local.ErrTokenExpired.
Proof.
  unfold verifyToken, local.verifyToken.
  destruct (local.jwt_ParseWithClaims _ _ _ _) as [claims | e].
  - repeat match goal with
           | |- (if ?c then _ else _) = _ -> _ => destruct c
           end; intros [= <-]; auto.
  - destruct (errors_Is e jwt_ErrTokenExpired); intros [= <-]; auto.
Qed.

(** A token that verifies was decoded to the claims returned. *)
Lemma verifyToken_decoded (m : local.JWTManager) (env : Env)
    (tokenString expectedType : string) (claims : local.Claims) :
  verifyToken m env tokenString expectedType = inl claims ->
  jwt_decode (local.PublicKey (local.manager_config m)) tokenString = Some claims
  /\ local.TokenType claims = expectedType.
Proof.
  unfold verifyToken, local.verifyToken, local.jwt_ParseWithClaims.
  destruct (jwt_decode _ tokenString) as [c |]; [| discriminate].
  destruct (local.jwt_Validate (now env) (local.Registered c)).
  - destruct (errors_Is _ _); discriminate.
  - destruct (String.eqb (local.TokenType c) expectedType) eqn:Hty; cbn [negb];
      [| discriminate].
    apply String.eqb_eq in Hty.
    repeat match goal with
           | |- (if ?c then _ else _) = _ -> _ => destruct c
           end; intros [= <-]; auto.
Qed.

(** A decoded token past its expiry is answered [ErrTokenExpired]. *)
Lemma verifyToken_expired (m : local.JWTManager) (env : Env)
    (tokenString expectedType : string) (claims : local.Claims) :
  jwt_decode (local.PublicKey (local.manager_config m)) tokenString = Some claims ->
  local.jwt_expired (now env) (local.Registered claims) = true ->
  verifyToken m env tokenString expectedType = inr local.ErrTokenExpired.
Proof.
  intros Hdec Hexp.
  unfold verifyToken, local.verifyToken, local.jwt_ParseWithClaims, local.jwt_Validate.
  rewrite Hdec, Hexp.
  destruct (local.jwt_not_valid_yet _ _); reflexivity.
Qed.

(** A decoded token before its expiry verifies or is answered
    [ErrInvalidToken]. *)
Lemma verifyToken_unexpired (m : local.JWTManager) (env : Env)
    (tokenString expectedType : string) (claims : local.Claims) :
  jwt_decode (local.PublicKey (local.manager_config m)) tokenString = Some claims ->
  local.jwt_expired (now env) (local.Registered claims) = false ->
  verifyToken m env tokenString expectedType = inl claims
  \/ verifyToken m env tokenString expectedType = inr local.ErrInvalidToken.
Proof.
  intros Hdec Hexp.
  unfold verifyToken, local.verifyToken, local.jwt_ParseWithClaims, local.jwt_Validate.
  rewrite Hdec, Hexp.
  destruct (local.jwt_not_valid_yet _ _); [right; reflexivity |].
  repeat match goal with
         | |- context [if ?c then _ else _] => destruct c
         end; auto.
Qed.

(** A decoded token of the other type never verifies. *)
Lemma verifyToken_other_type (m : local.JWTManager) (env : Env)
    (tokenString expectedType : string) (claims : local.Claims) :
  jwt_decode (local.PublicKey (local.manager_config m)) tokenString = Some claims ->
  local.TokenType claims <> expectedType ->
  verifyToken m env tokenString expectedType
  = inr (if local.jwt_expired (now env) (local.Registered claims)
         then local.ErrTokenExpired else local.ErrInvalidToken).
Proof.
  intros Hdec Hty.
  unfold verifyToken, local.verifyToken, local.jwt_ParseWithClaims, local.jwt_Validate.
  rewrite Hdec.
  destruct (local.jwt_expired _ _), (local.jwt_not_valid_yet _ _); try reflexivity.
  apply String.eqb_neq in Hty. rewrite Hty. reflexivity.
Qed.

(** What [GetByHash] can answer. *)
Lemma GetByHash_cases (env : Env) (tokenHash : string) (w : World) :
  (exists err, repositories.GetByHash env tokenHash w = (Returns (inr err), w))
  \/ (exists t, repositories.GetByHash env tokenHash w = (Returns (inl t), w)
                /\ In t (refresh_tokens w)
                /\ domain.TokenHash t = tokenHash
                /\ now env < domain.ExpiresAt t).
Proof.
  unfold repositories.GetByHash, sqlc.GetRefreshTokenByHash, bind.
  destruct (down env OpGetRefreshTokenByHash); [left; eexists; reflexivity |].
  destruct (find _ (refresh_tokens w)) as [t |] eqn:Hfind.
  - right. exists t. apply find_some in Hfind as [Hin Hp].
    apply andb_true_iff in Hp as [Hh He].
    apply String.eqb_eq in Hh. apply Z.ltb_lt in He. auto.
  - left. eexists. reflexivity.
Qed.

(** A token whose hash is in no row is refused, and nothing changes. *)
Lemma RefreshTokens_unknown_hash (a : local.Adapter) (env : Env)
    (refreshToken : string) (w : World) :
  (forall t, In t (refresh_tokens w) -> domain.TokenHash t <> HashToken refreshToken) ->
  exists err,
    RefreshTokens a env refreshToken w = (Returns (inr err), w)
    /\ (err = local.ErrInvalidToken \/ err = local.ErrTokenExpired).
Proof.
  intros Habsent. unfold RefreshTokens, local.RefreshTokens, local.VerifyRefreshToken.
  destruct (local.verifyToken jwt_decode (local.jwtManager a) env refreshToken
              local.TokenTypeRefresh) as [claims | err] eqn:Hv.
  - unfold bind.
    destruct (GetByHash_cases env (HashToken refreshToken) w)
      as [[err E] | [t [E [Hin [Hh _]]]]].
    + subst HashToken. rewrite E. eexists. split; [reflexivity | auto].
    + exfalso. exact (Habsent t Hin Hh).
  - exists err. split; [reflexivity |].
    exact (verifyToken_errors _ _ _ _ _ Hv).
Qed.

(** The reuse branch: whatever [RevokeAllForUser] answers, the caller
    gets [ErrInvalidToken]. *)
Lemma reuse_branch_fails (env : Env) (userID : Z) (w : World) :
  exists w',
    bind (repositories.RevokeAllForUser env userID)
      (fun revokeErr =>
         bind (log_if_err "failed to revoke all tokens after reuse detection"
                 revokeErr userID)
           (fun _ => ret (inr local.ErrInvalidToken))) w
    = (Returns (@inr local.TokenPair error local.ErrInvalidToken), w').
Proof.
  unfold bind, repositories.RevokeAllForUser, sqlc.RevokeAllUserRefreshTokens.
  destruct (down env OpRevokeAllUserRefreshTokens); eexists; reflexivity.
Qed.

End Tokens.

End token_facts.

(** ** Token types *)

Section TokenTypes.

Variable SignedString : string -> local.Claims -> string + error.
Variable jwt_decode : string -> string -> option local.Claims.
Variable m : local.JWTManager.

(** The configured keys are a pair: what the private key signs, the public
    key verifies, and the claims come back as they were signed. *)
Hypothesis key_pair :
  forall claims s,
    SignedString (local.PrivateKey (local.manager_config m)) claims = inl s ->
    jwt_decode (local.PublicKey (local.manager_config m)) s = Some claims.

(** C5, amended.  For every pair produced by [GenerateTokenPair], at
    every later instant the access token is refused by
    [VerifyRefreshToken] and the refresh token by [VerifyAccessToken]:
    with [ErrInvalidToken] while the presented token has not expired,
    with [ErrTokenExpired] from its expiry on.  Neither is ever
    accepted. *)
Theorem generated_tokens_type_checked
    (env : Env) (userID : Z) (email : string) (emailVerified : bool) (role : string)
    (pair : local.TokenPair) :
  local.GenerateTokenPair SignedString m env userID email emailVerified role = inl pair ->
  forall env',
    local.VerifyRefreshToken jwt_decode m env' (local.AccessToken pair)
    = inr (if now env' <? local.jwt_NewNumericDate
                            (now env + local.AccessTokenDuration (local.manager_config m))
           then local.ErrInvalidToken else local.ErrTokenExpired)
    /\ local.VerifyAccessToken jwt_decode m env' (local.RefreshToken pair)
       = inr (if now env' <? local.jwt_NewNumericDate
                               (now env + local.RefreshTokenDuration (local.manager_config m))
              then local.ErrInvalidToken else local.ErrTokenExpired).
Proof.
  unfold local.GenerateTokenPair. intros Hgen env'.
  destruct (SignedString _ _) as [accessTokenString | e1] eqn:Haccess in Hgen;
    [| discriminate Hgen].
  destruct (SignedString _ _) as [refreshTokenString | e2] eqn:Hrefresh in Hgen;
    [| discriminate Hgen].
  injection Hgen as <-. cbn [local.AccessToken local.RefreshToken].
  apply key_pair in Haccess. apply key_pair in Hrefresh.
  unfold local.VerifyRefreshToken, local.VerifyAccessToken. split.
  - rewrite (token_facts.verifyToken_other_type jwt_decode m env' _ _ _ Haccess)
      by discriminate.
    cbn [local.jwt_expired local.Registered local.claims_ExpiresAt].
    destruct (now env' <? _); reflexivity.
  - rewrite (token_facts.verifyToken_other_type jwt_decode m env' _ _ _ Hrefresh)
      by discriminate.
    cbn [local.jwt_expired local.Registered local.claims_ExpiresAt].
    destruct (now env' <? _); reflexivity.
Qed.

End TokenTypes.

Lemma generated_tokens_type_checked_witness :
  (forall claims s,
     plain_SignedString
       (local.PrivateKey (local.manager_config (local.NewJWTManager sample_config)))
       claims = inl s ->
     plain_decode
       (local.PublicKey (local.manager_config (local.NewJWTManager sample_config))) s
     = Some claims)
  /\ exists pair,
       local.GenerateTokenPair plain_SignedString (local.NewJWTManager sample_config)
         (env_at 0) 1 "a@x.com" false "user" = inl pair
       /\ forall env',
            local.VerifyRefreshToken plain_decode (local.NewJWTManager sample_config) env'
              (local.AccessToken pair)
            = inr (if now env' <? local.jwt_NewNumericDate
                                    (now (env_at 0) + local.AccessTokenDuration
                                       (local.manager_config
                                          (local.NewJWTManager sample_config)))
                   then local.ErrInvalidToken else local.ErrTokenExpired)
            /\ local.VerifyAccessToken plain_decode (local.NewJWTManager sample_config) env'
                 (local.RefreshToken pair)
               = inr (if now env' <? local.jwt_NewNumericDate
                                       (now (env_at 0) + local.RefreshTokenDuration
                                          (local.manager_config
                                             (local.NewJWTManager sample_config)))
                      then local.ErrInvalidToken else local.ErrTokenExpired).
Proof.
  split; [exact (stand_in_facts.plain_decode_SignedString "k") |].
  eexists. split; [reflexivity |].
  apply (generated_tokens_type_checked plain_SignedString plain_decode
           (local.NewJWTManager sample_config)
           (stand_in_facts.plain_decode_SignedString "k")
           (env_at 0) 1 "a@x.com" false "user").
  reflexivity.
Defined.

(** C5 as stated fails once the presented token has expired: an access
    token issued at t = 0 with the default 15 minutes and presented to
    [VerifyRefreshToken] at t = 16 min is answered [ErrTokenExpired], not
    [ErrInvalidToken]. *)
Lemma expired_access_token_as_refresh :
  exists pair,
    local.GenerateTokenPair plain_SignedString (local.NewJWTManager sample_config)
      (env_at 0) 1 "a@x.com" false "user" = inl pair
    /\ local.VerifyRefreshToken plain_decode (local.NewJWTManager sample_config)
         (env_at (16 * 60 * second)) (local.AccessToken pair)
       = inr local.ErrTokenExpired
    /\ local.ErrTokenExpired <> local.ErrInvalidToken.
Proof.
  eexists. split; [reflexivity |]. split; [vm_compute; reflexivity | discriminate].
Qed.

(** ** Logout and LogoutAll *)

Section Logout.

Variable sha256_Sum256 : string -> string.

(** C8.  A [Logout] that returns nil has revoked every stored token whose
    hash is the hash of the presented token and has left every other
    stored token, of the same user or of another, as it was and where it
    was; no row is added or dropped and the users are untouched.  A
    [LogoutAll] that returns nil leaves every stored token of that user
    revoked, and the tokens of other users as they were. *)
Theorem Logout_revokes_presented_token_only
    (a : local.Adapter) (env : Env) (refreshToken : string) (userID : Z)
    (w w1 w2 : World) :
  local.Logout sha256_Sum256 a env refreshToken w = (Returns None, w1) ->
  local.LogoutAll a env userID w = (Returns None, w2) ->
  ((forall t, In t (refresh_tokens w1) ->
      domain.TokenHash t = local.HashToken sha256_Sum256 refreshToken ->
      domain.Revoked t = true)
   /\ (forall i t, nth_error (refresh_tokens w) i = Some t ->
         domain.TokenHash t <> local.HashToken sha256_Sum256 refreshToken ->
         nth_error (refresh_tokens w1) i = Some t)
   /\ List.length (refresh_tokens w1) = List.length (refresh_tokens w)
   /\ users w1 = users w)
  /\ ((forall t, In t (refresh_tokens w2) -> domain.UserID t = userID ->
         domain.Revoked t = true)
      /\ (forall i t, nth_error (refresh_tokens w) i = Some t ->
            domain.UserID t <> userID ->
            nth_error (refresh_tokens w2) i = Some t)
      /\ List.length (refresh_tokens w2) = List.length (refresh_tokens w)
      /\ users w2 = users w).
Proof.
  unfold local.Logout, local.LogoutAll, repositories.Revoke, repositories.RevokeAllForUser,
    sqlc.RevokeRefreshToken, sqlc.RevokeAllUserRefreshTokens.
  destruct (down env OpRevokeRefreshToken); [discriminate |].
  destruct (down env OpRevokeAllUserRefreshTokens); [discriminate |].
  intros [= <-] [= <-]. cbn [sqlc.set_refresh_tokens refresh_tokens users].
  split; (split; [| split; [| split; [apply length_map | reflexivity]]]).
  - intros t Hin Hh. apply in_map_iff in Hin as [t0 [<- _]].
    destruct (String.eqb (domain.TokenHash t0) _) eqn:E; [reflexivity |].
    apply String.eqb_neq in E. contradiction.
  - intros i t Hnth Hh. rewrite nth_error_map, Hnth. cbn [option_map].
    apply String.eqb_neq in Hh. now rewrite Hh.
  - intros t Hin Hu. apply in_map_iff in Hin as [t0 [<- _]].
    destruct (domain.UserID t0 =? userID) eqn:E; cbn [andb].
    + destruct (domain.Revoked t0) eqn:R; cbn [negb]; [exact R | reflexivity].
    + apply Z.eqb_neq in E. contradiction.
  - intros i t Hnth Hu. rewrite nth_error_map, Hnth. cbn [option_map].
    apply Z.eqb_neq in Hu. now rewrite Hu.
Qed.

End Logout.

Lemma Logout_revokes_presented_token_only_witness :
  let w := world_of [ann 0 None]
             [session 1 1 "phone" (100 * second) false;
              session 2 1 "laptop" (100 * second) false] in
  exists w1 w2,
    local.Logout poly_Sum256 sample_adapter (env_at second) "phone" w = (Returns None, w1)
    /\ local.LogoutAll sample_adapter (env_at second) 1 w = (Returns None, w2)
    /\ ((forall t, In t (refresh_tokens w1) ->
           domain.TokenHash t = local.HashToken poly_Sum256 "phone" ->
           domain.Revoked t = true)
        /\ (forall i t, nth_error (refresh_tokens w) i = Some t ->
              domain.TokenHash t <> local.HashToken poly_Sum256 "phone" ->
              nth_error (refresh_tokens w1) i = Some t)
        /\ List.length (refresh_tokens w1) = List.length (refresh_tokens w)
        /\ users w1 = users w)
    /\ ((forall t, In t (refresh_tokens w2) -> domain.UserID t = 1 ->
           domain.Revoked t = true)
        /\ (forall i t, nth_error (refresh_tokens w) i = Some t ->
              domain.UserID t <> 1 ->
              nth_error (refresh_tokens w2) i = Some t)
        /\ List.length (refresh_tokens w2) = List.length (refresh_tokens w)
        /\ users w2 = users w).
Proof.
  cbv zeta. eexists. eexists.
  split; [reflexivity |]. split; [reflexivity |].
  apply (Logout_revokes_presented_token_only poly_Sum256 sample_adapter (env_at second)
           "phone" 1); reflexivity.
Defined.

(** ** Reuse of a revoked refresh token *)

Section Reuse.

Variable SignedString : string -> local.Claims -> string + error.
Variable jwt_decode : string -> string -> option local.Claims.
Variable sha256_Sum256 : string -> string.

Let HashToken := local.HashToken sha256_Sum256.
Let RefreshTokens := local.RefreshTokens SignedString jwt_decode sha256_Sum256.


End Reuse.

(** ** Rotation *)

Module rotation_facts.

(** What [Create] does to the table: nothing, or one row at the end whose
    hash no row had. *)
Lemma Create_tokens (env : Env) (userID : Z) (tokenHash : string) (expiresAt : Z)
    (deviceInfo ipAddress userAgent : option string) (w : World) :
  exists r w',
    repositories.Create env userID tokenHash expiresAt deviceInfo ipAddress userAgent w
    = (Returns r, w')
    /\ users w' = users w
    /\ (refresh_tokens w' = refresh_tokens w
        \/ exists row,
             refresh_tokens w' = (refresh_tokens w ++ [row])%list
             /\ domain.TokenHash row = tokenHash
             /\ domain.UserID row = userID
             /\ forall t, In t (refresh_tokens w) -> domain.TokenHash t <> tokenHash).
Proof.
  unfold repositories.Create, sqlc.CreateRefreshToken.
  destruct (down env OpCreateRefreshToken); [eexists; eexists; eauto |].
  destruct (existsb _ (refresh_tokens w)) eqn:Hdup; [eexists; eexists; eauto |].
  destruct (negb (existsb _ (users w))); [eexists; eexists; eauto |].
  eexists; eexists. split; [reflexivity |]. split; [reflexivity |].
  right. eexists. split; [reflexivity |]. split; [reflexivity |]. split; [reflexivity |].
  intros t Hin Hh.
  assert (existsb (fun t0 => String.eqb (domain.TokenHash t0) tokenHash)
            (refresh_tokens w) = true) as Hex.
  { apply existsb_exists. exists t. split; [exact Hin | now apply String.eqb_eq]. }
  congruence.
Qed.

End rotation_facts.

Section Rotation.

Variable SignedString : string -> local.Claims -> string + error.
Variable jwt_decode : string -> string -> option local.Claims.
Variable sha256_Sum256 : string -> string.

Let HashToken := local.HashToken sha256_Sum256.
Let RefreshTokens := local.RefreshTokens SignedString jwt_decode sha256_Sum256.

(** After a successful [RefreshTokens] whose revocation the store carried
    out, every stored row with the hash of the presented token is
    revoked. *)
Lemma rotated_token_revoked
    (a : local.Adapter) (env : Env) (refreshToken : string) (w w1 : World)
    (pair : local.TokenPair) :
  RefreshTokens a env refreshToken w = (Returns (inl pair), w1) ->
  down env OpRevokeRefreshToken = false ->
  (exists claims,
     local.VerifyRefreshToken jwt_decode (local.jwtManager a) env refreshToken
     = inl claims)
  /\ forall t, In t (refresh_tokens w1) ->
               domain.TokenHash t = HashToken refreshToken ->
               domain.Revoked t = true.
Proof.
  unfold RefreshTokens, local.RefreshTokens. intros Hrun Hup.
  destruct (local.VerifyRefreshToken jwt_decode (local.jwtManager a) env refreshToken)
    as [claims | err] eqn:Hverify; [| discriminate Hrun].
  split; [eauto |].
  unfold bind at 1 in Hrun.
  destruct (token_facts.GetByHash_cases env (local.HashToken sha256_Sum256 refreshToken) w)
    as [[err E] | [stored [E [Hstored [Hhash _]]]]]; rewrite E in Hrun;
    [discriminate Hrun |].
  destruct (domain.Revoked stored) eqn:Hrev.
  { exfalso. unfold bind, repositories.RevokeAllForUser,
      sqlc.RevokeAllUserRefreshTokens in Hrun.
    destruct (down env OpRevokeAllUserRefreshTokens); discriminate Hrun. }
  unfold bind at 1 in Hrun.
  unfold repositories.Revoke, sqlc.RevokeRefreshToken in Hrun. rewrite Hup in Hrun.
  unfold bind at 1 in Hrun. cbn [log_if_err ret] in Hrun.
  destruct (local.GenerateTokenPair _ _ _ _ _ _ _) as [tokenPair | err];
    [| discriminate Hrun].
  unfold bind at 1 in Hrun.
  set (revoked_rows := map _ (refresh_tokens w)) in Hrun.
  destruct (rotation_facts.Create_tokens env (local.UserID claims)
              (local.HashToken sha256_Sum256 (local.RefreshToken tokenPair))
              (now env + local.RefreshTokenDuration (local.config a)) None None None
              (sqlc.set_refresh_tokens revoked_rows w))
    as [r [wc [Ecreate [_ Hrows]]]].
  rewrite Ecreate in Hrun.
  assert (Hw1 : refresh_tokens w1 = refresh_tokens wc).
  { unfold bind in Hrun. destruct r; cbn in Hrun; injection Hrun as _ <-; reflexivity. }
  rewrite Hw1. cbn [sqlc.set_refresh_tokens refresh_tokens] in Hrows.
  assert (Hrevoked_rows : forall t, In t revoked_rows ->
            domain.TokenHash t = HashToken refreshToken -> domain.Revoked t = true).
  { intros t Hin Hh. subst revoked_rows. apply in_map_iff in Hin as [t0 [<- _]].
    destruct (String.eqb (domain.TokenHash t0) _) eqn:Eh; [reflexivity |].
    apply String.eqb_neq in Eh. contradiction. }
  destruct Hrows as [-> | [row [-> [Hrow [_ Hfresh]]]]]; [exact Hrevoked_rows |].
  intros t Hin Hh. apply in_app_or in Hin as [Hin | [<- | []]].
  - now apply Hrevoked_rows.
  - exfalso.
    apply (Hfresh (if String.eqb (domain.TokenHash stored)
                        (local.HashToken sha256_Sum256 refreshToken)
                   then sqlc.revoke env stored else stored)).
    + subst revoked_rows. apply in_map_iff. exists stored. auto.
    + rewrite <- Hrow, Hh. destruct (String.eqb _ _); exact Hhash.
Qed.

(** C2, amended.  After a first successful [RefreshTokens(t)] whose
    revocation of the presented token the store carried out, every
    further [RefreshTokens(t)] fails: with [ErrInvalidToken] while the
    token has not expired, with [ErrTokenExpired] from its expiry on. *)
Theorem RefreshTokens_single_use
    (a : local.Adapter) (env1 : Env) (refreshToken : string) (w w1 : World)
    (pair : local.TokenPair) :
  RefreshTokens a env1 refreshToken w = (Returns (inl pair), w1) ->
  down env1 OpRevokeRefreshToken = false ->
  exists claims,
    local.VerifyRefreshToken jwt_decode (local.jwtManager a) env1 refreshToken = inl claims
    /\ forall env2,
         exists w2,
           RefreshTokens a env2 refreshToken w1
           = (Returns (inr (if local.jwt_expired (now env2) (local.Registered claims)
                            then local.ErrTokenExpired else local.ErrInvalidToken)),
              w2).
Proof.
  intros Hrun Hup.
  destruct (rotated_token_revoked a env1 refreshToken w w1 pair Hrun Hup)
    as [[claims Hverify] Hrevoked].
  exists claims. split; [exact Hverify |]. intros env2.
  destruct (token_facts.verifyToken_decoded jwt_decode _ _ _ _ _ Hverify) as [Hdec _].
  unfold RefreshTokens, local.RefreshTokens, local.VerifyRefreshToken.
  destruct (local.jwt_expired (now env2) (local.Registered claims)) eqn:Hexp.
  - rewrite (token_facts.verifyToken_expired jwt_decode _ env2 _ _ _ Hdec Hexp).
    eexists. reflexivity.
  - destruct (token_facts.verifyToken_unexpired jwt_decode _ env2 _
                local.TokenTypeRefresh _ Hdec Hexp) as [-> | ->];
      [| eexists; reflexivity].
    unfold bind at 1.
    destruct (token_facts.GetByHash_cases env2
                (local.HashToken sha256_Sum256 refreshToken) w1)
      as [[err E] | [r [E [Hr [Hrh _]]]]]; rewrite E; [eexists; reflexivity |].
    rewrite (Hrevoked r Hr Hrh).
    apply token_facts.reuse_branch_fails.
Qed.

End Rotation.


Lemma RefreshTokens_single_use_witness :
  exists tokenPair w1,
    local.RefreshTokens plain_SignedString plain_decode poly_Sum256 sample_adapter
      (env_at minute) (local.RefreshToken sample_pair) (two_sessions false)
    = (Returns (inl tokenPair), w1)
    /\ down (env_at minute) OpRevokeRefreshToken = false
    /\ exists claims,
         local.VerifyRefreshToken plain_decode (local.jwtManager sample_adapter)
           (env_at minute) (local.RefreshToken sample_pair) = inl claims
         /\ forall env2,
              exists w2,
                local.RefreshTokens plain_SignedString plain_decode poly_Sum256
                  sample_adapter env2 (local.RefreshToken sample_pair) w1
                = (Returns (inr (if local.jwt_expired (now env2) (local.Registered claims)
                                 then local.ErrTokenExpired else local.ErrInvalidToken)),
                   w2).
Proof.
  eexists. eexists.
  split; [vm_compute; reflexivity |].
  split; [reflexivity |].
  eapply (RefreshTokens_single_use plain_SignedString plain_decode poly_Sum256
            sample_adapter (env_at minute) (local.RefreshToken sample_pair)
            (two_sessions false));
    [vm_compute; reflexivity | reflexivity].
Defined.

(** C2 as stated fails when the token expires between the two calls:
    the token issued at t = 0 for 7 days is rotated at t = 1 min; the
    second call, on day 8, is answered [ErrTokenExpired], not
    [ErrInvalidToken]. *)
Lemma second_refresh_after_expiry :
  exists tokenPair w1 w2,
    local.RefreshTokens plain_SignedString plain_decode poly_Sum256 sample_adapter
      (env_at minute) (local.RefreshToken sample_pair) (two_sessions false)
    = (Returns (inl tokenPair), w1)
    /\ local.RefreshTokens plain_SignedString plain_decode poly_Sum256 sample_adapter
         (env_at (8 * day)) (local.RefreshToken sample_pair) w1
       = (Returns (inr local.ErrTokenExpired), w2)
    /\ local.ErrTokenExpired <> local.ErrInvalidToken.
Proof.
  eexists. eexists. eexists.
  split; [vm_compute; reflexivity |].
  split; [vm_compute; reflexivity | discriminate].
Qed.

(** ** A login whose refresh token is not stored *)

Section CreateFailure.

Variable argon2id : string -> string -> Z -> Z -> Z -> Z -> string.
Variable SignedString : string -> local.Claims -> string + error.
Variable jwt_decode : string -> string -> option local.Claims.
Variable sha256_Sum256 : string -> string.

(** C10.  When the user is found, is not locked, has a status that allows
    login and the password verifies, and the pair is generated, but the
    store's [Create] fails (the call fails at the driver, or a row already
    carries the hash), [Login] still returns the pair and the user with a
    nil error; the table of refresh tokens is as before and the failure
    is in the log.  In any world where no row carries the hash of the
    returned refresh token, [RefreshTokens] on it fails and changes
    nothing: while its hash is not stored the token cannot be redeemed. *)
Theorem Login_returns_unstored_refresh_token
    (a : local.Adapter) (env : Env) (email password ip ua : string) (w : World)
    (user : domain.User) (tokenPair : local.TokenPair) :
  down env OpGetUserByEmail = false ->
  user_by_email email w = Some user ->
  domain.IsLocked (now env) user = false ->
  loginable user ->
  local.Verify argon2id (local.passwordHasher a) password (domain.PasswordHash user)
    = Returns (true, None) ->
  local.GenerateTokenPair SignedString (local.jwtManager a) env (domain.ID user)
    (domain.Email user) (domain.EmailVerified user)
    (domain.UserRole_string (domain.Role user)) = inl tokenPair ->
  (down env OpCreateRefreshToken = true
   \/ existsb (fun t => String.eqb (domain.TokenHash t)
                          (local.HashToken sha256_Sum256 (local.RefreshToken tokenPair)))
        (refresh_tokens w) = true) ->
  exists w',
    local.Login argon2id SignedString sha256_Sum256 a env email password ip ua w
    = (Returns (inl (tokenPair, user)), w')
    /\ refresh_tokens w' = refresh_tokens w
    /\ (exists err,
          In {| level := LevelError; message := "failed to store refresh token";
                log_error := Some err; log_user_id := domain.ID user |} (logs w'))
    /\ (forall w'' env',
          (forall t, In t (refresh_tokens w'') ->
             domain.TokenHash t
             <> local.HashToken sha256_Sum256 (local.RefreshToken tokenPair)) ->
          exists err,
            local.RefreshTokens SignedString jwt_decode sha256_Sum256 a env'
              (local.RefreshToken tokenPair) w''
            = (Returns (inr err), w'')
            /\ (err = local.ErrInvalidToken \/ err = local.ErrTokenExpired)).
Proof.
  intros Hup Huser Hunlocked Hstatus Hverify Hgen Hfail.
  assert (Hlogin :
    exists w',
      local.Login argon2id SignedString sha256_Sum256 a env email password ip ua w
      = (Returns (inl (tokenPair, user)), w')
      /\ refresh_tokens w' = refresh_tokens w
      /\ (exists err,
            In {| level := LevelError; message := "failed to store refresh token";
                  log_error := Some err; log_user_id := domain.ID user |} (logs w'))).
  { unfold local.Login. unfold bind at 1.
    rewrite (login_facts.Login_found a env email password ip ua w user Hup Huser).
    rewrite Hunlocked, (login_facts.loginable_passes user Hstatus).
    unfold bind at 1. unfold lift. rewrite Hverify. cbn [local.is_err negb orb].
    rewrite Hgen.
    unfold bind, log_if_err, log_Error, log_Info,
      repositories.ResetFailedLoginAttempts, sqlc.ResetFailedLoginAttempts,
      repositories.Create, sqlc.CreateRefreshToken,
      repositories.UpdateLastLogin, sqlc.UpdateUserLastLogin, ret.
    destruct (0 <? domain.FailedLoginAttempts user);
      [destruct (down env OpResetFailedLoginAttempts) |];
      cbn [sqlc.set_users users refresh_tokens refresh_tokens_id_seq logs];
      (destruct Hfail as [Hdown | Hdup];
       [rewrite Hdown
       | destruct (down env OpCreateRefreshToken); [| rewrite Hdup]]);
      destruct (down env OpUpdateUserLastLogin);
      cbn [sqlc.set_users users refresh_tokens refresh_tokens_id_seq logs];
      (eexists; split; [reflexivity |]; split; [reflexivity |];
       cbn [logs]; eexists; rewrite ?in_app_iff; cbn [In]; eauto 8). }
  destruct Hlogin as [w' [Hrun [Hrows Hlog]]].
  exists w'. split; [exact Hrun |]. split; [exact Hrows |]. split; [exact Hlog |].
  intros w'' env' Habsent.
  apply token_facts.RefreshTokens_unknown_hash. exact Habsent.
Qed.

End CreateFailure.

Lemma Login_returns_unstored_refresh_token_witness :
  let w := world_of [ann 0 None] [] in
  let env := env_create_down minute in
  exists tokenPair,
    down env OpGetUserByEmail = false
    /\ user_by_email "a@x.com" w = Some (ann 0 None)
    /\ domain.IsLocked (now env) (ann 0 None) = false
    /\ loginable (ann 0 None)
    /\ local.Verify pad_argon2id (local.passwordHasher sample_adapter) "Passw0rd!"
         (domain.PasswordHash (ann 0 None)) = Returns (true, None)
    /\ local.GenerateTokenPair plain_SignedString (local.jwtManager sample_adapter) env
         (domain.ID (ann 0 None)) (domain.Email (ann 0 None))
         (domain.EmailVerified (ann 0 None))
         (domain.UserRole_string (domain.Role (ann 0 None))) = inl tokenPair
    /\ down env OpCreateRefreshToken = true
    /\ exists w',
         local.Login pad_argon2id plain_SignedString poly_Sum256 sample_adapter env
           "a@x.com" "Passw0rd!" "10.0.0.1" "curl" w
         = (Returns (inl (tokenPair, ann 0 None)), w')
         /\ refresh_tokens w' = refresh_tokens w
         /\ (exists err,
               In {| level := LevelError; message := "failed to store refresh token";
                     log_error := Some err; log_user_id := domain.ID (ann 0 None) |}
                 (logs w'))
         /\ (forall w'' env',
               (forall t, In t (refresh_tokens w'') ->
                  domain.TokenHash t
                  <> local.HashToken poly_Sum256 (local.RefreshToken tokenPair)) ->
               exists err,
                 local.RefreshTokens plain_SignedString plain_decode poly_Sum256
                   sample_adapter env' (local.RefreshToken tokenPair) w''
                 = (Returns (inr err), w'')
                 /\ (err = local.ErrInvalidToken \/ err = local.ErrTokenExpired)).
Proof.
  cbv zeta.
  assert (Hverify : local.Verify pad_argon2id (local.passwordHasher sample_adapter)
                      "Passw0rd!" (domain.PasswordHash (ann 0 None))
                    = Returns (true, None)) by (vm_compute; reflexivity).
  assert (Hstatus : loginable (ann 0 None)) by (right; reflexivity).
  eexists.
  do 3 (split; [reflexivity |]).
  split; [exact Hstatus |]. split; [exact Hverify |].
  split; [reflexivity |]. split; [reflexivity |].
  apply (Login_returns_unstored_refresh_token pad_argon2id plain_SignedString
           plain_decode poly_Sum256 sample_adapter (env_create_down minute)
           "a@x.com" "Passw0rd!" "10.0.0.1" "curl" (world_of [ann 0 None] [])
           (ann 0 None) _ eq_refl eq_refl eq_refl Hstatus Hverify eq_refl
           (or_introl eq_refl)).
Defined.

(** ** Lockout *)

Module lockout_facts.

Section Lockout.

Variable argon2id : string -> string -> Z -> Z -> Z -> Z -> string.
Variable SignedString : string -> local.Claims -> string + error.
Variable sha256_Sum256 : string -> string.

Let Login := local.Login argon2id SignedString sha256_Sum256.

(** The account after a failed password check. *)
Lemma after_mismatch_account (a : local.Adapter) (env : Env) (email : string)
    (w : World) (user : domain.User) :
  users_pkey w ->
  user_by_email email w = Some user ->
  let w' := sqlc.set_users (after_mismatch a env user (users w)) w in
  users_pkey w'
  /\ refresh_tokens w' = refresh_tokens w
  /\ exists user',
       user_by_email email w' = Some user'
       /\ domain.PasswordHash user' = domain.PasswordHash user
       /\ domain.Status user' = domain.Status user
       /\ domain.FailedLoginAttempts user' = domain.FailedLoginAttempts user + 1
       /\ domain.LockedUntil user'
          = if local.MaxFailedAttempts (local.config a)
               <=? domain.FailedLoginAttempts user + 1
            then Some (now env + local.LockoutDuration (local.config a))
            else domain.LockedUntil user.
Proof.
  intros Hpk Huser. cbv zeta. unfold users_pkey, user_by_email, after_mismatch.
  cbn [sqlc.set_users users refresh_tokens].
  destruct (local.MaxFailedAttempts (local.config a)
            <=? domain.FailedLoginAttempts user + 1).
  - rewrite !store_facts.ids_update by reflexivity.
    split; [exact Hpk |]. split; [reflexivity |].
    rewrite !store_facts.find_email_update by reflexivity.
    unfold user_by_email in Huser. rewrite Huser. cbn [option_map].
    rewrite Z.eqb_refl. cbn [sqlc.touch sqlc.set_failed_attempts domain.ID].
    rewrite Z.eqb_refl. eexists. split; [reflexivity |]. cbn. auto.
  - rewrite !store_facts.ids_update by reflexivity.
    split; [exact Hpk |]. split; [reflexivity |].
    rewrite !store_facts.find_email_update by reflexivity.
    unfold user_by_email in Huser. rewrite Huser. cbn [option_map].
    rewrite Z.eqb_refl. eexists. split; [reflexivity |]. cbn. auto.
Qed.



End Lockout.

End lockout_facts.

Section LockoutPolicy.

Variable argon2id : string -> string -> Z -> Z -> Z -> Z -> string.
Variable SignedString : string -> local.Claims -> string + error.
Variable sha256_Sum256 : string -> string.


End LockoutPolicy.


(** * Further properties of the hasher, the token manager and the adapter *)

(** ** The password policy *)

Module policy_facts.

Section Policy.

Variable utf8_runes : string -> list Z.
Variables unicode_IsUpper unicode_IsLower unicode_IsDigit
          unicode_IsPunct unicode_IsSymbol : Z -> bool.

(** The flags after the loop say whether some character took the case. *)
Lemma classify_flags (password : string) :
  local.classify utf8_runes unicode_IsUpper unicode_IsLower unicode_IsDigit
    unicode_IsPunct unicode_IsSymbol password
  = (existsb (counts_as_upper unicode_IsUpper) (utf8_runes password),
     existsb (counts_as_lower unicode_IsUpper unicode_IsLower) (utf8_runes password),
     existsb (counts_as_digit unicode_IsUpper unicode_IsLower unicode_IsDigit)
       (utf8_runes password),
     existsb (counts_as_special unicode_IsUpper unicode_IsLower unicode_IsDigit
                unicode_IsPunct unicode_IsSymbol) (utf8_runes password)).
Proof.
  unfold local.classify.
  match goal with
  | |- fold_left ?f _ _ = _ => set (step := f)
  end.
  assert (Hfrom : forall l u lo d s,
            fold_left step l (u, lo, d, s)
            = (u || existsb (counts_as_upper unicode_IsUpper) l,
               lo || existsb (counts_as_lower unicode_IsUpper unicode_IsLower) l,
               d || existsb (counts_as_digit unicode_IsUpper unicode_IsLower
                               unicode_IsDigit) l,
               s || existsb (counts_as_special unicode_IsUpper unicode_IsLower
                               unicode_IsDigit unicode_IsPunct unicode_IsSymbol) l)).
  { induction l as [| char l IH]; intros u lo d s; cbn [fold_left existsb].
    - now rewrite !orb_false_r.
    - replace (step (u, lo, d, s) char)
        with (u || counts_as_upper unicode_IsUpper char,
              lo || counts_as_lower unicode_IsUpper unicode_IsLower char,
              d || counts_as_digit unicode_IsUpper unicode_IsLower unicode_IsDigit char,
              s || counts_as_special unicode_IsUpper unicode_IsLower unicode_IsDigit
                     unicode_IsPunct unicode_IsSymbol char).
      + rewrite IH, !orb_assoc. reflexivity.
      + unfold step, counts_as_upper, counts_as_lower, counts_as_digit,
          counts_as_special.
        destruct (unicode_IsUpper char), (unicode_IsLower char),
          (unicode_IsDigit char), (unicode_IsPunct char), (unicode_IsSymbol char);
          cbn [negb andb orb]; rewrite ?orb_true_r, ?orb_false_r; reflexivity. }
  now rewrite Hfrom.
Qed.

End Policy.

End policy_facts.

Section PasswordPolicy.

Variable utf8_runes : string -> list Z.
Variables unicode_IsUpper unicode_IsLower unicode_IsDigit
          unicode_IsPunct unicode_IsSymbol : Z -> bool.

(** X1.  [ValidatePassword] accepts a password exactly when it has at
    least [PasswordMinLength] bytes and, for every class the policy
    requires, one of its characters takes that class's case of the switch
    (upper case first, then lower case, digit, punctuation or symbol). *)
Theorem ValidatePassword_accepts_iff (h : local.PasswordHasher) (password : string) :
  local.ValidatePassword utf8_runes unicode_IsUpper unicode_IsLower unicode_IsDigit
    unicode_IsPunct unicode_IsSymbol h password = None
  <->
  local.PasswordMinLength (local.hasher_config h) <= Z.of_nat (String.length password)
  /\ (local.PasswordRequireUpper (local.hasher_config h) = true ->
      existsb (counts_as_upper unicode_IsUpper) (utf8_runes password) = true)
  /\ (local.PasswordRequireLower (local.hasher_config h) = true ->
      existsb (counts_as_lower unicode_IsUpper unicode_IsLower) (utf8_runes password)
      = true)
  /\ (local.PasswordRequireDigit (local.hasher_config h) = true ->
      existsb (counts_as_digit unicode_IsUpper unicode_IsLower unicode_IsDigit)
        (utf8_runes password) = true)
  /\ (local.PasswordRequireSpecial (local.hasher_config h) = true ->
      existsb (counts_as_special unicode_IsUpper unicode_IsLower unicode_IsDigit
                 unicode_IsPunct unicode_IsSymbol) (utf8_runes password) = true).
Proof.
  unfold local.ValidatePassword. rewrite policy_facts.classify_flags.
  destruct (Z.ltb_spec (Z.of_nat (String.length password))
              (local.PasswordMinLength (local.hasher_config h))) as [Hshort | Hlong].
  - split; [discriminate | intros [Hlen _]; lia].
  - destruct (local.PasswordRequireUpper _), (existsb (counts_as_upper _) _);
      cbn [negb andb]; try (split; [discriminate | intros (_ & H & _); now specialize (H eq_refl)]);
      destruct (local.PasswordRequireLower _), (existsb (counts_as_lower _ _) _);
      cbn [negb andb];
      try (split; [discriminate | intros (_ & _ & H & _); now specialize (H eq_refl)]);
      destruct (local.PasswordRequireDigit _), (existsb (counts_as_digit _ _ _) _);
      cbn [negb andb];
      try (split; [discriminate | intros (_ & _ & _ & H & _); now specialize (H eq_refl)]);
      destruct (local.PasswordRequireSpecial _), (existsb (counts_as_special _ _ _ _ _) _);
      cbn [negb andb];
      try (split; [discriminate | intros (_ & _ & _ & _ & H); now specialize (H eq_refl)]);
      (split; [intros _ | reflexivity]);
      repeat split; try assumption; try reflexivity; try discriminate.
Qed.

End PasswordPolicy.

(** ** The encoded hash *)

Module encoding_facts.

Lemma length_append (a b : string) :
  String.length (a ++ b) = (String.length a + String.length b)%nat.
Proof. induction a as [| c a IH]; cbn; [reflexivity | now rewrite IH]. Qed.

(** Unpadded base64 writes four characters for three bytes, two for a
    last single byte and three for a last pair. *)
Lemma EncodeToString_length (s : string) :
  String.length (base64.EncodeToString s) = ((4 * String.length s + 2) / 3)%nat.
Proof.
  induction s as [| a | a b | a b c rest IH] using string_ind3;
    [reflexivity .. |].
  cbn [base64.EncodeToString String.length]. rewrite IH.
  replace (4 * S (S (S (String.length rest))) + 2)%nat
    with (4 * String.length rest + 2 + 4 * 3)%nat by lia.
  rewrite Nat.div_add by discriminate. lia.
Qed.

End encoding_facts.

Section HashFormat.

Variable argon2id : string -> string -> Z -> Z -> Z -> Z -> string.
Hypothesis argon2id_length : argon2_key_length argon2id.

(** X2.  What [Hash] returns, [decodeHash] reads back: the parameters of
    [NewPasswordHasher] (64 MiB, 3 passes, 2 lanes, a key of 32 bytes), the
    salt that was drawn and the key of the password under them. *)
Theorem decodeHash_Hash (config : local.Config) (env : Env)
    (password encodedHash : string) :
  local.Hash argon2id (local.NewPasswordHasher config) env password
  = Returns (inl encodedHash) ->
  exists salt,
    rand_Read env 16 = Some salt
    /\ local.decodeHash encodedHash
       = inl ({| local.params_memory := 65536;
                 local.params_iterations := 3;
                 local.params_parallelism := 2;
                 local.params_keyLength := 32 |},
              salt, argon2id password salt 3 65536 2 32).
Proof.
  unfold local.Hash. cbn [local.NewPasswordHasher local.saltLength].
  destruct (rand_Read env 16) as [salt |]; [| discriminate].
  cbn. intros [= <-]. exists salt. split; [reflexivity |].
  change (local.decodeHash
            (local.encode local.argon2_Version (64 * 1024) 3 2
               (base64.EncodeToString salt)
               (base64.EncodeToString (argon2id password salt 3 65536 2 32)))
          = inl ({| local.params_memory := 65536;
                    local.params_iterations := 3;
                    local.params_parallelism := 2;
                    local.params_keyLength := 32 |},
                 salt, argon2id password salt 3 65536 2 32)).
  rewrite hasher_facts.decodeHash_encoded, argon2id_length by lia.
  reflexivity.
Qed.

(** X3.  When the random source fills the 16 bytes of the salt, the
    encoded hash is the fixed head ["$argon2id$v=19$m=65536,t=3,p=2$"],
    22 characters of salt, a ["$"] and 43 characters of key: 97 bytes,
    well within the 255 of the column [password_hash]. *)
Theorem Hash_length (config : local.Config) (env : Env)
    (password encodedHash : string) :
  (forall salt, rand_Read env 16 = Some salt -> String.length salt = 16%nat) ->
  local.Hash argon2id (local.NewPasswordHasher config) env password
  = Returns (inl encodedHash) ->
  exists b64Salt b64Hash,
    encodedHash = ("$argon2id$v=19$m=65536,t=3,p=2$" ++ b64Salt ++ "$" ++ b64Hash)%string
    /\ String.length b64Salt = 22%nat
    /\ String.length b64Hash = 43%nat
    /\ String.length encodedHash = 97%nat.
Proof.
  intros Hrand. unfold local.Hash. cbn [local.NewPasswordHasher local.saltLength].
  destruct (rand_Read env 16) as [salt |]; [| discriminate].
  pose proof (Hrand salt eq_refl) as Hsalt. cbn. intros [= <-].
  exists (base64.EncodeToString salt),
         (base64.EncodeToString (argon2id password salt 3 65536 2 32)).
  assert (H22 : String.length (base64.EncodeToString salt) = 22%nat)
    by (now rewrite encoding_facts.EncodeToString_length, Hsalt).
  assert (H43 : String.length
                  (base64.EncodeToString (argon2id password salt 3 65536 2 32))
                = 43%nat)
    by (now rewrite encoding_facts.EncodeToString_length, argon2id_length by lia).
  split; [reflexivity |]. split; [exact H22 |]. split; [exact H43 |].
  change (String.length
            ("$argon2id$v=19$m=65536,t=3,p=2$"
               ++ base64.EncodeToString salt
               ++ "$" ++ base64.EncodeToString (argon2id password salt 3 65536 2 32))
          = 97%nat).
  rewrite !encoding_facts.length_append, H22, H43. reflexivity.
Qed.

End HashFormat.

Lemma decodeHash_Hash_witness :
  local.Hash pad_argon2id (local.NewPasswordHasher sample_config) (env_at 0) "Passw0rd!"
  = Returns (inl sample_hash)
  /\ exists salt,
       rand_Read (env_at 0) 16 = Some salt
       /\ local.decodeHash sample_hash
          = inl ({| local.params_memory := 65536;
                    local.params_iterations := 3;
                    local.params_parallelism := 2;
                    local.params_keyLength := 32 |},
                 salt, pad_argon2id "Passw0rd!" salt 3 65536 2 32).
Proof.
  split; [reflexivity |].
  apply (decodeHash_Hash pad_argon2id stand_in_facts.pad_argon2id_length
           sample_config (env_at 0) "Passw0rd!" sample_hash).
  reflexivity.
Defined.

Lemma Hash_length_witness :
  (forall salt, rand_Read (env_at 0) 16 = Some salt -> String.length salt = 16%nat)
  /\ local.Hash pad_argon2id (local.NewPasswordHasher sample_config) (env_at 0) "Passw0rd!"
     = Returns (inl sample_hash)
  /\ exists b64Salt b64Hash,
       sample_hash = ("$argon2id$v=19$m=65536,t=3,p=2$" ++ b64Salt ++ "$" ++ b64Hash)%string
       /\ String.length b64Salt = 22%nat
       /\ String.length b64Hash = 43%nat
       /\ String.length sample_hash = 97%nat.
Proof.
  assert (Hrand : forall salt,
            rand_Read (env_at 0) 16 = Some salt -> String.length salt = 16%nat)
    by (intros salt [= <-]; reflexivity).
  split; [exact Hrand |]. split; [reflexivity |].
  apply (Hash_length pad_argon2id stand_in_facts.pad_argon2id_length
           sample_config (env_at 0) "Passw0rd!" sample_hash Hrand).
  reflexivity.
Defined.

(** X4.  [decodeHash] never looks at the field before the first ["$"]:
    text put in front of a stored hash changes neither what is decoded
    nor what [Verify] answers. *)
Theorem Verify_ignores_first_field
    (argon2id : string -> string -> Z -> Z -> Z -> Z -> string)
    (h : local.PasswordHasher) (password junk rest : string) :
  strings_free_of "$"%char junk = true ->
  local.decodeHash (junk ++ String "$"%char rest) = local.decodeHash (String "$"%char rest)
  /\ local.Verify argon2id h password (junk ++ String "$"%char rest)
     = local.Verify argon2id h password (String "$"%char rest).
Proof.
  intros Hfree.
  assert (Hdecode : local.decodeHash (junk ++ String "$"%char rest)
                    = local.decodeHash (String "$"%char rest)).
  { unfold local.decodeHash.
    rewrite (strings_facts.Split_app "$"%char junk rest Hfree).
    change (strings.Split (String "$"%char rest) "$"%char)
      with (EmptyString :: strings.Split rest "$"%char).
    reflexivity. }
  split; [exact Hdecode |]. unfold local.Verify. now rewrite Hdecode.
Qed.

Lemma Verify_ignores_first_field_witness :
  strings_free_of "$"%char "{argon2}" = true
  /\ local.decodeHash ("{argon2}" ++ sample_hash) = local.decodeHash sample_hash
  /\ local.Verify pad_argon2id (local.NewPasswordHasher sample_config) "Passw0rd!"
       ("{argon2}" ++ sample_hash)
     = local.Verify pad_argon2id (local.NewPasswordHasher sample_config) "Passw0rd!"
         sample_hash.
Proof.
  split; [reflexivity |].
  exact (Verify_ignores_first_field pad_argon2id (local.NewPasswordHasher sample_config)
           "Passw0rd!" "{argon2}"
           "argon2id$v=19$m=65536,t=3,p=2$c2FsdAAAAAAAAAAAAAAAAA$UGFzc3cwcmQhc2FsdAAAAAAAAAAAAAAAAAAAAAAAAAA"
           eq_refl).
Defined.

(** ** The stored form of a refresh token *)

Module hex_facts.

Lemma digit_is_hex (n : Z) : 0 <= n < 16 -> is_hex_digit (hex.digit n) = true.
Proof.
  intros Hn.
  apply (below_forallb (fun n => is_hex_digit (hex.digit n)) 16); [reflexivity | lia].
Qed.

(** The value of a hexadecimal digit. *)
Lemma digit_value (n : Z) :
  0 <= n < 16 ->
  (if code (hex.digit n) <=? 57 then code (hex.digit n) - 48
   else code (hex.digit n) - 87) = n.
Proof.
  intros Hn.
  apply Z.eqb_eq.
  apply (below_forallb
           (fun n => (if code (hex.digit n) <=? 57 then code (hex.digit n) - 48
                      else code (hex.digit n) - 87) =? n) 16); [reflexivity | lia].
Qed.

Lemma digit_inj (m n : Z) :
  0 <= m < 16 -> 0 <= n < 16 -> hex.digit m = hex.digit n -> m = n.
Proof.
  intros Hm Hn H.
  rewrite <- (digit_value m Hm), <- (digit_value n Hn), H. reflexivity.
Qed.

Lemma EncodeToString_inj (x y : string) :
  hex.EncodeToString x = hex.EncodeToString y -> x = y.
Proof.
  revert y. induction x as [| a x IH]; intros [| b y]; cbn [hex.EncodeToString];
    try discriminate; [reflexivity |].
  intros [= Hhigh Hlow Hrest].
  pose proof (code_range a) as Ha. pose proof (code_range b) as Hb.
  apply digit_inj in Hhigh; [| Z.to_euclidean_division_equations; lia ..].
  apply digit_inj in Hlow; [| Z.to_euclidean_division_equations; lia ..].
  f_equal; [| exact (IH y Hrest)].
  apply code_inj. Z.to_euclidean_division_equations; lia.
Qed.

Lemma EncodeToString_hex (x : string) :
  String.length (hex.EncodeToString x) = (2 * String.length x)%nat
  /\ string_forallb is_hex_digit (hex.EncodeToString x) = true.
Proof.
  induction x as [| a x [IHlen IHhex]]; [split; reflexivity |].
  cbn [hex.EncodeToString String.length string_forallb].
  pose proof (code_range a) as Ha.
  rewrite !digit_is_hex, IHhex, IHlen by (Z.to_euclidean_division_equations; lia).
  split; [lia | reflexivity].
Qed.

End hex_facts.

(** X5.  [HashToken] writes two lower-case hexadecimal digits for every
    byte of the digest, and two tokens have the same stored form exactly
    when their digests are equal: with the 32 bytes of SHA-256 the stored
    form has the 64 characters of the column [token_hash], and rows can
    only be confused by a collision of the digest. *)
Theorem HashToken_hex (sha256_Sum256 : string -> string) (token token' : string) :
  String.length (local.HashToken sha256_Sum256 token)
  = (2 * String.length (sha256_Sum256 token))%nat
  /\ string_forallb is_hex_digit (local.HashToken sha256_Sum256 token) = true
  /\ (local.HashToken sha256_Sum256 token = local.HashToken sha256_Sum256 token'
      <-> sha256_Sum256 token = sha256_Sum256 token').
Proof.
  unfold local.HashToken.
  destruct (hex_facts.EncodeToString_hex (sha256_Sum256 token)) as [Hlen Hhex].
  split; [exact Hlen |]. split; [exact Hhex |].
  split; [apply hex_facts.EncodeToString_inj | now intros ->].
Qed.

(** ** Verification of tokens *)

Module verify_facts.

Lemma length_zero (s : string) : String.length s = 0%nat <-> s = EmptyString.
Proof. destruct s; cbn; split; congruence. Qed.

(** A required audience is verified when the claim names it and is not
    made of empty strings only. *)
Lemma VerifyAudience_required (c : local.RegisteredClaims) (cmp : string) :
  local.VerifyAudience c cmp true = true
  <-> String.concat "" (local.claims_Audience c) <> EmptyString
      /\ In cmp (local.claims_Audience c).
Proof.
  unfold local.VerifyAudience.
  destruct (local.claims_Audience c) as [| a0 aud] eqn:Haud.
  - cbn. split; [discriminate | intros [H _]; now elim H].
  - rewrite <- Haud. clear Haud a0 aud.
    destruct (Nat.eqb_spec (String.length (String.concat "" (local.claims_Audience c))) 0)
      as [Hzero | Hsome].
    + apply length_zero in Hzero. cbn. split; [discriminate | intros [H _]; now elim H].
    + rewrite existsb_exists. split.
      * intros (a & Hin & Hcmp). split; [now rewrite <- length_zero |].
        destruct (string_dec a cmp) as [<- | Hne]; [exact Hin |].
        now rewrite (subtle_facts.ConstantTimeCompare_neq a cmp Hne) in Hcmp.
      * intros [_ Hin]. exists cmp. split; [exact Hin |].
        now rewrite subtle_facts.ConstantTimeCompare_refl.
Qed.

Section Accepts.

Variable jwt_decode : string -> string -> option local.Claims.

(** What [verifyToken] accepts. *)
Lemma verifyToken_iff (m : local.JWTManager) (env : Env)
    (tokenString expectedType : string) (claims : local.Claims) :
  local.verifyToken jwt_decode m env tokenString expectedType = inl claims
  <->
  jwt_decode (local.PublicKey (local.manager_config m)) tokenString = Some claims
  /\ local.jwt_expired (now env) (local.Registered claims) = false
  /\ local.jwt_not_valid_yet (now env) (local.Registered claims) = false
  /\ local.TokenType claims = expectedType
  /\ local.claims_Issuer (local.Registered claims) = local.Issuer (local.manager_config m)
  /\ String.concat "" (local.claims_Audience (local.Registered claims)) <> EmptyString
  /\ In (local.Audience (local.manager_config m))
        (local.claims_Audience (local.Registered claims)).
Proof.
  unfold local.verifyToken, local.jwt_ParseWithClaims, local.jwt_Validate.
  destruct (jwt_decode _ tokenString) as [c |];
    [| split; [discriminate | intros [H _]; discriminate H]].
  destruct (local.jwt_expired (now env) (local.Registered c)) eqn:Hexp,
           (local.jwt_not_valid_yet (now env) (local.Registered c)) eqn:Hnbf;
    try (split; [destruct (errors_Is _ _); discriminate
                | intros ([= <-] & H1 & H2 & _); congruence]).
  destruct (String.eqb_spec (local.TokenType c) expectedType) as [Hty | Hty];
    cbn [negb]; [| split; [discriminate | intros ([= <-] & _ & _ & H & _); contradiction]].
  destruct (String.eqb_spec (local.claims_Issuer (local.Registered c))
              (local.Issuer (local.manager_config m))) as [Hiss | Hiss];
    cbn [negb];
    [| split; [discriminate | intros ([= <-] & _ & _ & _ & H & _); contradiction]].
  destruct (local.VerifyAudience (local.Registered c)
              (local.Audience (local.manager_config m)) true) eqn:Haud; cbn [negb].
  - apply VerifyAudience_required in Haud as [Hsome Hin].
    split; [intros [= <-]; repeat split; assumption | intros ([= <-] & _); reflexivity].
  - split; [discriminate |].
    intros ([= <-] & _ & _ & _ & _ & Hsome & Hin).
    assert (Htrue : local.VerifyAudience (local.Registered c)
                      (local.Audience (local.manager_config m)) true = true)
      by (apply VerifyAudience_required; split; assumption).
    congruence.
Qed.

End Accepts.

End verify_facts.

Section VerifyToken.

Variable jwt_decode : string -> string -> option local.Claims.


(** X7.  [verifyToken] refuses with one of two errors, whatever the
    library reported: [ErrTokenExpired] exactly when the token decodes
    under the configured public key and its expiry has passed, whatever
    its type, issuer and audience; [ErrInvalidToken] in every other
    case. *)
Theorem verifyToken_refuses (m : local.JWTManager) (env : Env)
    (tokenString expectedType : string) (err : error) :
  local.verifyToken jwt_decode m env tokenString expectedType = inr err ->
  (err = local.ErrTokenExpired
   /\ exists claims,
        jwt_decode (local.PublicKey (local.manager_config m)) tokenString = Some claims
        /\ local.jwt_expired (now env) (local.Registered claims) = true)
  \/ (err = local.ErrInvalidToken
      /\ forall claims,
           jwt_decode (local.PublicKey (local.manager_config m)) tokenString
           = Some claims ->
           local.jwt_expired (now env) (local.Registered claims) = false).
Proof.
  unfold local.verifyToken, local.jwt_ParseWithClaims, local.jwt_Validate.
  destruct (jwt_decode _ tokenString) as [c |].
  - destruct (local.jwt_expired (now env) (local.Registered c)) eqn:Hexp,
             (local.jwt_not_valid_yet (now env) (local.Registered c)).
    + intros [= <-]. left. split; [reflexivity | eauto].
    + intros [= <-]. left. split; [reflexivity | eauto].
    + intros [= <-]. right. split; [reflexivity | now intros ? [= <-]].
    + intros H. right. split; [| now intros ? [= <-]].
      repeat match type of H with
             | (if ?c then _ else _) = _ => destruct c
             end; first [discriminate H | now injection H as <-].
  - intros [= <-]. right. split; [reflexivity | discriminate].
Qed.

End VerifyToken.

Lemma verifyToken_refuses_witness :
  local.verifyToken plain_decode (local.NewJWTManager sample_config) (env_at (16 * minute))
    (local.AccessToken sample_pair) local.TokenTypeAccess
  = inr local.ErrTokenExpired
  /\ ((local.ErrTokenExpired = local.ErrTokenExpired
       /\ exists claims,
            plain_decode
              (local.PublicKey (local.manager_config (local.NewJWTManager sample_config)))
              (local.AccessToken sample_pair) = Some claims
            /\ local.jwt_expired (now (env_at (16 * minute))) (local.Registered claims)
               = true)
      \/ (local.ErrTokenExpired = local.ErrInvalidToken
          /\ forall claims,
               plain_decode
                 (local.PublicKey
                    (local.manager_config (local.NewJWTManager sample_config)))
                 (local.AccessToken sample_pair) = Some claims ->
               local.jwt_expired (now (env_at (16 * minute))) (local.Registered claims)
               = false)).
Proof.
  split; [vm_compute; reflexivity |].
  apply (verifyToken_refuses plain_decode (local.NewJWTManager sample_config)
           (env_at (16 * minute)) (local.AccessToken sample_pair) local.TokenTypeAccess).
  vm_compute. reflexivity.
Defined.

(** ** Tokens as generated *)

Module generate_facts.

(** [jwt.NewNumericDate] rounds down to the whole second. *)
Lemma NewNumericDate_bounds (t : Z) :
  t - second < local.jwt_NewNumericDate t <= t.
Proof.
  unfold local.jwt_NewNumericDate, second.
  Z.to_euclidean_division_equations. lia.
Qed.

End generate_facts.

Section Generated.

Variable SignedString : string -> local.Claims -> string + error.
Variable jwt_decode : string -> string -> option local.Claims.
Variable m : local.JWTManager.

(** The configured keys are a pair, as for the claim on token types. *)
Hypothesis key_pair :
  forall claims s,
    SignedString (local.PrivateKey (local.manager_config m)) claims = inl s ->
    jwt_decode (local.PublicKey (local.manager_config m)) s = Some claims.

(** X8.  With a non-empty audience configured, each token of a pair from
    [GenerateTokenPair] verifies as what it is, at every instant before
    its expiry, and gives back the user id, email, verification flag and
    role it was generated for.  The expiry of a token is its duration
    after the instant of generation rounded down to the whole second; the
    pair's [ExpiresAt] is the unrounded expiry of the access token, less
    than a second later. *)
Theorem generated_tokens_verify
    (env : Env) (userID : Z) (email : string) (emailVerified : bool) (role : string)
    (pair : local.TokenPair) :
  local.Audience (local.manager_config m) <> EmptyString ->
  local.GenerateTokenPair SignedString m env userID email emailVerified role = inl pair ->
  local.PairExpiresAt pair - second < access_expiry m env <= local.PairExpiresAt pair
  /\ local.PairTokenType pair = "Bearer"%string
  /\ forall env',
       (now env' < access_expiry m env ->
        exists claims,
          local.VerifyAccessToken jwt_decode m env' (local.AccessToken pair) = inl claims
          /\ local.UserID claims = userID /\ local.Email claims = email
          /\ local.EmailVerified claims = emailVerified /\ local.Role claims = role
          /\ local.claims_ExpiresAt (local.Registered claims)
             = Some (access_expiry m env))
       /\ (now env' < refresh_expiry m env ->
           exists claims,
             local.VerifyRefreshToken jwt_decode m env' (local.RefreshToken pair)
             = inl claims
             /\ local.UserID claims = userID /\ local.Email claims = email
             /\ local.EmailVerified claims = emailVerified /\ local.Role claims = role
             /\ local.claims_ExpiresAt (local.Registered claims)
                = Some (refresh_expiry m env)).
Proof.
  intros Haud Hgen. unfold local.GenerateTokenPair in Hgen.
  unfold access_expiry, refresh_expiry.
  destruct (SignedString _ _) as [accessTokenString | e1] eqn:Haccess in Hgen;
    [| discriminate Hgen].
  destruct (SignedString _ _) as [refreshTokenString | e2] eqn:Hrefresh in Hgen;
    [| discriminate Hgen].
  injection Hgen as <-.
  cbn [local.AccessToken local.RefreshToken local.PairExpiresAt local.PairTokenType].
  apply key_pair in Haccess. apply key_pair in Hrefresh.
  split; [apply generate_facts.NewNumericDate_bounds |]. split; [reflexivity |].
  intros env'. split; intros Hnow; eexists;
    (split;
     [ apply verify_facts.verifyToken_iff;
       split; [eassumption |];
       cbn [local.Registered local.jwt_expired local.jwt_not_valid_yet
            local.claims_ExpiresAt local.claims_NotBefore local.TokenType
            local.claims_Issuer local.claims_Audience];
       split; [apply negb_false_iff, Z.ltb_lt; exact Hnow |];
       split; [reflexivity |]; split; [reflexivity |]; split; [reflexivity |];
       split; [cbn; exact Haud | left; reflexivity]
     | repeat split ]).
Qed.

End Generated.

Lemma generated_tokens_verify_witness :
  (forall claims s,
     plain_SignedString
       (local.PrivateKey (local.manager_config (local.NewJWTManager sample_config)))
       claims = inl s ->
     plain_decode
       (local.PublicKey (local.manager_config (local.NewJWTManager sample_config))) s
     = Some claims)
  /\ local.Audience (local.manager_config (local.NewJWTManager sample_config))
     <> EmptyString
  /\ local.GenerateTokenPair plain_SignedString (local.NewJWTManager sample_config)
       (env_at 0) 1 "a@x.com" false "user" = inl sample_pair
  /\ local.PairExpiresAt sample_pair - second
     < access_expiry (local.NewJWTManager sample_config) (env_at 0)
     <= local.PairExpiresAt sample_pair
  /\ local.PairTokenType sample_pair = "Bearer"%string
  /\ forall env',
       (now env' < access_expiry (local.NewJWTManager sample_config) (env_at 0) ->
        exists claims,
          local.VerifyAccessToken plain_decode (local.NewJWTManager sample_config) env'
            (local.AccessToken sample_pair) = inl claims
          /\ local.UserID claims = 1 /\ local.Email claims = "a@x.com"%string
          /\ local.EmailVerified claims = false /\ local.Role claims = "user"%string
          /\ local.claims_ExpiresAt (local.Registered claims)
             = Some (access_expiry (local.NewJWTManager sample_config) (env_at 0)))
       /\ (now env' < refresh_expiry (local.NewJWTManager sample_config) (env_at 0) ->
           exists claims,
             local.VerifyRefreshToken plain_decode (local.NewJWTManager sample_config) env'
               (local.RefreshToken sample_pair) = inl claims
             /\ local.UserID claims = 1 /\ local.Email claims = "a@x.com"%string
             /\ local.EmailVerified claims = false /\ local.Role claims = "user"%string
             /\ local.claims_ExpiresAt (local.Registered claims)
                = Some (refresh_expiry (local.NewJWTManager sample_config) (env_at 0))).
Proof.
  split; [exact (stand_in_facts.plain_decode_SignedString "k") |].
  split; [discriminate |]. split; [reflexivity |].
  apply (generated_tokens_verify plain_SignedString plain_decode
           (local.NewJWTManager sample_config)
           (stand_in_facts.plain_decode_SignedString "k")
           (env_at 0) 1 "a@x.com" false "user" sample_pair).
  - discriminate.
  - reflexivity.
Defined.

(** ** Identities *)

Section Identity.

Variable SignedString : string -> local.Claims -> string + error.
Variable jwt_decode : string -> string -> option local.Claims.
Variable auth_Permission : Type.
Variable auth_NewPermission : string -> string -> auth_Permission.
Variables auth_RoleAdmin auth_RoleUser : string.
Variable a : local.Adapter.

Hypothesis key_pair :
  forall claims s,
    SignedString (local.PrivateKey (local.manager_config (local.jwtManager a))) claims
    = inl s ->
    jwt_decode (local.PublicKey (local.manager_config (local.jwtManager a))) s
    = Some claims.

(** X9.  From the access token of a generated pair, presented before its
    expiry, [VerifyToken] builds the identity of the user the pair was
    generated for: the id in decimal, the email and verification flag, the
    one role with its permissions, the expiry of the token, and in [Raw]
    the id, the token's UUID and the instant of issue to the second.  The
    refresh token of the pair is never turned into an identity. *)
Theorem VerifyToken_generated
    (env : Env) (userID : Z) (email : string) (emailVerified : bool) (role : string)
    (pair : local.TokenPair) :
  local.Audience (local.manager_config (local.jwtManager a)) <> EmptyString ->
  local.GenerateTokenPair SignedString (local.jwtManager a) env userID email
    emailVerified role = inl pair ->
  forall env',
    (now env' < access_expiry (local.jwtManager a) env ->
     local.VerifyToken jwt_decode auth_Permission auth_NewPermission auth_RoleAdmin
       auth_RoleUser a env' (local.AccessToken pair)
     = Returns
         (inl {| auth.UserID := fmt.itoa userID;
                 auth.Email := email;
                 auth.EmailVerified := emailVerified;
                 auth.Roles := [role];
                 auth.Permissions :=
                   local.getRolePermissions auth_Permission auth_NewPermission
                     auth_RoleAdmin auth_RoleUser role;
                 auth.ExpiresAt := access_expiry (local.jwtManager a) env;
                 auth.Raw :=
                   [("user_id", auth.RawInt32 userID);
                    ("token_id", auth.RawString (uuid_New env 0));
                    ("issued_at", auth.RawTime (local.jwt_NewNumericDate (now env)))]
              |}))
    /\ exists err,
         local.VerifyToken jwt_decode auth_Permission auth_NewPermission auth_RoleAdmin
           auth_RoleUser a env' (local.RefreshToken pair)
         = Returns (inr err).
Proof.
  intros Haud Hgen env'. unfold local.GenerateTokenPair in Hgen.
  destruct (SignedString _ _) as [accessTokenString | e1] eqn:Haccess in Hgen;
    [| discriminate Hgen].
  destruct (SignedString _ _) as [refreshTokenString | e2] eqn:Hrefresh in Hgen;
    [| discriminate Hgen].
  injection Hgen as <-. cbn [local.AccessToken local.RefreshToken].
  apply key_pair in Haccess. apply key_pair in Hrefresh.
  unfold local.VerifyToken, local.VerifyAccessToken. split.
  - intros Hnow.
    match goal with
    | |- context [local.verifyToken jwt_decode ?m0 env' ?t ?ty] =>
        assert (Hverify : exists c,
                  jwt_decode (local.PublicKey (local.manager_config m0)) t = Some c
                  /\ local.verifyToken jwt_decode m0 env' t ty = inl c)
    end.
    { eexists. split; [exact Haccess |].
      apply verify_facts.verifyToken_iff.
      split; [exact Haccess |].
      cbn [local.Registered local.jwt_expired local.jwt_not_valid_yet
           local.claims_ExpiresAt local.claims_NotBefore local.TokenType
           local.claims_Issuer local.claims_Audience].
      split; [apply negb_false_iff, Z.ltb_lt; exact Hnow |].
      split; [reflexivity |]. split; [reflexivity |]. split; [reflexivity |].
      split; [cbn; exact Haud | left; reflexivity]. }
    destruct Hverify as (c & Hc & ->). rewrite Haccess in Hc. injection Hc as <-.
    reflexivity.
  - rewrite (token_facts.verifyToken_other_type jwt_decode (local.jwtManager a) env'
               _ _ _ Hrefresh) by discriminate.
    eauto.
Qed.

End Identity.

Lemma VerifyToken_generated_witness :
  (forall claims s,
     plain_SignedString
       (local.PrivateKey (local.manager_config (local.jwtManager sample_adapter)))
       claims = inl s ->
     plain_decode
       (local.PublicKey (local.manager_config (local.jwtManager sample_adapter))) s
     = Some claims)
  /\ local.Audience (local.manager_config (local.jwtManager sample_adapter))
     <> EmptyString
  /\ local.GenerateTokenPair plain_SignedString (local.jwtManager sample_adapter)
       (env_at 0) 1 "a@x.com" false "user" = inl sample_pair
  /\ forall env',
       (now env' < access_expiry (local.jwtManager sample_adapter) (env_at 0) ->
        local.VerifyToken plain_decode (string * string) pair_NewPermission
          sample_RoleAdmin sample_RoleUser sample_adapter env'
          (local.AccessToken sample_pair)
        = Returns
            (inl {| auth.UserID := fmt.itoa 1;
                    auth.Email := "a@x.com";
                    auth.EmailVerified := false;
                    auth.Roles := ["user"%string];
                    auth.Permissions :=
                      local.getRolePermissions (string * string) pair_NewPermission
                        sample_RoleAdmin sample_RoleUser "user";
                    auth.ExpiresAt :=
                      access_expiry (local.jwtManager sample_adapter) (env_at 0);
                    auth.Raw :=
                      [("user_id"%string, auth.RawInt32 1);
                       ("token_id"%string, auth.RawString (uuid_New (env_at 0) 0));
                       ("issued_at"%string,
                        auth.RawTime (local.jwt_NewNumericDate (now (env_at 0))))]
                 |}))
       /\ exists err,
            local.VerifyToken plain_decode (string * string) pair_NewPermission
              sample_RoleAdmin sample_RoleUser sample_adapter env'
              (local.RefreshToken sample_pair)
            = Returns (inr err).
Proof.
  split; [exact (stand_in_facts.plain_decode_SignedString "k") |].
  split; [discriminate |]. split; [reflexivity |].
  apply (VerifyToken_generated plain_SignedString plain_decode (string * string)
           pair_NewPermission sample_RoleAdmin sample_RoleUser sample_adapter
           (stand_in_facts.plain_decode_SignedString "k")
           (env_at 0) 1 "a@x.com" false "user" sample_pair).
  - discriminate.
  - reflexivity.
Defined.

(** X10.  The permissions of a role: whatever [RoleUser] may do,
    [RoleAdmin] may do; a role other than [RoleAdmin] gets at most reading
    and writing of files and documents; a role that is neither of the two
    gets nothing. *)
Theorem getRolePermissions_by_role
    (auth_Permission : Type) (auth_NewPermission : string -> string -> auth_Permission)
    (auth_RoleAdmin auth_RoleUser role : string) :
  incl (local.getRolePermissions auth_Permission auth_NewPermission auth_RoleAdmin
          auth_RoleUser auth_RoleUser)
       (local.getRolePermissions auth_Permission auth_NewPermission auth_RoleAdmin
          auth_RoleUser auth_RoleAdmin)
  /\ (role <> auth_RoleAdmin ->
      incl (local.getRolePermissions auth_Permission auth_NewPermission auth_RoleAdmin
              auth_RoleUser role)
           [auth_NewPermission "files" "read"; auth_NewPermission "files" "write";
            auth_NewPermission "documents" "read";
            auth_NewPermission "documents" "write"])
  /\ (role <> auth_RoleAdmin -> role <> auth_RoleUser ->
      local.getRolePermissions auth_Permission auth_NewPermission auth_RoleAdmin
        auth_RoleUser role = []).
Proof.
  unfold local.getRolePermissions. rewrite !String.eqb_refl.
  split; [| split].
  - destruct (String.eqb auth_RoleUser auth_RoleAdmin); [apply incl_refl |].
    intros p Hp. cbn [In] in *. intuition.
  - intros Hadmin. apply String.eqb_neq in Hadmin. rewrite Hadmin.
    destruct (String.eqb role auth_RoleUser); [apply incl_refl | intros p []].
  - intros Hadmin Huser. apply String.eqb_neq in Hadmin, Huser.
    now rewrite Hadmin, Huser.
Qed.

(** ** Registration *)

Module register_facts.

(** What [INSERT INTO users.users] answers: an error and nothing changed,
    or the new row at the end of the table. *)
Lemma CreateUser_cases (env : Env) (ins : InsertUser) (email passwordHash : string)
    (fullName : option string) (status : domain.UserStatus) (role : domain.UserRole)
    (w : World) :
  (exists err,
     sqlc.CreateUser env ins email passwordHash fullName status role w
     = (Returns (inr err), w))
  \/ (exists row,
        sqlc.CreateUser env ins email passwordHash fullName status role w
        = (Returns (inl row), sqlc.set_users (users w ++ [row])%list w)
        /\ insert_fault ins = None
        /\ domain.ID row = users_id_nextval ins
        /\ character_varying ins 255 email = inl (domain.Email row)
        /\ character_varying ins 255 passwordHash = inl (domain.PasswordHash row)
        /\ domain.EmailVerified row = false
        /\ domain.Status row = status
        /\ domain.Role row = role
        /\ domain.FailedLoginAttempts row = 0
        /\ domain.LockedUntil row = None
        /\ domain.CreatedAt row = now env
        /\ forall u, In u (users w) ->
                     domain.ID u <> domain.ID row /\ domain.Email u <> domain.Email row).
Proof.
  unfold sqlc.CreateUser.
  destruct (insert_fault ins); [left; eauto |].
  destruct (character_varying ins 255 email) as [storedEmail | err]; [| left; eauto].
  destruct (character_varying ins 255 passwordHash) as [storedHash | err];
    [| left; eauto].
  destruct fullName as [name |];
    [destruct (character_varying ins 255 name) as [stored | err]; [| left; eauto] |].
  all: destruct (existsb (fun u => domain.ID u =? users_id_nextval ins) (users w))
         eqn:Hid; [left; eauto |].
  all: destruct (existsb (fun u => String.eqb (domain.Email u) storedEmail) (users w))
         eqn:Hemail; [left; eauto |].
  all: right; eexists; split; [reflexivity |]; cbn;
    repeat (split; [reflexivity |]); intros u Hu; split; intros Heq.
  all: try (assert (existsb (fun u => domain.ID u =? users_id_nextval ins) (users w)
                    = true)
              by (apply existsb_exists; exists u; split; [exact Hu | now apply Z.eqb_eq]);
            congruence).
  all: assert (existsb (fun u => String.eqb (domain.Email u) storedEmail) (users w)
               = true)
         by (apply existsb_exists; exists u; split; [exact Hu | now apply String.eqb_eq]);
       congruence.
Qed.

Section Register.

Variable argon2id : string -> string -> Z -> Z -> Z -> Z -> string.
Variable utf8_runes : string -> list Z.
Variables unicode_IsUpper unicode_IsLower unicode_IsDigit
          unicode_IsPunct unicode_IsSymbol : Z -> bool.

Let Register :=
  local.Register argon2id utf8_runes unicode_IsUpper unicode_IsLower unicode_IsDigit
    unicode_IsPunct unicode_IsSymbol.
Let ValidatePassword :=
  local.ValidatePassword utf8_runes unicode_IsUpper unicode_IsLower unicode_IsDigit
    unicode_IsPunct unicode_IsSymbol.

(** The row and the world of a successful [Register]. *)
Lemma Register_user (a : local.Adapter) (env : Env) (ins : InsertUser)
    (email password fullName : string) (w w' : World) (user : domain.User) :
  Register a env ins email password fullName w = (Returns (inl user), w') ->
  users w' = (users w ++ [user])%list
  /\ refresh_tokens w' = refresh_tokens w
  /\ logs w' = (logs w ++ [info_entry "user registered" (domain.ID user)])%list
  /\ ValidatePassword (local.passwordHasher a) password = None
  /\ (exists passwordHash,
        local.Hash argon2id (local.passwordHasher a) env password
        = Returns (inl passwordHash)
        /\ character_varying ins 255 passwordHash = inl (domain.PasswordHash user))
  /\ character_varying ins 255 email = inl (domain.Email user)
  /\ domain.ID user = users_id_nextval ins
  /\ domain.Status user = domain.UserStatusPendingVerification
  /\ domain.Role user = domain.RoleUser
  /\ domain.EmailVerified user = false
  /\ domain.FailedLoginAttempts user = 0
  /\ domain.LockedUntil user = None
  /\ forall u, In u (users w) ->
               domain.ID u <> domain.ID user /\ domain.Email u <> domain.Email user.
Proof.
  unfold Register, local.Register, bind, lift, ret. fold ValidatePassword.
  destruct (ValidatePassword (local.passwordHasher a) password); [discriminate |].
  destruct (local.Hash argon2id (local.passwordHasher a) env password)
    as [[passwordHash | e] | msg]; [| discriminate ..].
  unfold repositories.UserCreate.
  match goal with
  | |- context [sqlc.CreateUser ?e ?i ?m ?h ?n ?s ?r w] =>
      destruct (CreateUser_cases e i m h n s r w)
        as [[e' ->] | [row [-> Hrow]]]
  end; [discriminate |].
  cbn [domain.InputEmail domain.InputPasswordHash domain.InputRole] in Hrow.
  unfold log_Info. intros [= <- <-].
  cbn [users refresh_tokens logs sqlc.set_users].
  destruct Hrow as (_ & Hid & Hemail & Hhash & Hver & Hstatus & Hrole & Hfail & Hlock
                    & _ & Hfresh).
  do 12 (split; [first [reflexivity | assumption | eauto] |]).
  exact Hfresh.
Qed.

End Register.

End register_facts.

Section Register.

Variable argon2id : string -> string -> Z -> Z -> Z -> Z -> string.
Variable utf8_runes : string -> list Z.
Variables unicode_IsUpper unicode_IsLower unicode_IsDigit
          unicode_IsPunct unicode_IsSymbol : Z -> bool.

Let Register :=
  local.Register argon2id utf8_runes unicode_IsUpper unicode_IsLower unicode_IsDigit
    unicode_IsPunct unicode_IsSymbol.
Let ValidatePassword :=
  local.ValidatePassword utf8_runes unicode_IsUpper unicode_IsLower unicode_IsDigit
    unicode_IsPunct unicode_IsSymbol.


(** X12.  A [Register] call that returns a user has appended that user
    to the table and written one log entry, and nothing else.  The
    password met the policy; the row carries the email and the hash of the
    password as the server stored them, the id drawn from the sequence,
    status [pending_verification], role [user], an unverified email, no
    failed attempts and no lock; and no other row has its id or email. *)
Theorem Register_creates_pending_user (a : local.Adapter) (env : Env) (ins : InsertUser)
    (email password fullName : string) (w w' : World) (user : domain.User) :
  Register a env ins email password fullName w = (Returns (inl user), w') ->
  users w' = (users w ++ [user])%list
  /\ refresh_tokens w' = refresh_tokens w
  /\ logs w' = (logs w ++ [info_entry "user registered" (domain.ID user)])%list
  /\ ValidatePassword (local.passwordHasher a) password = None
  /\ (exists passwordHash,
        local.Hash argon2id (local.passwordHasher a) env password
        = Returns (inl passwordHash)
        /\ character_varying ins 255 passwordHash = inl (domain.PasswordHash user))
  /\ character_varying ins 255 email = inl (domain.Email user)
  /\ domain.ID user = users_id_nextval ins
  /\ domain.Status user = domain.UserStatusPendingVerification
  /\ domain.Role user = domain.RoleUser
  /\ domain.EmailVerified user = false
  /\ domain.FailedLoginAttempts user = 0
  /\ domain.LockedUntil user = None
  /\ forall u, In u (users w) ->
               domain.ID u <> domain.ID user /\ domain.Email u <> domain.Email user.
Proof.
  exact (register_facts.Register_user argon2id utf8_runes unicode_IsUpper unicode_IsLower
           unicode_IsDigit unicode_IsPunct unicode_IsSymbol a env ins email password
           fullName w w' user).
Qed.


End Register.


(** The world after Ann has registered at t = 0. *)
Lemma Register_creates_pending_user_witness :
  let w' :=
    {| users := [ann 0 None]; refresh_tokens := []; refresh_tokens_id_seq := 0;
       logs := [info_entry "user registered" 1] |} in
  local.Register pad_argon2id ascii_runes ascii_IsUpper ascii_IsLower ascii_IsDigit
    ascii_IsPunct ascii_IsSymbol sample_adapter (env_at 0) (insert_with_id 1)
    "a@x.com" "Passw0rd!" "Ann" (world_of [] [])
  = (Returns (inl (ann 0 None)), w')
  /\ users w' = (users (world_of [] []) ++ [ann 0 None])%list
  /\ refresh_tokens w' = refresh_tokens (world_of [] [])
  /\ logs w'
     = (logs (world_of [] []) ++ [info_entry "user registered" (domain.ID (ann 0 None))])%list
  /\ ascii_ValidatePassword (local.passwordHasher sample_adapter) "Passw0rd!" = None
  /\ (exists passwordHash,
        local.Hash pad_argon2id (local.passwordHasher sample_adapter) (env_at 0)
          "Passw0rd!" = Returns (inl passwordHash)
        /\ character_varying (insert_with_id 1) 255 passwordHash
           = inl (domain.PasswordHash (ann 0 None)))
  /\ character_varying (insert_with_id 1) 255 "a@x.com" = inl (domain.Email (ann 0 None))
  /\ domain.ID (ann 0 None) = users_id_nextval (insert_with_id 1)
  /\ domain.Status (ann 0 None) = domain.UserStatusPendingVerification
  /\ domain.Role (ann 0 None) = domain.RoleUser
  /\ domain.EmailVerified (ann 0 None) = false
  /\ domain.FailedLoginAttempts (ann 0 None) = 0
  /\ domain.LockedUntil (ann 0 None) = None
  /\ forall u, In u (users (world_of [] [])) ->
               domain.ID u <> domain.ID (ann 0 None)
               /\ domain.Email u <> domain.Email (ann 0 None).
Proof.
  cbv zeta. split; [vm_compute; reflexivity |].
  apply (Register_creates_pending_user pad_argon2id ascii_runes ascii_IsUpper
           ascii_IsLower ascii_IsDigit ascii_IsPunct ascii_IsSymbol sample_adapter
           (env_at 0) (insert_with_id 1) "a@x.com" "Passw0rd!" "Ann" (world_of [] [])).
  vm_compute. reflexivity.
Defined.


(** ** Logging in *)

Module session_facts.

Lemma find_append {A : Type} (f : A -> bool) (l1 l2 : list A) :
  find f (l1 ++ l2) = match find f l1 with
                      | Some x => Some x
                      | None => find f l2
                      end.
Proof.
  induction l1 as [| x l1 IH]; cbn [app find]; [reflexivity |].
  destruct (f x); [reflexivity | exact IH].
Qed.

Section Sessions.

Variable argon2id : string -> string -> Z -> Z -> Z -> Z -> string.
Variable SignedString : string -> local.Claims -> string + error.
Variable sha256_Sum256 : string -> string.

Let Login := local.Login argon2id SignedString sha256_Sum256.

(** Once the account is found, open and the password verified, [Login]
    returns the pair it generates and the row as it was read, whatever
    the store answers to the writes that follow. *)
Lemma Login_match (a : local.Adapter) (env : Env)
    (email password ip ua : string) (w : World) (user : domain.User)
    (tokenPair : local.TokenPair) :
  down env OpGetUserByEmail = false ->
  user_by_email email w = Some user ->
  domain.IsLocked (now env) user = false ->
  loginable user ->
  local.Verify argon2id (local.passwordHasher a) password (domain.PasswordHash user)
  = Returns (true, None) ->
  local.GenerateTokenPair SignedString (local.jwtManager a) env (domain.ID user)
    (domain.Email user) (domain.EmailVerified user)
    (domain.UserRole_string (domain.Role user)) = inl tokenPair ->
  exists w', Login a env email password ip ua w = (Returns (inl (tokenPair, user)), w').
Proof.
  intros Hup Huser Hunlocked Hstatus Hverify Hgen.
  unfold Login, local.Login, bind.
  rewrite (login_facts.Login_found a env email password ip ua w user Hup Huser).
  rewrite Hunlocked, (login_facts.loginable_passes user Hstatus).
  unfold lift. rewrite Hverify. cbn [local.is_err orb negb].
  rewrite Hgen.
  unfold repositories.ResetFailedLoginAttempts, sqlc.ResetFailedLoginAttempts,
    repositories.Create, sqlc.CreateRefreshToken,
    repositories.UpdateLastLogin, sqlc.UpdateUserLastLogin,
    log_if_err, log_Error, log_Info, ret.
  repeat match goal with
         | |- context [if ?c then _ else _] => destruct c
         end; eexists; reflexivity.
Qed.

End Sessions.

End session_facts.

Section RegisterLogin.

Variable argon2id : string -> string -> Z -> Z -> Z -> Z -> string.
Variable utf8_runes : string -> list Z.
Variables unicode_IsUpper unicode_IsLower unicode_IsDigit
          unicode_IsPunct unicode_IsSymbol : Z -> bool.
Variable SignedString : string -> local.Claims -> string + error.
Variable sha256_Sum256 : string -> string.

Hypothesis argon2id_length : argon2_key_length argon2id.

(** X14.  Registration is enough to log in: when [Register] has returned
    a user, the server having stored the email and the hash as they were
    given, a later [Login] with the same email and password finds the
    account, passes the status check as [pending_verification], verifies
    the password and returns the generated pair with that user, whatever
    the store answers to the writes of the login; it needs the lookup by
    email to be answered and the two tokens to be signed. *)
Theorem Register_then_Login (config : local.Config) (env : Env) (ins : InsertUser)
    (email password fullName : string) (w w1 : World) (user : domain.User) :
  character_varying ins 255 email = inl email ->
  (forall passwordHash,
     local.Hash argon2id (local.NewPasswordHasher config) env password
     = Returns (inl passwordHash) ->
     character_varying ins 255 passwordHash = inl passwordHash) ->
  local.Register argon2id utf8_runes unicode_IsUpper unicode_IsLower unicode_IsDigit
    unicode_IsPunct unicode_IsSymbol (local.NewAdapter config) env ins
    email password fullName w = (Returns (inl user), w1) ->
  forall env' ip ua tokenPair,
    down env' OpGetUserByEmail = false ->
    local.GenerateTokenPair SignedString (local.NewJWTManager config) env'
      (domain.ID user) email false "user" = inl tokenPair ->
    exists w2,
      local.Login argon2id SignedString sha256_Sum256 (local.NewAdapter config) env'
        email password ip ua w1
      = (Returns (inl (tokenPair, user)), w2).
Proof.
  intros Hemail Hstored Hreg env' ip ua tokenPair Hup Hgen.
  apply register_facts.Register_user in Hreg
    as (Husers & _ & _ & _ & (passwordHash & Hhash & HstoredHash) & HstoredEmail & _
        & Hstatus & Hrole & Hverified & _ & Hlock & Hfresh).
  rewrite Hemail in HstoredEmail. injection HstoredEmail as HstoredEmail.
  rewrite (Hstored passwordHash Hhash) in HstoredHash.
  injection HstoredHash as HstoredHash.
  apply session_facts.Login_match.
  - exact Hup.
  - unfold user_by_email. rewrite Husers, session_facts.find_append.
    destruct (find _ (users w)) as [u |] eqn:Hfind.
    + apply find_some in Hfind as [Hu Heq]. apply String.eqb_eq in Heq.
      destruct (Hfresh u Hu) as [_ Hne]. congruence.
    + cbn [find]. now rewrite <- HstoredEmail, String.eqb_refl.
  - unfold domain.IsLocked. now rewrite Hlock.
  - right. exact Hstatus.
  - rewrite <- HstoredHash. cbn [local.NewAdapter local.passwordHasher] in *.
    unfold local.Hash in Hhash. cbn [local.NewPasswordHasher local.saltLength] in Hhash.
    destruct (rand_Read env 16) as [salt |] eqn:Hsalt; [| discriminate Hhash].
    cbn in Hhash. injection Hhash as <-.
    change (local.Verify argon2id (local.NewPasswordHasher config) password
              (local.encode local.argon2_Version (64 * 1024) 3 2
                 (base64.EncodeToString salt)
                 (base64.EncodeToString (argon2id password salt 3 65536 2 32)))
            = Returns (true, None)).
    rewrite password_facts.Verify_encoded by (now rewrite argon2id_length).
    now rewrite subtle_facts.ConstantTimeCompare_refl.
  - rewrite <- HstoredEmail, Hverified, Hrole. exact Hgen.
Qed.

End RegisterLogin.

Lemma Register_then_Login_witness :
  character_varying (insert_with_id 1) 255 "a@x.com" = inl "a@x.com"%string
  /\ (forall passwordHash,
        local.Hash pad_argon2id (local.NewPasswordHasher sample_config) (env_at 0)
          "Passw0rd!" = Returns (inl passwordHash) ->
        character_varying (insert_with_id 1) 255 passwordHash = inl passwordHash)
  /\ exists w1,
       local.Register pad_argon2id ascii_runes ascii_IsUpper ascii_IsLower ascii_IsDigit
         ascii_IsPunct ascii_IsSymbol (local.NewAdapter sample_config) (env_at 0)
         (insert_with_id 1) "a@x.com" "Passw0rd!" "Ann" (world_of [] [])
       = (Returns (inl (ann 0 None)), w1)
       /\ forall env' ip ua tokenPair,
            down env' OpGetUserByEmail = false ->
            local.GenerateTokenPair plain_SignedString (local.NewJWTManager sample_config)
              env' (domain.ID (ann 0 None)) "a@x.com" false "user" = inl tokenPair ->
            exists w2,
              local.Login pad_argon2id plain_SignedString poly_Sum256
                (local.NewAdapter sample_config) env' "a@x.com" "Passw0rd!" ip ua w1
              = (Returns (inl (tokenPair, ann 0 None)), w2).
Proof.
  assert (Hstored : forall passwordHash,
            local.Hash pad_argon2id (local.NewPasswordHasher sample_config) (env_at 0)
              "Passw0rd!" = Returns (inl passwordHash) ->
            character_varying (insert_with_id 1) 255 passwordHash = inl passwordHash)
    by (intros passwordHash [= <-]; reflexivity).
  split; [reflexivity |]. split; [exact Hstored |].
  eexists. split; [vm_compute; reflexivity |].
  apply (Register_then_Login pad_argon2id ascii_runes ascii_IsUpper ascii_IsLower
           ascii_IsDigit ascii_IsPunct ascii_IsSymbol plain_SignedString poly_Sum256
           stand_in_facts.pad_argon2id_length sample_config (env_at 0)
           (insert_with_id 1) "a@x.com" "Passw0rd!" "Ann" (world_of [] [])).
  - reflexivity.
  - exact Hstored.
  - vm_compute. reflexivity.
Defined.

Module login_effects.

Section Effects.

Variable argon2id : string -> string -> Z -> Z -> Z -> Z -> string.
Variable SignedString : string -> local.Claims -> string + error.
Variable sha256_Sum256 : string -> string.

Let Login := local.Login argon2id SignedString sha256_Sum256.
Let HashToken := local.HashToken sha256_Sum256.



Lemma hash_absent (ts : list domain.RefreshToken) (tokenHash : string) :
  (forall t, In t ts -> domain.TokenHash t <> tokenHash) ->
  existsb (fun t => String.eqb (domain.TokenHash t) tokenHash) ts = false.
Proof.
  intros Hfresh. destruct (existsb _ ts) eqn:E; [| reflexivity].
  apply existsb_exists in E as [t [Ht E]]. apply String.eqb_eq in E.
  now elim (Hfresh t Ht).
Qed.


End Effects.

End login_effects.

Section LoginOutcomes.

Variable argon2id : string -> string -> Z -> Z -> Z -> Z -> string.
Variable SignedString : string -> local.Claims -> string + error.
Variable sha256_Sum256 : string -> string.

Let Login := local.Login argon2id SignedString sha256_Sum256.
Let HashToken := local.HashToken sha256_Sum256.

(** X15.  An account that is suspended or deleted, and not locked, is
    answered [ErrAccountInactive] whatever the password, the right one
    included: the password is not looked at, the counter of failed
    attempts does not move, and nothing is written or logged. *)
Theorem Login_inactive_account (a : local.Adapter) (env : Env)
    (email password ip ua : string) (w : World) (user : domain.User) :
  down env OpGetUserByEmail = false ->
  user_by_email email w = Some user ->
  domain.IsLocked (now env) user = false ->
  domain.Status user = domain.UserStatusSuspended
  \/ domain.Status user = domain.UserStatusDeleted ->
  Login a env email password ip ua w = (Returns (inr domain.ErrAccountInactive), w).
Proof.
  intros Hup Huser Hunlocked Hstatus.
  unfold Login, local.Login, bind.
  rewrite (login_facts.Login_found a env email password ip ua w user Hup Huser).
  rewrite Hunlocked. destruct Hstatus as [-> | ->]; reflexivity.
Qed.


(** X17.  Once a lock has run out the counter still stands where it was:
    on an account whose counter is at or above the threshold less one, a
    single further failed attempt writes a new lock of [LockoutDuration]
    from its own instant. *)
Theorem Login_relocks_at_threshold (a : local.Adapter) (env : Env)
    (email password ip ua : string) (w : World) (user : domain.User)
    (v : bool * option error) :
  down env OpGetUserByEmail = false ->
  down env OpIncrementFailedLoginAttempts = false ->
  down env OpLockUserAccount = false ->
  users_pkey w ->
  user_by_email email w = Some user ->
  domain.IsLocked (now env) user = false ->
  loginable user ->
  local.Verify argon2id (local.passwordHasher a) password (domain.PasswordHash user)
  = Returns v ->
  mismatch v ->
  0 <= domain.FailedLoginAttempts user < 2 ^ 31 - 1 ->
  - 2 ^ 31 <= local.MaxFailedAttempts (local.config a)
  <= domain.FailedLoginAttempts user + 1 ->
  exists w' user',
    Login a env email password ip ua w = (Returns (inr domain.ErrInvalidCredentials), w')
    /\ user_by_email email w' = Some user'
    /\ domain.FailedLoginAttempts user' = domain.FailedLoginAttempts user + 1
    /\ domain.LockedUntil user'
       = Some (now env + local.LockoutDuration (local.config a))
    /\ forall env' password' ip' ua',
         down env' OpGetUserByEmail = false ->
         now env' < now env + local.LockoutDuration (local.config a) ->
         Login a env' email password' ip' ua' w'
         = (Returns (inr domain.ErrAccountLocked), w').
Proof.
  intros Hup Hinc Hlock Hpk Huser Hunlocked Hstatus Hverify Hmis Hcount Hmax.
  destruct (lockout_facts.after_mismatch_account a env email w user Hpk Huser)
    as (_ & _ & user' & Huser' & _ & _ & Hcount' & Hlocked').
  replace (local.MaxFailedAttempts (local.config a)
           <=? domain.FailedLoginAttempts user + 1) with true in Hlocked'
    by (symmetry; apply Z.leb_le; lia).
  eexists. exists user'. split.
  { apply (login_facts.Login_mismatch argon2id SignedString sha256_Sum256 a env email
             password ip ua w user v); try assumption; lia. }
  split; [exact Huser' |]. split; [exact Hcount' |]. split; [exact Hlocked' |].
  intros env' password' ip' ua' Hup' Hnow.
  apply (login_facts.Login_locked argon2id SignedString sha256_Sum256 a env' email
           password' ip' ua' _ user' Hup' Huser').
  unfold domain.IsLocked. rewrite Hlocked'. now apply Z.ltb_lt.
Qed.

End LoginOutcomes.

Lemma Login_inactive_account_witness :
  down (env_at minute) OpGetUserByEmail = false
  /\ user_by_email "a@x.com" (world_of [with_status domain.UserStatusSuspended (ann 0 None)] [])
     = Some (with_status domain.UserStatusSuspended (ann 0 None))
  /\ domain.IsLocked (now (env_at minute))
       (with_status domain.UserStatusSuspended (ann 0 None)) = false
  /\ (domain.Status (with_status domain.UserStatusSuspended (ann 0 None))
      = domain.UserStatusSuspended
      \/ domain.Status (with_status domain.UserStatusSuspended (ann 0 None))
         = domain.UserStatusDeleted)
  /\ local.Login pad_argon2id plain_SignedString poly_Sum256 sample_adapter
       (env_at minute) "a@x.com" "Passw0rd!" "10.0.0.1" "curl"
       (world_of [with_status domain.UserStatusSuspended (ann 0 None)] [])
     = (Returns (inr domain.ErrAccountInactive),
        world_of [with_status domain.UserStatusSuspended (ann 0 None)] []).
Proof.
  split; [reflexivity |]. split; [reflexivity |]. split; [reflexivity |].
  split; [left; reflexivity |].
  apply (Login_inactive_account pad_argon2id plain_SignedString poly_Sum256
           sample_adapter (env_at minute) "a@x.com" "Passw0rd!" "10.0.0.1" "curl"
           (world_of [with_status domain.UserStatusSuspended (ann 0 None)] [])
           (with_status domain.UserStatusSuspended (ann 0 None)));
    [reflexivity | reflexivity | reflexivity | left; reflexivity].
Defined.


(** Ann's lock ran out at minute 10 with the counter at 5; a wrong guess
    at minute 20 locks the account until minute 35. *)
Lemma Login_relocks_at_threshold_witness :
  down (env_at (20 * minute)) OpGetUserByEmail = false
  /\ down (env_at (20 * minute)) OpIncrementFailedLoginAttempts = false
  /\ down (env_at (20 * minute)) OpLockUserAccount = false
  /\ users_pkey (world_of [ann 5 (Some (10 * minute))] [])
  /\ user_by_email "a@x.com" (world_of [ann 5 (Some (10 * minute))] [])
     = Some (ann 5 (Some (10 * minute)))
  /\ domain.IsLocked (now (env_at (20 * minute))) (ann 5 (Some (10 * minute))) = false
  /\ loginable (ann 5 (Some (10 * minute)))
  /\ local.Verify pad_argon2id (local.passwordHasher sample_adapter) "guess"
       (domain.PasswordHash (ann 5 (Some (10 * minute)))) = Returns (false, None)
  /\ mismatch (false, None)
  /\ 0 <= domain.FailedLoginAttempts (ann 5 (Some (10 * minute))) < 2 ^ 31 - 1
  /\ - 2 ^ 31 <= local.MaxFailedAttempts (local.config sample_adapter)
     <= domain.FailedLoginAttempts (ann 5 (Some (10 * minute))) + 1
  /\ exists w' user',
       local.Login pad_argon2id plain_SignedString poly_Sum256 sample_adapter
         (env_at (20 * minute)) "a@x.com" "guess" "10.0.0.1" "curl"
         (world_of [ann 5 (Some (10 * minute))] [])
       = (Returns (inr domain.ErrInvalidCredentials), w')
       /\ user_by_email "a@x.com" w' = Some user'
       /\ domain.FailedLoginAttempts user'
          = domain.FailedLoginAttempts (ann 5 (Some (10 * minute))) + 1
       /\ domain.LockedUntil user'
          = Some (now (env_at (20 * minute))
                  + local.LockoutDuration (local.config sample_adapter))
       /\ forall env' password' ip' ua',
            down env' OpGetUserByEmail = false ->
            now env' < now (env_at (20 * minute))
                       + local.LockoutDuration (local.config sample_adapter) ->
            local.Login pad_argon2id plain_SignedString poly_Sum256 sample_adapter env'
              "a@x.com" password' ip' ua' w'
            = (Returns (inr domain.ErrAccountLocked), w').
Proof.
  assert (Hpk : users_pkey (world_of [ann 5 (Some (10 * minute))] [])).
  { unfold users_pkey. cbn. repeat constructor. intros []. }
  assert (Hstatus : loginable (ann 5 (Some (10 * minute)))) by (right; reflexivity).
  assert (Hverify : local.Verify pad_argon2id (local.passwordHasher sample_adapter)
                      "guess" (domain.PasswordHash (ann 5 (Some (10 * minute))))
                    = Returns (false, None)) by (vm_compute; reflexivity).
  assert (Hcount : 0 <= domain.FailedLoginAttempts (ann 5 (Some (10 * minute)))
                   < 2 ^ 31 - 1) by (cbn; lia).
  assert (Hmax : - 2 ^ 31 <= local.MaxFailedAttempts (local.config sample_adapter)
                 <= domain.FailedLoginAttempts (ann 5 (Some (10 * minute))) + 1)
    by (cbn; lia).
  split; [reflexivity |]. split; [reflexivity |]. split; [reflexivity |].
  split; [exact Hpk |]. split; [reflexivity |]. split; [reflexivity |].
  split; [exact Hstatus |]. split; [exact Hverify |]. split; [reflexivity |].
  split; [exact Hcount |]. split; [exact Hmax |].
  exact (Login_relocks_at_threshold pad_argon2id plain_SignedString poly_Sum256
           sample_adapter (env_at (20 * minute)) "a@x.com" "guess" "10.0.0.1" "curl"
           (world_of [ann 5 (Some (10 * minute))] []) (ann 5 (Some (10 * minute)))
           (false, None) eq_refl eq_refl eq_refl Hpk eq_refl eq_refl Hstatus Hverify
           eq_refl Hcount Hmax).
Defined.

(** ** Refreshing *)

Module refresh_facts.

Section Refresh.

Variable SignedString : string -> local.Claims -> string + error.
Variable jwt_decode : string -> string -> option local.Claims.
Variable sha256_Sum256 : string -> string.

Let HashToken := local.HashToken sha256_Sum256.
Let RefreshTokens := local.RefreshTokens SignedString jwt_decode sha256_Sum256.



End Refresh.

End refresh_facts.

Section LoginRefresh.

Variable argon2id : string -> string -> Z -> Z -> Z -> Z -> string.
Variable SignedString : string -> local.Claims -> string + error.
Variable jwt_decode : string -> string -> option local.Claims.
Variable sha256_Sum256 : string -> string.
Variable config : local.Config.

Hypothesis key_pair :
  forall claims s,
    SignedString (local.PrivateKey config) claims = inl s ->
    jwt_decode (local.PublicKey config) s = Some claims.

Let a := local.NewAdapter config.
Let HashToken := local.HashToken sha256_Sum256.


End LoginRefresh.


Section Rotate.

Variable SignedString : string -> local.Claims -> string + error.
Variable jwt_decode : string -> string -> option local.Claims.
Variable sha256_Sum256 : string -> string.

Let HashToken := local.HashToken sha256_Sum256.
Let RefreshTokens := local.RefreshTokens SignedString jwt_decode sha256_Sum256.

(** X19.  A successful [RefreshTokens] with the store up revokes the rows
    that carry the hash of the presented token, stamping them with the
    instant, and appends one row for the new refresh token: for the user
    id of the presented token's claims, running for [RefreshTokenDuration]
    from the instant, with no device, address or user agent.  The new
    pair is generated from the claims of the presented token; the users
    table is neither read for them nor changed, and nothing is logged. *)
Theorem RefreshTokens_rotates (a : local.Adapter) (env : Env) (refreshToken : string)
    (w : World) (claims : local.Claims) (storedToken : domain.RefreshToken)
    (tokenPair : local.TokenPair) :
  (forall op, down env op = false) ->
  local.VerifyRefreshToken jwt_decode (local.jwtManager a) env refreshToken = inl claims ->
  repositories.GetByHash env (HashToken refreshToken) w = (Returns (inl storedToken), w) ->
  domain.Revoked storedToken = false ->
  local.GenerateTokenPair SignedString (local.jwtManager a) env (local.UserID claims)
    (local.Email claims) (local.EmailVerified claims) (local.Role claims)
  = inl tokenPair ->
  (forall t, In t (refresh_tokens w) ->
             domain.TokenHash t <> HashToken (local.RefreshToken tokenPair)) ->
  (exists u, In u (users w) /\ domain.ID u = local.UserID claims) ->
  RefreshTokens a env refreshToken w
  = (Returns (inl tokenPair),
     {| users := users w;
        refresh_tokens :=
          (revoke_hash env (HashToken refreshToken) (refresh_tokens w)
             ++ [rotated_session a env (refresh_tokens_id_seq w + 1)
                   (local.UserID claims) (HashToken (local.RefreshToken tokenPair))])%list;
        refresh_tokens_id_seq := refresh_tokens_id_seq w + 1;
        logs := logs w |}).
Proof.
  intros Hup Hverify Hget Hrev Hgen Hfresh [u [Hu Hid]].
  unfold RefreshTokens, local.RefreshTokens. rewrite Hverify.
  unfold bind at 1. fold HashToken. rewrite Hget, Hrev.
  unfold bind, repositories.Revoke, sqlc.RevokeRefreshToken,
    repositories.Create, sqlc.CreateRefreshToken.
  rewrite !Hup, Hgen.
  cbn [log_if_err ret sqlc.set_refresh_tokens users refresh_tokens
       refresh_tokens_id_seq logs].
  fold (revoke_hash env (HashToken refreshToken) (refresh_tokens w)).
  assert (Hnew : existsb
                   (fun t => String.eqb (domain.TokenHash t)
                               (HashToken (local.RefreshToken tokenPair)))
                   (revoke_hash env (HashToken refreshToken) (refresh_tokens w))
                 = false).
  { apply login_effects.hash_absent. intros t Ht. unfold revoke_hash in Ht.
    apply in_map_iff in Ht as [t0 [<- Ht0]].
    specialize (Hfresh t0 Ht0).
    destruct (String.eqb (domain.TokenHash t0) (HashToken refreshToken));
      [cbn [sqlc.revoke domain.TokenHash] |]; exact Hfresh. }
  fold HashToken. rewrite Hnew.
  assert (Hfk : existsb (fun u0 => domain.ID u0 =? local.UserID claims) (users w) = true).
  { apply existsb_exists. exists u. split; [exact Hu | now apply Z.eqb_eq]. }
  rewrite Hfk. reflexivity.
Qed.

End Rotate.

(** Ann exchanges the refresh token of [sample_pair] at minute 1. *)
Lemma RefreshTokens_rotates_witness :
  exists claims storedToken tokenPair,
    (forall op, down (env_at minute) op = false)
    /\ local.VerifyRefreshToken plain_decode (local.jwtManager sample_adapter)
         (env_at minute) (local.RefreshToken sample_pair) = inl claims
    /\ repositories.GetByHash (env_at minute)
         (local.HashToken poly_Sum256 (local.RefreshToken sample_pair))
         (two_sessions false)
       = (Returns (inl storedToken), two_sessions false)
    /\ domain.Revoked storedToken = false
    /\ local.GenerateTokenPair plain_SignedString (local.jwtManager sample_adapter)
         (env_at minute) (local.UserID claims) (local.Email claims)
         (local.EmailVerified claims) (local.Role claims) = inl tokenPair
    /\ (forall t, In t (refresh_tokens (two_sessions false)) ->
                  domain.TokenHash t
                  <> local.HashToken poly_Sum256 (local.RefreshToken tokenPair))
    /\ (exists u, In u (users (two_sessions false))
                  /\ domain.ID u = local.UserID claims)
    /\ local.RefreshTokens plain_SignedString plain_decode poly_Sum256 sample_adapter
         (env_at minute) (local.RefreshToken sample_pair) (two_sessions false)
       = (Returns (inl tokenPair),
          {| users := users (two_sessions false);
             refresh_tokens :=
               (revoke_hash (env_at minute)
                  (local.HashToken poly_Sum256 (local.RefreshToken sample_pair))
                  (refresh_tokens (two_sessions false))
                  ++ [rotated_session sample_adapter (env_at minute)
                        (refresh_tokens_id_seq (two_sessions false) + 1)
                        (local.UserID claims)
                        (local.HashToken poly_Sum256 (local.RefreshToken tokenPair))])%list;
             refresh_tokens_id_seq := refresh_tokens_id_seq (two_sessions false) + 1;
             logs := logs (two_sessions false) |}).
Proof.
  eexists. eexists. eexists.
  assert (Hup : forall op, down (env_at minute) op = false) by reflexivity.
  split; [exact Hup |].
  split; [vm_compute; reflexivity |].
  split; [vm_compute; reflexivity |].
  split; [reflexivity |].
  split; [vm_compute; reflexivity |].
  match goal with
  | |- (forall t, In t ?ts -> _ <> ?h) /\ _ =>
      assert (Hfresh : forall t, In t ts -> domain.TokenHash t <> h)
        by (intros t [<- | [<- | []]]; intros H; vm_compute in H; discriminate H)
  end.
  split; [exact Hfresh |].
  assert (Hfk : exists u, In u (users (two_sessions false)) /\ domain.ID u = 1)
    by (exists (ann 0 None); split; [left; reflexivity | reflexivity]).
  split; [exact Hfk |].
  eapply (RefreshTokens_rotates plain_SignedString plain_decode poly_Sum256
           sample_adapter (env_at minute) (local.RefreshToken sample_pair)
           (two_sessions false) _ _ _ Hup).
  - vm_compute. reflexivity.
  - vm_compute. reflexivity.
  - reflexivity.
  - vm_compute. reflexivity.
  - exact Hfresh.
  - exact Hfk.
Defined.

(** ** The constraints of the schema *)

Module schema_facts.

Lemma emails_update (env : Env) (id : Z) (set : domain.User -> domain.User)
    (us : list domain.User) :
  (forall u, domain.Email (set u) = domain.Email u) ->
  map domain.Email (sqlc.update_users_where_id env id set us) = map domain.Email us.
Proof.
  intros Hset. unfold sqlc.update_users_where_id. rewrite map_map.
  apply map_ext. intros u. destruct (domain.ID u =? id); [cbn; apply Hset | reflexivity].
Qed.

(** The ids present in a table are what the foreign key looks at. *)
Lemma fkey_ids (us us' : list domain.User) (ts : list domain.RefreshToken) :
  (forall id, In id (map domain.ID us) -> In id (map domain.ID us')) ->
  (forall t, In t ts -> exists u, In u us /\ domain.ID u = domain.UserID t) ->
  forall t, In t ts -> exists u, In u us' /\ domain.ID u = domain.UserID t.
Proof.
  intros Hids Hfk t Ht. destruct (Hfk t Ht) as [u [Hu Hid]].
  assert (Hin : In (domain.UserID t) (map domain.ID us'))
    by (apply Hids; rewrite <- Hid; now apply in_map).
  apply in_map_iff in Hin as [u' [Hid' Hu']]. eauto.
Qed.

(** A write to [users] that keeps ids and emails keeps the schema. *)
Lemma schema_update_users (env : Env) (id : Z) (set : domain.User -> domain.User)
    (w : World) :
  (forall u, domain.ID (set u) = domain.ID u) ->
  (forall u, domain.Email (set u) = domain.Email u) ->
  schema w ->
  schema (sqlc.set_users (sqlc.update_users_where_id env id set (users w)) w).
Proof.
  intros Hid Hemail (Hpk & Hmail & Hkey & Hfk & Htpk).
  unfold schema, users_pkey, users_email_key, token_hash_key,
    refresh_tokens_user_id_fkey, refresh_tokens_pkey in *.
  cbn [sqlc.set_users users refresh_tokens refresh_tokens_id_seq].
  rewrite store_facts.ids_update, emails_update by assumption.
  repeat split; try assumption; try tauto.
  apply (fkey_ids (users w)); [| exact Hfk].
  intros i Hi. now rewrite store_facts.ids_update.
Qed.

(** A write to [refresh_tokens] that keeps ids, hashes and users keeps
    the schema. *)
Lemma schema_update_tokens (f : domain.RefreshToken -> domain.RefreshToken)
    (w : World) :
  (forall t, domain.TokenHash (f t) = domain.TokenHash t) ->
  (forall t, domain.TokenID (f t) = domain.TokenID t) ->
  (forall t, domain.UserID (f t) = domain.UserID t) ->
  schema w ->
  schema (sqlc.set_refresh_tokens (map f (refresh_tokens w)) w).
Proof.
  intros Hhash Hid Huid (Hpk & Hmail & Hkey & Hfk & Hnd & Hseq).
  unfold schema, users_pkey, users_email_key, token_hash_key,
    refresh_tokens_user_id_fkey, refresh_tokens_pkey in *.
  cbn [sqlc.set_refresh_tokens users refresh_tokens refresh_tokens_id_seq].
  rewrite !map_map.
  rewrite (map_ext _ domain.TokenHash Hhash), (map_ext _ domain.TokenID Hid).
  repeat split; try assumption.
  - intros t Ht. apply in_map_iff in Ht as [t0 [<- Ht0]]. rewrite Huid. now apply Hfk.
  - intros t Ht. apply in_map_iff in Ht as [t0 [<- Ht0]]. rewrite Hid. now apply Hseq.
Qed.

(** Rows taken out of [refresh_tokens] leave the schema as it is. *)
Lemma schema_filter_tokens (keep : domain.RefreshToken -> bool) (w : World) :
  schema w ->
  schema (sqlc.set_refresh_tokens (filter keep (refresh_tokens w)) w).
Proof.
  intros (Hpk & Hmail & Hkey & Hfk & Hnd & Hseq).
  unfold schema, users_pkey, users_email_key, token_hash_key,
    refresh_tokens_user_id_fkey, refresh_tokens_pkey in *.
  cbn [sqlc.set_refresh_tokens users refresh_tokens refresh_tokens_id_seq].
  assert (Hsub : forall {K : Type} (key : domain.RefreshToken -> K) l,
            NoDup (map key l) -> NoDup (map key (filter keep l))).
  { intros K key l. induction l as [| t l IH]; cbn [filter map]; [auto |].
    intros Hl. inversion Hl as [| ? ? Hnot Hl']; subst.
    destruct (keep t); [| now apply IH].
    cbn [map]. constructor; [| now apply IH].
    intros Hin. apply Hnot. apply in_map_iff in Hin as [t' [Heq Ht']].
    apply filter_In in Ht' as [Ht' _]. rewrite <- Heq. now apply in_map. }
  repeat split; try assumption; try (now apply Hsub).
  - intros t Ht. apply filter_In in Ht as [Ht _]. now apply Hfk.
  - intros t Ht. apply filter_In in Ht as [Ht _]. now apply Hseq.
Qed.

Lemma keeps_log_Error (msg : string) (err : error) (user_id : Z) :
  preserves schema (log_Error msg err user_id).
Proof. intros w H. exact H. Qed.

Lemma keeps_log_Info (msg : string) (user_id : Z) :
  preserves schema (log_Info msg user_id).
Proof. intros w H. exact H. Qed.

Lemma keeps_log_if_err (msg : string) (err : option error) (user_id : Z) :
  preserves schema (log_if_err msg err user_id).
Proof. destruct err; [apply keeps_log_Error | apply constraint_facts.preserves_ret]. Qed.

Section Store.

Variable env : Env.

Lemma keeps_UserGetByEmail (email : string) :
  preserves schema (repositories.UserGetByEmail env email).
Proof.
  intros w H. unfold repositories.UserGetByEmail, sqlc.GetUserByEmail, bind.
  destruct (down env OpGetUserByEmail); [exact H |].
  destruct (find _ (users w)); exact H.
Qed.

Lemma keeps_UserGetByID (id : Z) :
  preserves schema (repositories.UserGetByID env id).
Proof.
  intros w H. unfold repositories.UserGetByID, sqlc.GetUserByID, bind.
  destruct (down env OpGetUserByID); [exact H |].
  destruct (find _ (users w)); exact H.
Qed.

Lemma keeps_UpdatePassword (id : Z) (passwordHash : string) :
  preserves schema (repositories.UpdatePassword env id passwordHash).
Proof.
  intros w H. unfold repositories.UpdatePassword, sqlc.UpdateUserPassword.
  destruct (down env OpUpdateUserPassword); [exact H |].
  now apply schema_update_users.
Qed.

Lemma keeps_UpdateLastLogin (id : Z) (ip : string) :
  preserves schema (repositories.UpdateLastLogin env id ip).
Proof.
  intros w H. unfold repositories.UpdateLastLogin, sqlc.UpdateUserLastLogin.
  destruct (down env OpUpdateUserLastLogin); [exact H |].
  now apply schema_update_users.
Qed.

Lemma keeps_IncrementFailedLoginAttempts (id : Z) :
  preserves schema (repositories.IncrementFailedLoginAttempts env id).
Proof.
  intros w H.
  unfold repositories.IncrementFailedLoginAttempts, sqlc.IncrementFailedLoginAttempts.
  destruct (down env OpIncrementFailedLoginAttempts); [exact H |].
  destruct (existsb _ (users w)); [exact H |].
  now apply schema_update_users.
Qed.

Lemma keeps_ResetFailedLoginAttempts (id : Z) :
  preserves schema (repositories.ResetFailedLoginAttempts env id).
Proof.
  intros w H. unfold repositories.ResetFailedLoginAttempts, sqlc.ResetFailedLoginAttempts.
  destruct (down env OpResetFailedLoginAttempts); [exact H |].
  now apply schema_update_users.
Qed.

Lemma keeps_LockAccount (id : Z) (until : Z) :
  preserves schema (repositories.LockAccount env id until).
Proof.
  intros w H. unfold repositories.LockAccount, sqlc.LockUserAccount.
  destruct (down env OpLockUserAccount); [exact H |].
  now apply schema_update_users.
Qed.

Lemma keeps_UpdateEmailVerified (fault : option error) (id : Z) :
  preserves schema (repositories.UpdateEmailVerified env fault id).
Proof.
  intros w H. unfold repositories.UpdateEmailVerified, sqlc.UpdateUserEmailVerified.
  destruct fault; [exact H |].
  now apply schema_update_users.
Qed.

(** The sequence moves on whether or not the row is inserted. *)
Lemma keeps_Create (userID : Z) (tokenHash : string) (expiresAt : Z)
    (deviceInfo ipAddress userAgent : option string) :
  preserves schema
    (repositories.Create env userID tokenHash expiresAt deviceInfo ipAddress userAgent).
Proof.
  intros w (Hpk & Hmail & Hkey & Hfk & Hnd & Hseq).
  unfold repositories.Create, sqlc.CreateRefreshToken.
  destruct (down env OpCreateRefreshToken); [repeat split; assumption |].
  assert (Hdrawn : schema {| users := users w; refresh_tokens := refresh_tokens w;
                             refresh_tokens_id_seq := refresh_tokens_id_seq w + 1;
                             logs := logs w |}).
  { repeat split; try assumption.
    intros t Ht. cbn [refresh_tokens_id_seq]. specialize (Hseq t Ht). lia. }
  destruct (existsb _ (refresh_tokens w)) eqn:Hdup; [exact Hdrawn |].
  destruct (existsb _ (users w)) eqn:Huser; cbn [negb]; [| exact Hdrawn].
  cbn [snd]. unfold schema, users_pkey, users_email_key, token_hash_key,
    refresh_tokens_user_id_fkey, refresh_tokens_pkey in *.
  cbn [sqlc.set_refresh_tokens users refresh_tokens refresh_tokens_id_seq].
  rewrite !map_app. cbn [map domain.TokenHash domain.TokenID].
  split; [exact Hpk |]. split; [exact Hmail |]. split; [| split; [| split]].
  - apply NoDup_app; [exact Hkey | repeat constructor; intros [] |].
    intros h Hin [<- | []].
    apply in_map_iff in Hin as [t [Hh Hin]].
    assert (existsb (fun t0 => String.eqb (domain.TokenHash t0) tokenHash)
              (refresh_tokens w) = true) as Hex
      by (apply existsb_exists; exists t; split; [exact Hin | now apply String.eqb_eq]).
    congruence.
  - intros t Ht. apply in_app_or in Ht as [Ht | [<- | []]]; [now apply Hfk |].
    cbn [domain.UserID]. apply existsb_exists in Huser as [u [Hu Hid]].
    apply Z.eqb_eq in Hid. eauto.
  - apply NoDup_app; [exact Hnd | repeat constructor; intros [] |].
    intros i Hin [<- | []].
    apply in_map_iff in Hin as [t [Hi Hin]]. specialize (Hseq t Hin). lia.
  - intros t Ht. apply in_app_or in Ht as [Ht | [<- | []]].
    + specialize (Hseq t Ht). lia.
    + cbn [domain.TokenID]. lia.
Qed.

Lemma keeps_GetByHash (tokenHash : string) :
  preserves schema (repositories.GetByHash env tokenHash).
Proof.
  intros w H. unfold repositories.GetByHash, sqlc.GetRefreshTokenByHash, bind.
  destruct (down env OpGetRefreshTokenByHash); [exact H |].
  destruct (find _ (refresh_tokens w)); exact H.
Qed.

Lemma keeps_Revoke (tokenHash : string) :
  preserves schema (repositories.Revoke env tokenHash).
Proof.
  intros w H. unfold repositories.Revoke, sqlc.RevokeRefreshToken.
  destruct (down env OpRevokeRefreshToken); [exact H |].
  apply schema_update_tokens; [| | | exact H];
    intros t; destruct (String.eqb _ _); reflexivity.
Qed.

Lemma keeps_RevokeAllForUser (userID : Z) :
  preserves schema (repositories.RevokeAllForUser env userID).
Proof.
  intros w H. unfold repositories.RevokeAllForUser, sqlc.RevokeAllUserRefreshTokens.
  destruct (down env OpRevokeAllUserRefreshTokens); [exact H |].
  apply schema_update_tokens; [| | | exact H];
    intros t; destruct (_ && _); reflexivity.
Qed.

Lemma keeps_DeleteExpired (fault : option error) (sevenDaysAgo : Z) :
  preserves schema (repositories.DeleteExpired env fault sevenDaysAgo).
Proof.
  intros w H. unfold repositories.DeleteExpired, sqlc.DeleteExpiredRefreshTokens.
  destruct fault; [exact H |].
  now apply schema_filter_tokens.
Qed.

Lemma keeps_UserCreate (ins : InsertUser) (input : domain.CreateUserInput) :
  preserves schema (repositories.UserCreate env ins input).
Proof.
  intros w H. unfold repositories.UserCreate.
  match goal with
  | |- context [sqlc.CreateUser ?e ?i ?m ?h ?n ?s ?r w] =>
      destruct (register_facts.CreateUser_cases e i m h n s r w)
        as [[err ->] | [row [-> Hrow]]]
  end; [exact H |].
  destruct Hrow as (_ & _ & _ & _ & _ & _ & _ & _ & _ & _ & Hfresh).
  destruct H as (Hpk & Hmail & Hkey & Hfk & Htpk).
  cbn [snd]. unfold schema, users_pkey, users_email_key, token_hash_key,
    refresh_tokens_user_id_fkey, refresh_tokens_pkey in *.
  cbn [sqlc.set_users users refresh_tokens refresh_tokens_id_seq].
  rewrite !map_app. cbn [map].
  split; [| split; [| split; [exact Hkey | split; [| exact Htpk]]]].
  - apply NoDup_app; [exact Hpk | repeat constructor; intros [] |].
    intros i Hin [<- | []]. apply in_map_iff in Hin as [u [Hi Hu]].
    now destruct (Hfresh u Hu).
  - apply NoDup_app; [exact Hmail | repeat constructor; intros [] |].
    intros e Hin [<- | []]. apply in_map_iff in Hin as [u [He Hu]].
    now destruct (Hfresh u Hu).
  - intros t Ht. destruct (Hfk t Ht) as [u [Hu Hid]].
    exists u. split; [apply in_or_app; now left | exact Hid].
Qed.

End Store.

(** [DELETE FROM users.users] with its cascade. *)
Lemma keeps_Delete (fault : option error) (id : Z) :
  preserves schema (repositories.Delete fault id).
Proof.
  intros w H. unfold repositories.Delete, sqlc.DeleteUser.
  destruct fault; [exact H |].
  destruct H as (Hpk & Hmail & Hkey & Hfk & Hnd & Hseq).
  cbn [snd]. unfold schema, users_pkey, users_email_key, token_hash_key,
    refresh_tokens_user_id_fkey, refresh_tokens_pkey in *.
  cbn [users refresh_tokens refresh_tokens_id_seq].
  assert (Hsub : forall {A K : Type} (keep : A -> bool) (key : A -> K) l,
            NoDup (map key l) -> NoDup (map key (filter keep l))).
  { intros A K keep key l. induction l as [| t l IH]; cbn [filter map]; [auto |].
    intros Hl. inversion Hl as [| ? ? Hnot Hl']; subst.
    destruct (keep t); [| now apply IH].
    cbn [map]. constructor; [| now apply IH].
    intros Hin. apply Hnot. apply in_map_iff in Hin as [t' [Heq Ht']].
    apply filter_In in Ht' as [Ht' _]. rewrite <- Heq. now apply in_map. }
  repeat split; try (now apply Hsub).
  - intros t Ht. apply filter_In in Ht as [Ht Hkeep].
    destruct (Hfk t Ht) as [u [Hu Hid]]. exists u. split; [| exact Hid].
    apply filter_In. split; [exact Hu |]. now rewrite Hid.
  - intros t Ht. apply filter_In in Ht as [Ht _]. now apply Hseq.
Qed.

Create HintDb schema.

#[local] Hint Resolve constraint_facts.preserves_ret constraint_facts.preserves_lift
  keeps_log_Error keeps_log_Info keeps_log_if_err keeps_UserGetByEmail keeps_UserGetByID
  keeps_UpdatePassword keeps_UpdateLastLogin keeps_IncrementFailedLoginAttempts
  keeps_ResetFailedLoginAttempts keeps_LockAccount keeps_Create keeps_GetByHash
  keeps_Revoke keeps_RevokeAllForUser keeps_UserCreate : schema.

Ltac schema_step :=
  first
    [ solve [auto with schema]
    | apply constraint_facts.preserves_bind; [| intros ?]
    | match goal with
      | |- preserves _ (match ?x with _ => _ end) => destruct x
      end ].

Section Adapter.

Variable argon2id : string -> string -> Z -> Z -> Z -> Z -> string.
Variable utf8_runes : string -> list Z.
Variables unicode_IsUpper unicode_IsLower unicode_IsDigit
          unicode_IsPunct unicode_IsSymbol : Z -> bool.
Variable SignedString : string -> local.Claims -> string + error.
Variable jwt_decode : string -> string -> option local.Claims.
Variable sha256_Sum256 : string -> string.

Lemma keeps_Login (a : local.Adapter) (env : Env) (email password ip ua : string) :
  preserves schema
    (local.Login argon2id SignedString sha256_Sum256 a env email password ip ua).
Proof. unfold local.Login. repeat schema_step. Qed.

Lemma keeps_RefreshTokens (a : local.Adapter) (env : Env) (refreshToken : string) :
  preserves schema
    (local.RefreshTokens SignedString jwt_decode sha256_Sum256 a env refreshToken).
Proof. unfold local.RefreshTokens. repeat schema_step. Qed.

Lemma keeps_Logout (a : local.Adapter) (env : Env) (refreshToken : string) :
  preserves schema (local.Logout sha256_Sum256 a env refreshToken).
Proof. unfold local.Logout. repeat schema_step. Qed.

Lemma keeps_LogoutAll (a : local.Adapter) (env : Env) (userID : Z) :
  preserves schema (local.LogoutAll a env userID).
Proof. unfold local.LogoutAll. repeat schema_step. Qed.

Lemma keeps_ChangePassword (a : local.Adapter) (env : Env) (userID : Z)
    (currentPassword newPassword : string) :
  preserves schema
    (local.ChangePassword argon2id utf8_runes unicode_IsUpper unicode_IsLower
       unicode_IsDigit unicode_IsPunct unicode_IsSymbol a env userID
       currentPassword newPassword).
Proof. unfold local.ChangePassword. repeat schema_step. Qed.

Lemma keeps_Register (a : local.Adapter) (env : Env) (ins : InsertUser)
    (email password fullName : string) :
  preserves schema
    (local.Register argon2id utf8_runes unicode_IsUpper unicode_IsLower
       unicode_IsDigit unicode_IsPunct unicode_IsSymbol a env ins email password
       fullName).
Proof. unfold local.Register. repeat schema_step. Qed.

End Adapter.

End schema_facts.

Section Schema.

Variable argon2id : string -> string -> Z -> Z -> Z -> Z -> string.
Variable utf8_runes : string -> list Z.
Variables unicode_IsUpper unicode_IsLower unicode_IsDigit
          unicode_IsPunct unicode_IsSymbol : Z -> bool.
Variable SignedString : string -> local.Claims -> string + error.
Variable jwt_decode : string -> string -> option local.Claims.
Variable sha256_Sum256 : string -> string.

(** X20.  Every method of the adapter that writes to the store leads
    from tables that meet the constraints of the schema to tables that
    meet them, whatever its arguments, whatever the store answers and
    however it ends: the primary keys of [users] and [refresh_tokens]
    (with the sequence at or past every id of a session), the UNIQUE
    constraints on [users.email] and [refresh_tokens.token_hash], and the
    foreign key from a session to its user. *)
Theorem adapter_keeps_schema (a : local.Adapter) (env : Env) :
  (forall ins email password fullName,
     preserves schema
       (local.Register argon2id utf8_runes unicode_IsUpper unicode_IsLower
          unicode_IsDigit unicode_IsPunct unicode_IsSymbol a env ins email password
          fullName))
  /\ (forall email password ip ua,
        preserves schema
          (local.Login argon2id SignedString sha256_Sum256 a env email password ip ua))
  /\ (forall refreshToken,
        preserves schema
          (local.RefreshTokens SignedString jwt_decode sha256_Sum256 a env refreshToken))
  /\ (forall refreshToken,
        preserves schema (local.Logout sha256_Sum256 a env refreshToken))
  /\ (forall userID, preserves schema (local.LogoutAll a env userID))
  /\ (forall userID currentPassword newPassword,
        preserves schema
          (local.ChangePassword argon2id utf8_runes unicode_IsUpper unicode_IsLower
             unicode_IsDigit unicode_IsPunct unicode_IsSymbol a env userID
             currentPassword newPassword)).
Proof.
  split; [intros; apply schema_facts.keeps_Register |].
  split; [intros; apply schema_facts.keeps_Login |].
  split; [intros; apply schema_facts.keeps_RefreshTokens |].
  split; [intros; apply schema_facts.keeps_Logout |].
  split; [intros; apply schema_facts.keeps_LogoutAll |].
  intros; apply schema_facts.keeps_ChangePassword.
Qed.

End Schema.

(** X21.  The statements of the repositories that the adapter does not
    reach keep the constraints as well: marking an email as verified,
    deleting a user (the sessions of the user go with the row, so no
    session is left without its user) and deleting expired sessions. *)
Theorem housekeeping_keeps_schema (env : Env) (fault : option error) :
  (forall id, preserves schema (repositories.UpdateEmailVerified env fault id))
  /\ (forall id, preserves schema (repositories.Delete fault id))
  /\ (forall sevenDaysAgo,
        preserves schema (repositories.DeleteExpired env fault sevenDaysAgo)).
Proof.
  split; [intros; apply schema_facts.keeps_UpdateEmailVerified |].
  split; [intros; apply schema_facts.keeps_Delete |].
  intros; apply schema_facts.keeps_DeleteExpired.
Qed.

(** ** Changing the password *)

Module password_change_facts.

(** An update by id keeps the row selected by id in place. *)
Lemma find_id_update (env : Env) (id id' : Z) (set : domain.User -> domain.User)
    (us : list domain.User) :
  (forall u, domain.ID (set u) = domain.ID u) ->
  find (fun u => domain.ID u =? id') (sqlc.update_users_where_id env id set us)
  = option_map (fun u => if domain.ID u =? id then sqlc.touch env (set u) else u)
      (find (fun u => domain.ID u =? id') us).
Proof.
  intros Hset. unfold sqlc.update_users_where_id.
  induction us as [| u us IH]; cbn [map find option_map]; [reflexivity |].
  assert (E : domain.ID (if domain.ID u =? id then sqlc.touch env (set u) else u)
              = domain.ID u).
  { destruct (domain.ID u =? id); [cbn; apply Hset | reflexivity]. }
  rewrite E. destruct (domain.ID u =? id'); [reflexivity | exact IH].
Qed.

Lemma UserGetByID_found (env : Env) (id : Z) (w : World) (user : domain.User) :
  down env OpGetUserByID = false ->
  user_by_id id w = Some user ->
  repositories.UserGetByID env id w = (Returns (inl user), w).
Proof.
  unfold repositories.UserGetByID, sqlc.GetUserByID, bind, user_by_id.
  intros -> ->. reflexivity.
Qed.

Lemma revoke_user_revoked (env : Env) (userID : Z) (ts : list domain.RefreshToken)
    (t : domain.RefreshToken) :
  In t (revoke_user env userID ts) -> domain.UserID t = userID ->
  domain.Revoked t = true.
Proof.
  unfold revoke_user. intros Hin Hid. apply in_map_iff in Hin as [t0 [<- _]].
  destruct (domain.UserID t0 =? userID) eqn:Hu.
  - destruct (domain.Revoked t0) eqn:Hr; [exact Hr | reflexivity].
  - cbn [andb] in *. apply Z.eqb_neq in Hu. contradiction.
Qed.

End password_change_facts.

Section PasswordChange.

Variable argon2id : string -> string -> Z -> Z -> Z -> Z -> string.
Variable utf8_runes : string -> list Z.
Variables unicode_IsUpper unicode_IsLower unicode_IsDigit
          unicode_IsPunct unicode_IsSymbol : Z -> bool.

Hypothesis argon2id_length : argon2_key_length argon2id.

Let ChangePassword :=
  local.ChangePassword argon2id utf8_runes unicode_IsUpper unicode_IsLower
    unicode_IsDigit unicode_IsPunct unicode_IsSymbol.
Let ValidatePassword :=
  local.ValidatePassword utf8_runes unicode_IsUpper unicode_IsLower unicode_IsDigit
    unicode_IsPunct unicode_IsSymbol.

(** X22.  A [ChangePassword] call that returns an error has changed
    nothing, neither the password nor a session nor the log: whether the
    user was not found, the current password did not verify, the new one
    broke the policy, the salt could not be drawn or the update failed. *)
Theorem ChangePassword_failure_changes_nothing (a : local.Adapter) (env : Env)
    (userID : Z) (currentPassword newPassword : string) (w w' : World) (err : error) :
  ChangePassword a env userID currentPassword newPassword w = (Returns (Some err), w') ->
  w' = w.
Proof.
  unfold ChangePassword, local.ChangePassword, bind at 1.
  unfold repositories.UserGetByID, sqlc.GetUserByID, bind at 1.
  destruct (down env OpGetUserByID); [cbn; now intros [= _ <-] |].
  destruct (find _ (users w)) as [user |]; [| cbn; now intros [= _ <-]].
  cbn [ret]. unfold bind at 1, lift.
  destruct (local.Verify argon2id (local.passwordHasher a) currentPassword
              (domain.PasswordHash user)) as [[valid verr] | msg]; [| discriminate].
  destruct (local.is_err verr || negb valid); [cbn; now intros [= _ <-] |].
  fold ValidatePassword.
  destruct (ValidatePassword (local.passwordHasher a) newPassword);
    [cbn; now intros [= _ <-] |].
  unfold bind at 1.
  destruct (local.Hash argon2id (local.passwordHasher a) env newPassword)
    as [[newPasswordHash | e] | msg]; [| cbn; now intros [= _ <-] | discriminate].
  unfold bind at 1, repositories.UpdatePassword, sqlc.UpdateUserPassword.
  destruct (down env OpUpdateUserPassword); [cbn; now intros [= _ <-] |].
  unfold bind, repositories.RevokeAllForUser, sqlc.RevokeAllUserRefreshTokens,
    log_if_err, log_Error, log_Info, ret.
  destruct (down env OpRevokeAllUserRefreshTokens); discriminate.
Qed.

(** X23.  With the store up, a [ChangePassword] call whose current
    password verifies and whose new password meets the policy returns nil
    and leaves the account with a hash that verifies the new password and
    [password_changed_at] at the instant of the call; the counter of
    failed attempts, the lock and the status stay as they were.  Every
    session of the user that was not revoked is revoked, the sessions of
    other users are untouched, and one line is logged. *)
Theorem ChangePassword_success (config : local.Config) (env : Env)
    (userID : Z) (currentPassword newPassword salt : string) (w : World)
    (user : domain.User) :
  down env OpGetUserByID = false ->
  down env OpUpdateUserPassword = false ->
  down env OpRevokeAllUserRefreshTokens = false ->
  user_by_id userID w = Some user ->
  local.Verify argon2id (local.NewPasswordHasher config) currentPassword
    (domain.PasswordHash user) = Returns (true, None) ->
  ValidatePassword (local.NewPasswordHasher config) newPassword = None ->
  rand_Read env 16 = Some salt ->
  exists w' user',
    ChangePassword (local.NewAdapter config) env userID currentPassword newPassword w
    = (Returns None, w')
    /\ user_by_id userID w' = Some user'
    /\ local.Verify argon2id (local.NewPasswordHasher config) newPassword
         (domain.PasswordHash user') = Returns (true, None)
    /\ domain.PasswordChangedAt user' = Some (now env)
    /\ domain.FailedLoginAttempts user' = domain.FailedLoginAttempts user
    /\ domain.LockedUntil user' = domain.LockedUntil user
    /\ domain.Status user' = domain.Status user
    /\ refresh_tokens w' = revoke_user env userID (refresh_tokens w)
    /\ (forall t, In t (refresh_tokens w') -> domain.UserID t = userID ->
                  domain.Revoked t = true)
    /\ (forall t, In t (refresh_tokens w) -> domain.UserID t <> userID ->
                  In t (refresh_tokens w'))
    /\ logs w' = (logs w ++ [info_entry "user changed password" userID])%list.
Proof.
  intros Hget Hupdate Hrevoke Huser Hverify Hvalid Hsalt.
  assert (Hid : domain.ID user = userID).
  { unfold user_by_id in Huser. apply find_some in Huser as [_ H].
    now apply Z.eqb_eq. }
  unfold ChangePassword, local.ChangePassword, bind at 1.
  rewrite (password_change_facts.UserGetByID_found env userID w user Hget Huser).
  cbn [local.NewAdapter local.passwordHasher].
  unfold bind at 1, lift. rewrite Hverify. cbn [local.is_err orb negb].
  fold ValidatePassword. rewrite Hvalid.
  unfold bind at 1.
  rewrite (password_facts.Hash_salt argon2id config env newPassword salt Hsalt).
  unfold bind at 1, repositories.UpdatePassword, sqlc.UpdateUserPassword.
  rewrite Hupdate.
  unfold bind, repositories.RevokeAllForUser, sqlc.RevokeAllUserRefreshTokens.
  rewrite Hrevoke.
  cbn [log_if_err ret log_Info sqlc.set_users sqlc.set_refresh_tokens users
       refresh_tokens refresh_tokens_id_seq logs].
  eexists. eexists. split; [reflexivity |].
  unfold user_by_id in *. cbn [users refresh_tokens logs].
  rewrite password_change_facts.find_id_update by reflexivity.
  rewrite Huser. cbn [option_map]. rewrite Hid, Z.eqb_refl.
  split; [reflexivity |].
  cbn [sqlc.touch sqlc.set_password domain.PasswordHash domain.PasswordChangedAt
       domain.FailedLoginAttempts domain.LockedUntil domain.Status].
  split.
  { rewrite password_facts.Verify_encoded by (now rewrite argon2id_length).
    now rewrite subtle_facts.ConstantTimeCompare_refl. }
  do 4 (split; [reflexivity |]).
  fold (revoke_user env userID (refresh_tokens w)).
  split; [reflexivity |].
  split; [intros t; apply password_change_facts.revoke_user_revoked |].
  split; [| reflexivity].
  intros t Ht Hother. unfold revoke_user. apply in_map_iff. exists t.
  split; [| exact Ht].
  apply Z.eqb_neq in Hother. now rewrite Hother.
Qed.

End PasswordChange.

Lemma ChangePassword_failure_changes_nothing_witness :
  local.ChangePassword pad_argon2id ascii_runes ascii_IsUpper ascii_IsLower ascii_IsDigit
    ascii_IsPunct ascii_IsSymbol sample_adapter (env_at minute) 1 "Passw0rd!" "short"
    (two_sessions false)
  = (Returns (Some (errors_New "password must be at least 8 characters")),
     two_sessions false)
  /\ two_sessions false = two_sessions false.
Proof.
  split; [vm_compute; reflexivity |].
  apply (ChangePassword_failure_changes_nothing pad_argon2id ascii_runes ascii_IsUpper
           ascii_IsLower ascii_IsDigit ascii_IsPunct ascii_IsSymbol sample_adapter
           (env_at minute) 1 "Passw0rd!" "short" (two_sessions false)
           (two_sessions false) (errors_New "password must be at least 8 characters")).
  vm_compute. reflexivity.
Defined.

(** Ann, with two sessions, changes her password at minute 1. *)
Lemma ChangePassword_success_witness :
  down (env_at minute) OpGetUserByID = false
  /\ down (env_at minute) OpUpdateUserPassword = false
  /\ down (env_at minute) OpRevokeAllUserRefreshTokens = false
  /\ user_by_id 1 (two_sessions false) = Some (ann 0 None)
  /\ local.Verify pad_argon2id (local.NewPasswordHasher sample_config) "Passw0rd!"
       (domain.PasswordHash (ann 0 None)) = Returns (true, None)
  /\ ascii_ValidatePassword (local.NewPasswordHasher sample_config) "N3wPassw0rd" = None
  /\ rand_Read (env_at minute) 16 = Some sample_salt
  /\ exists w' user',
       local.ChangePassword pad_argon2id ascii_runes ascii_IsUpper ascii_IsLower
         ascii_IsDigit ascii_IsPunct ascii_IsSymbol (local.NewAdapter sample_config)
         (env_at minute) 1 "Passw0rd!" "N3wPassw0rd" (two_sessions false)
       = (Returns None, w')
       /\ user_by_id 1 w' = Some user'
       /\ local.Verify pad_argon2id (local.NewPasswordHasher sample_config) "N3wPassw0rd"
            (domain.PasswordHash user') = Returns (true, None)
       /\ domain.PasswordChangedAt user' = Some (now (env_at minute))
       /\ domain.FailedLoginAttempts user' = domain.FailedLoginAttempts (ann 0 None)
       /\ domain.LockedUntil user' = domain.LockedUntil (ann 0 None)
       /\ domain.Status user' = domain.Status (ann 0 None)
       /\ refresh_tokens w'
          = revoke_user (env_at minute) 1 (refresh_tokens (two_sessions false))
       /\ (forall t, In t (refresh_tokens w') -> domain.UserID t = 1 ->
                     domain.Revoked t = true)
       /\ (forall t, In t (refresh_tokens (two_sessions false)) ->
                     domain.UserID t <> 1 -> In t (refresh_tokens w'))
       /\ logs w'
          = (logs (two_sessions false) ++ [info_entry "user changed password" 1])%list.
Proof.
  assert (Hverify : local.Verify pad_argon2id (local.NewPasswordHasher sample_config)
                      "Passw0rd!" (domain.PasswordHash (ann 0 None))
                    = Returns (true, None)) by (vm_compute; reflexivity).
  assert (Hvalid : ascii_ValidatePassword (local.NewPasswordHasher sample_config)
                     "N3wPassw0rd" = None) by (vm_compute; reflexivity).
  split; [reflexivity |]. split; [reflexivity |]. split; [reflexivity |].
  split; [reflexivity |]. split; [exact Hverify |]. split; [exact Hvalid |].
  split; [reflexivity |].
  exact (ChangePassword_success pad_argon2id ascii_runes ascii_IsUpper ascii_IsLower
           ascii_IsDigit ascii_IsPunct ascii_IsSymbol
           stand_in_facts.pad_argon2id_length sample_config (env_at minute) 1
           "Passw0rd!" "N3wPassw0rd" sample_salt (two_sessions false) (ann 0 None)
           eq_refl eq_refl eq_refl eq_refl Hverify Hvalid eq_refl).
Defined.

(** ** Logging out *)

Module logout_facts.

Lemma world_eta (w : World) :
  {| users := users w; refresh_tokens := refresh_tokens w;
     refresh_tokens_id_seq := refresh_tokens_id_seq w; logs := logs w |} = w.
Proof. destruct w; reflexivity. Qed.

Lemma revoke_hash_absent (env : Env) (tokenHash : string)
    (ts : list domain.RefreshToken) :
  (forall t, In t ts -> domain.TokenHash t <> tokenHash) ->
  revoke_hash env tokenHash ts = ts.
Proof.
  intros Hfresh. unfold revoke_hash.
  rewrite <- (map_id ts) at 2. apply map_ext_in. intros t Ht.
  specialize (Hfresh t Ht). apply String.eqb_neq in Hfresh. now rewrite Hfresh.
Qed.

(** Revoking by hash again puts the later stamp on the rows. *)
Lemma revoke_hash_twice (env1 env2 : Env) (tokenHash : string)
    (ts : list domain.RefreshToken) :
  revoke_hash env2 tokenHash (revoke_hash env1 tokenHash ts)
  = revoke_hash env2 tokenHash ts.
Proof.
  unfold revoke_hash. rewrite map_map. apply map_ext. intros t.
  destruct (String.eqb (domain.TokenHash t) tokenHash) eqn:E;
    [cbn [sqlc.revoke domain.TokenHash] |]; rewrite E; reflexivity.
Qed.

(** Revoking the sessions of a user again finds none to revoke. *)
Lemma revoke_user_twice (env1 env2 : Env) (userID : Z)
    (ts : list domain.RefreshToken) :
  revoke_user env2 userID (revoke_user env1 userID ts) = revoke_user env1 userID ts.
Proof.
  unfold revoke_user. rewrite map_map. apply map_ext. intros t.
  destruct ((domain.UserID t =? userID) && negb (domain.Revoked t)) eqn:E.
  - cbn [sqlc.revoke domain.UserID domain.Revoked negb]. now rewrite andb_false_r.
  - now rewrite E.
Qed.

End logout_facts.

Section LogoutTwice.

Variable sha256_Sum256 : string -> string.

Let HashToken := local.HashToken sha256_Sum256.
Let Logout := local.Logout sha256_Sum256.

(** X24.  [Logout] takes any string: it does not verify the token.  With
    the store up it returns nil; when no row carries the hash of the
    string, nothing changes; and a second [Logout] of the same token
    stamps its rows again, so that [revoked_at] is the instant of the
    last call, as if the first had not been made. *)
Theorem Logout_again (a : local.Adapter) (env1 env2 : Env) (refreshToken : string)
    (w : World) :
  down env1 OpRevokeRefreshToken = false ->
  down env2 OpRevokeRefreshToken = false ->
  ((forall t, In t (refresh_tokens w) -> domain.TokenHash t <> HashToken refreshToken) ->
   Logout a env1 refreshToken w = (Returns None, w))
  /\ fst (Logout a env1 refreshToken w) = Returns None
  /\ Logout a env2 refreshToken (snd (Logout a env1 refreshToken w))
     = Logout a env2 refreshToken w.
Proof.
  intros Hup1 Hup2.
  unfold Logout, local.Logout, repositories.Revoke, sqlc.RevokeRefreshToken.
  fold HashToken. rewrite Hup1, Hup2. cbn [fst snd].
  fold (revoke_hash env1 (HashToken refreshToken) (refresh_tokens w)).
  split; [| split; [reflexivity |]].
  - intros Hfresh. rewrite (logout_facts.revoke_hash_absent _ _ _ Hfresh).
    unfold sqlc.set_refresh_tokens. now rewrite logout_facts.world_eta.
  - cbn [sqlc.set_refresh_tokens users refresh_tokens refresh_tokens_id_seq logs].
    fold (revoke_hash env2 (HashToken refreshToken)
            (revoke_hash env1 (HashToken refreshToken) (refresh_tokens w))).
    now rewrite logout_facts.revoke_hash_twice.
Qed.

(** X25.  [LogoutAll] revokes the sessions of the user that are not
    revoked yet and leaves the stamp of those that are; a second
    [LogoutAll] for the same user, at whatever instant, returns nil and
    changes nothing. *)
Theorem LogoutAll_again (a : local.Adapter) (env1 env2 : Env) (userID : Z) (w : World) :
  down env1 OpRevokeAllUserRefreshTokens = false ->
  down env2 OpRevokeAllUserRefreshTokens = false ->
  (forall t, In t (refresh_tokens w) -> domain.Revoked t = true ->
             In t (refresh_tokens (snd (local.LogoutAll a env1 userID w))))
  /\ local.LogoutAll a env2 userID (snd (local.LogoutAll a env1 userID w))
     = (Returns None, snd (local.LogoutAll a env1 userID w)).
Proof.
  intros Hup1 Hup2.
  unfold local.LogoutAll, repositories.RevokeAllForUser, sqlc.RevokeAllUserRefreshTokens.
  rewrite Hup1, Hup2. cbn [fst snd].
  fold (revoke_user env1 userID (refresh_tokens w)).
  split.
  - intros t Ht Hrev.
    cbn [sqlc.set_refresh_tokens refresh_tokens]. unfold revoke_user.
    apply in_map_iff. exists t. split; [| exact Ht].
    now rewrite Hrev, andb_false_r.
  - cbn [sqlc.set_refresh_tokens users refresh_tokens refresh_tokens_id_seq logs].
    fold (revoke_user env2 userID (revoke_user env1 userID (refresh_tokens w))).
    now rewrite logout_facts.revoke_user_twice.
Qed.

End LogoutTwice.

Lemma Logout_again_witness :
  down (env_at minute) OpRevokeRefreshToken = false
  /\ down (env_at (2 * minute)) OpRevokeRefreshToken = false
  /\ ((forall t, In t (refresh_tokens (two_sessions false)) ->
                 domain.TokenHash t
                 <> local.HashToken poly_Sum256 (local.RefreshToken sample_pair)) ->
      local.Logout poly_Sum256 sample_adapter (env_at minute)
        (local.RefreshToken sample_pair) (two_sessions false)
      = (Returns None, two_sessions false))
  /\ fst (local.Logout poly_Sum256 sample_adapter (env_at minute)
            (local.RefreshToken sample_pair) (two_sessions false)) = Returns None
  /\ local.Logout poly_Sum256 sample_adapter (env_at (2 * minute))
       (local.RefreshToken sample_pair)
       (snd (local.Logout poly_Sum256 sample_adapter (env_at minute)
               (local.RefreshToken sample_pair) (two_sessions false)))
     = local.Logout poly_Sum256 sample_adapter (env_at (2 * minute))
         (local.RefreshToken sample_pair) (two_sessions false).
Proof.
  split; [reflexivity |]. split; [reflexivity |].
  exact (Logout_again poly_Sum256 sample_adapter (env_at minute) (env_at (2 * minute))
           (local.RefreshToken sample_pair) (two_sessions false) eq_refl eq_refl).
Defined.

Lemma LogoutAll_again_witness :
  down (env_at minute) OpRevokeAllUserRefreshTokens = false
  /\ down (env_at (2 * minute)) OpRevokeAllUserRefreshTokens = false
  /\ (forall t, In t (refresh_tokens (two_sessions true)) -> domain.Revoked t = true ->
                In t (refresh_tokens
                        (snd (local.LogoutAll sample_adapter (env_at minute) 1
                                (two_sessions true)))))
  /\ local.LogoutAll sample_adapter (env_at (2 * minute)) 1
       (snd (local.LogoutAll sample_adapter (env_at minute) 1 (two_sessions true)))
     = (Returns None,
        snd (local.LogoutAll sample_adapter (env_at minute) 1 (two_sessions true))).
Proof.
  split; [reflexivity |]. split; [reflexivity |].
  exact (LogoutAll_again sample_adapter (env_at minute) (env_at (2 * minute)) 1
           (two_sessions true) eq_refl eq_refl).
Defined.

(** ** The repositories *)

Module lookup_facts.

(** Under a key constraint, a lookup by key and a further test finds the
    row that passes both. *)
Lemma find_by_key {A K : Type} (key : A -> K) (eqb : K -> K -> bool)
    (p : A -> bool) (l : list A) (k : K) (x : A) :
  (forall a b, eqb a b = true <-> a = b) ->
  NoDup (map key l) -> In x l -> key x = k -> p x = true ->
  find (fun y => eqb (key y) k && p y) l = Some x.
Proof.
  intros Heqb Hnd Hin Hk Hp.
  destruct (find _ l) as [y |] eqn:Hfind.
  - apply find_some in Hfind as [Hy Hq]. apply andb_true_iff in Hq as [Hq _].
    apply Heqb in Hq. f_equal.
    apply (token_facts.key_unique key l y x Hnd Hy Hin). congruence.
  - exfalso. pose proof (find_none _ _ Hfind x Hin) as Hnone. cbn beta in Hnone.
    assert (eqb (key x) k = true) by (now apply Heqb).
    rewrite H, Hp in Hnone. discriminate.
Qed.



End lookup_facts.

(** X26.  Under the UNIQUE constraint on the hash, [GetByHash] returns
    the row that carries the hash when that row has not expired at the
    instant of the call, revoked or not, and [domain.ErrInvalidToken] when
    no row carries the hash or the one that does has expired; an error of
    the driver comes back as it is.  The store is not changed. *)
Theorem GetByHash_answers (env : Env) (tokenHash : string) (w : World) :
  token_hash_key w ->
  (down env OpGetRefreshTokenByHash = false ->
   forall t, In t (refresh_tokens w) -> domain.TokenHash t = tokenHash ->
             now env < domain.ExpiresAt t ->
             repositories.GetByHash env tokenHash w = (Returns (inl t), w))
  /\ (down env OpGetRefreshTokenByHash = false ->
      (forall t, In t (refresh_tokens w) -> domain.TokenHash t = tokenHash ->
                 domain.ExpiresAt t <= now env) ->
      repositories.GetByHash env tokenHash w = (Returns (inr domain.ErrInvalidToken), w))
  /\ (down env OpGetRefreshTokenByHash = true ->
      repositories.GetByHash env tokenHash w
      = (Returns (inr (driver_Err OpGetRefreshTokenByHash)), w)).
Proof.
  intros Hkey.
  unfold repositories.GetByHash, sqlc.GetRefreshTokenByHash, bind.
  split; [| split].
  - intros -> t Hin Hhash Hlive.
    rewrite (lookup_facts.find_by_key domain.TokenHash String.eqb
               (fun t => now env <? domain.ExpiresAt t) (refresh_tokens w) tokenHash t
               String.eqb_eq Hkey Hin Hhash);
      [reflexivity | now apply Z.ltb_lt].
  - intros -> Hexpired.
    destruct (find _ (refresh_tokens w)) as [t |] eqn:Hfind; [| reflexivity].
    apply find_some in Hfind as [Hin Hp]. apply andb_true_iff in Hp as [Hh He].
    apply String.eqb_eq in Hh. apply Z.ltb_lt in He.
    specialize (Hexpired t Hin Hh). lia.
  - intros ->. reflexivity.
Qed.

Lemma GetByHash_answers_witness :
  token_hash_key (two_sessions true)
  /\ (down (env_at minute) OpGetRefreshTokenByHash = false ->
      forall t, In t (refresh_tokens (two_sessions true)) ->
                domain.TokenHash t = local.HashToken poly_Sum256 "laptop" ->
                now (env_at minute) < domain.ExpiresAt t ->
                repositories.GetByHash (env_at minute)
                  (local.HashToken poly_Sum256 "laptop") (two_sessions true)
                = (Returns (inl t), two_sessions true))
  /\ (down (env_at minute) OpGetRefreshTokenByHash = false ->
      (forall t, In t (refresh_tokens (two_sessions true)) ->
                 domain.TokenHash t = local.HashToken poly_Sum256 "laptop" ->
                 domain.ExpiresAt t <= now (env_at minute)) ->
      repositories.GetByHash (env_at minute) (local.HashToken poly_Sum256 "laptop")
        (two_sessions true)
      = (Returns (inr domain.ErrInvalidToken), two_sessions true))
  /\ (down (env_at minute) OpGetRefreshTokenByHash = true ->
      repositories.GetByHash (env_at minute) (local.HashToken poly_Sum256 "laptop")
        (two_sessions true)
      = (Returns (inr (driver_Err OpGetRefreshTokenByHash)), two_sessions true)).
Proof.
  assert (Hkey : token_hash_key (two_sessions true)).
  { unfold token_hash_key. cbn [two_sessions world_of refresh_tokens map].
    constructor; [| repeat constructor; intros []].
    intros [H | []]. vm_compute in H. discriminate H. }
  split; [exact Hkey |].
  exact (GetByHash_answers (env_at minute) (local.HashToken poly_Sum256 "laptop")
           (two_sessions true) Hkey).
Defined.

Section Housekeeping.

Variable argon2id : string -> string -> Z -> Z -> Z -> Z -> string.
Variable SignedString : string -> local.Claims -> string + error.
Variable jwt_decode : string -> string -> option local.Claims.
Variable sha256_Sum256 : string -> string.

Let Login := local.Login argon2id SignedString sha256_Sum256.
Let RefreshTokens := local.RefreshTokens SignedString jwt_decode sha256_Sum256.
Let HashToken := local.HashToken sha256_Sum256.

(** X27.  [UpdateEmailVerified] marks the email as verified and makes the
    account [active] whatever its status was, suspended and deleted
    included; the password hash, the counter and the lock stay.  From
    then on [Login] with a password that verifies is let through the
    status check. *)
Theorem UpdateEmailVerified_activates (env : Env) (email : string) (w : World)
    (user : domain.User) :
  user_by_email email w = Some user ->
  exists w' user',
    repositories.UpdateEmailVerified env None (domain.ID user) w = (Returns None, w')
    /\ user_by_email email w' = Some user'
    /\ domain.EmailVerified user' = true
    /\ domain.Status user' = domain.UserStatusActive
    /\ domain.PasswordHash user' = domain.PasswordHash user
    /\ domain.FailedLoginAttempts user' = domain.FailedLoginAttempts user
    /\ domain.LockedUntil user' = domain.LockedUntil user
    /\ forall a env' password ip ua tokenPair,
         down env' OpGetUserByEmail = false ->
         domain.IsLocked (now env') user = false ->
         local.Verify argon2id (local.passwordHasher a) password
           (domain.PasswordHash user) = Returns (true, None) ->
         local.GenerateTokenPair SignedString (local.jwtManager a) env' (domain.ID user)
           (domain.Email user) true (domain.UserRole_string (domain.Role user))
         = inl tokenPair ->
         exists w2,
           Login a env' email password ip ua w' = (Returns (inl (tokenPair, user')), w2).
Proof.
  intros Huser.
  unfold repositories.UpdateEmailVerified, sqlc.UpdateUserEmailVerified.
  eexists. eexists. split; [reflexivity |].
  unfold user_by_email in *. cbn [sqlc.set_users users].
  rewrite store_facts.find_email_update by reflexivity.
  rewrite Huser. cbn [option_map]. rewrite Z.eqb_refl.
  split; [reflexivity |].
  cbn [sqlc.touch sqlc.set_email_verified domain.EmailVerified domain.Status
       domain.PasswordHash domain.FailedLoginAttempts domain.LockedUntil].
  do 5 (split; [reflexivity |]).
  intros a env' password ip ua tokenPair Hup Hunlocked Hverify Hgen.
  apply (session_facts.Login_match argon2id SignedString sha256_Sum256 a env' email
           password ip ua).
  - exact Hup.
  - unfold user_by_email. cbn [sqlc.set_users users].
    rewrite store_facts.find_email_update by reflexivity.
    rewrite Huser. cbn [option_map]. now rewrite Z.eqb_refl.
  - exact Hunlocked.
  - left. reflexivity.
  - exact Hverify.
  - exact Hgen.
Qed.

(** X28.  [Delete] removes the rows of [users] with the id and, with
    them, the sessions of that user, and nothing else.  Afterwards
    [Login] with the email of the deleted user is answered
    [ErrInvalidCredentials] like any unknown email, and [RefreshTokens]
    with a token of one of the sessions fails without a change to the
    store. *)
Theorem Delete_cascades (id : Z) (w : World) :
  exists w',
    repositories.Delete None id w = (Returns None, w')
    /\ (forall u, In u (users w') <-> In u (users w) /\ domain.ID u <> id)
    /\ (forall t, In t (refresh_tokens w')
                  <-> In t (refresh_tokens w) /\ domain.UserID t <> id)
    /\ (forall a env email password ip ua user,
          users_email_key w ->
          user_by_email email w = Some user ->
          domain.ID user = id ->
          Login a env email password ip ua w'
          = (Returns (inr domain.ErrInvalidCredentials), w'))
    /\ (forall a env refreshToken t,
          token_hash_key w ->
          In t (refresh_tokens w) ->
          domain.TokenHash t = HashToken refreshToken ->
          domain.UserID t = id ->
          exists err, RefreshTokens a env refreshToken w' = (Returns (inr err), w')).
Proof.
  unfold repositories.Delete, sqlc.DeleteUser.
  eexists. split; [reflexivity |]. cbn [users refresh_tokens].
  assert (Hneq : forall x, negb (x =? id) = true <-> x <> id).
  { intros x. rewrite negb_true_iff. apply Z.eqb_neq. }
  split; [intros u; rewrite filter_In, Hneq; reflexivity |].
  split; [intros t; rewrite filter_In, Hneq; reflexivity |].
  split.
  - intros a env email password ip ua user Hkey Huser Hid.
    apply (login_facts.Login_no_user argon2id SignedString sha256_Sum256).
    right. unfold user_by_email in *. cbn [users].
    destruct (find _ (filter _ (users w))) as [u |] eqn:Hfind; [| reflexivity].
    exfalso. apply find_some in Hfind as [Hu Hmail].
    apply filter_In in Hu as [Hu Hkeep]. apply Hneq in Hkeep.
    apply String.eqb_eq in Hmail.
    apply find_some in Huser as [Huser Hmail']. apply String.eqb_eq in Hmail'.
    apply Hkeep. rewrite <- Hid. f_equal.
    apply (token_facts.key_unique domain.Email (users w) u user Hkey Hu Huser).
    congruence.
  - intros a env refreshToken t Hkey Ht Hhash Hid.
    destruct (token_facts.RefreshTokens_unknown_hash SignedString jwt_decode
                sha256_Sum256 a env refreshToken
                {| users := filter (fun u => negb (domain.ID u =? id)) (users w);
                   refresh_tokens :=
                     filter (fun t => negb (domain.UserID t =? id)) (refresh_tokens w);
                   refresh_tokens_id_seq := refresh_tokens_id_seq w;
                   logs := logs w |}) as [err [Herr _]]; [| eauto].
    cbn [refresh_tokens]. intros t' Ht' Hhash'.
    apply filter_In in Ht' as [Ht' Hkeep]. apply Hneq in Hkeep.
    apply Hkeep. rewrite <- Hid. f_equal.
    apply (token_facts.key_unique domain.TokenHash (refresh_tokens w) t' t Hkey Ht' Ht).
    unfold HashToken in *. congruence.
Qed.

End Housekeeping.

(** Ann, suspended, has her email marked as verified. *)
Lemma UpdateEmailVerified_activates_witness :
  user_by_email "a@x.com"
    (world_of [with_status domain.UserStatusSuspended (ann 0 None)] [])
  = Some (with_status domain.UserStatusSuspended (ann 0 None))
  /\ exists w' user',
       repositories.UpdateEmailVerified (env_at minute) None
         (domain.ID (with_status domain.UserStatusSuspended (ann 0 None)))
         (world_of [with_status domain.UserStatusSuspended (ann 0 None)] [])
       = (Returns None, w')
       /\ user_by_email "a@x.com" w' = Some user'
       /\ domain.EmailVerified user' = true
       /\ domain.Status user' = domain.UserStatusActive
       /\ domain.PasswordHash user'
          = domain.PasswordHash (with_status domain.UserStatusSuspended (ann 0 None))
       /\ domain.FailedLoginAttempts user'
          = domain.FailedLoginAttempts
              (with_status domain.UserStatusSuspended (ann 0 None))
       /\ domain.LockedUntil user'
          = domain.LockedUntil (with_status domain.UserStatusSuspended (ann 0 None))
       /\ forall a env' password ip ua tokenPair,
            down env' OpGetUserByEmail = false ->
            domain.IsLocked (now env')
              (with_status domain.UserStatusSuspended (ann 0 None)) = false ->
            local.Verify pad_argon2id (local.passwordHasher a) password
              (domain.PasswordHash (with_status domain.UserStatusSuspended (ann 0 None)))
            = Returns (true, None) ->
            local.GenerateTokenPair plain_SignedString (local.jwtManager a) env'
              (domain.ID (with_status domain.UserStatusSuspended (ann 0 None)))
              (domain.Email (with_status domain.UserStatusSuspended (ann 0 None)))
              true
              (domain.UserRole_string
                 (domain.Role (with_status domain.UserStatusSuspended (ann 0 None))))
            = inl tokenPair ->
            exists w2,
              local.Login pad_argon2id plain_SignedString poly_Sum256 a env' "a@x.com"
                password ip ua w'
              = (Returns (inl (tokenPair, user')), w2).
Proof.
  split; [reflexivity |].
  exact (UpdateEmailVerified_activates pad_argon2id plain_SignedString poly_Sum256
           (env_at minute) "a@x.com"
           (world_of [with_status domain.UserStatusSuspended (ann 0 None)] [])
           (with_status domain.UserStatusSuspended (ann 0 None)) eq_refl).
Defined.

(** ** Deleting expired sessions *)

Module expiry_facts.

Section Answer.

Variable SignedString : string -> local.Claims -> string + error.
Variable jwt_decode : string -> string -> option local.Claims.
Variable sha256_Sum256 : string -> string.

Let HashToken := local.HashToken sha256_Sum256.
Let RefreshTokens := local.RefreshTokens SignedString jwt_decode sha256_Sum256.


End Answer.


End expiry_facts.

Section DeleteExpired.

Variable SignedString : string -> local.Claims -> string + error.
Variable jwt_decode : string -> string -> option local.Claims.
Variable sha256_Sum256 : string -> string.

Let RefreshTokens := local.RefreshTokens SignedString jwt_decode sha256_Sum256.


End DeleteExpired.


(** ** The errors of [Login] *)

Section LoginErrors.

Variable argon2id : string -> string -> Z -> Z -> Z -> Z -> string.
Variable SignedString : string -> local.Claims -> string + error.
Variable sha256_Sum256 : string -> string.

Let Login := local.Login argon2id SignedString sha256_Sum256.

(** X30.  The errors of [Login] are [ErrInvalidCredentials],
    [ErrAccountLocked], [ErrAccountInactive] and the failure to sign a
    token, wrapped; an error of the store at the lookup is answered
    [ErrInvalidCredentials].  A [Login] that returns an error has added,
    removed and revoked no session. *)
Theorem Login_errors (a : local.Adapter) (env : Env) (email password ip ua : string)
    (w w' : World) (err : error) :
  Login a env email password ip ua w = (Returns (inr err), w') ->
  (err = domain.ErrInvalidCredentials
   \/ err = domain.ErrAccountLocked
   \/ err = domain.ErrAccountInactive
   \/ exists signErr, err = fmt_Errorf "failed to generate tokens" signErr)
  /\ refresh_tokens w' = refresh_tokens w.
Proof.
  unfold Login, local.Login, bind at 1.
  unfold repositories.UserGetByEmail, sqlc.GetUserByEmail, bind at 1.
  destruct (down env OpGetUserByEmail); [cbn; intros [= <- <-]; auto |].
  destruct (find _ (users w)) as [user |]; [| cbn; intros [= <- <-]; auto].
  cbn [ret].
  destruct (domain.IsLocked (now env) user); [cbn; intros [= <- <-]; auto |].
  destruct (negb _ && negb _); [cbn; intros [= <- <-]; auto |].
  unfold bind at 1, lift.
  destruct (local.Verify argon2id (local.passwordHasher a) password
              (domain.PasswordHash user)) as [[valid verr] | msg]; [| discriminate].
  destruct (local.is_err verr || negb valid).
  - unfold bind, repositories.IncrementFailedLoginAttempts,
      sqlc.IncrementFailedLoginAttempts, repositories.LockAccount, sqlc.LockUserAccount,
      log_if_err, log_Error, ret.
    repeat match goal with
           | |- context [if ?c then _ else _] => destruct c
           end; intros [= <- <-]; auto.
  - unfold bind at 1.
    destruct (local.GenerateTokenPair _ _ _ _ _ _ _) as [tokenPair | signErr].
    + unfold bind, repositories.ResetFailedLoginAttempts, sqlc.ResetFailedLoginAttempts,
        repositories.Create, sqlc.CreateRefreshToken,
        repositories.UpdateLastLogin, sqlc.UpdateUserLastLogin,
        log_if_err, log_Error, log_Info, ret.
      repeat match goal with
             | |- context [if ?c then _ else _] => destruct c
             end; discriminate.
    + unfold bind, repositories.ResetFailedLoginAttempts, sqlc.ResetFailedLoginAttempts,
        log_if_err, log_Error, ret.
      repeat match goal with
             | |- context [if ?c then _ else _] => destruct c
             end; intros [= <- <-]; eauto 6.
Qed.

End LoginErrors.

Lemma Login_errors_witness :
  local.Login pad_argon2id plain_SignedString poly_Sum256 sample_adapter (env_at minute)
    "a@x.com" "guess" "10.0.0.1" "curl" (two_sessions false)
  = (Returns (inr domain.ErrInvalidCredentials),
     sqlc.set_users
       (after_mismatch sample_adapter (env_at minute) (ann 0 None)
          (users (two_sessions false))) (two_sessions false))
  /\ (domain.ErrInvalidCredentials = domain.ErrInvalidCredentials
      \/ domain.ErrInvalidCredentials = domain.ErrAccountLocked
      \/ domain.ErrInvalidCredentials = domain.ErrAccountInactive
      \/ exists signErr,
           domain.ErrInvalidCredentials
           = fmt_Errorf "failed to generate tokens" signErr)
  /\ refresh_tokens
       (sqlc.set_users
          (after_mismatch sample_adapter (env_at minute) (ann 0 None)
             (users (two_sessions false))) (two_sessions false))
     = refresh_tokens (two_sessions false).
Proof.
  split; [vm_compute; reflexivity |].
  apply (Login_errors pad_argon2id plain_SignedString poly_Sum256 sample_adapter
           (env_at minute) "a@x.com" "guess" "10.0.0.1" "curl" (two_sessions false)).
  vm_compute. reflexivity.
Defined.
